(** * MyST reader for Pelican: shallow embedding of [myst_reader.py]

    The development follows the Python module function by function.
    Python strings are sequences of Unicode code points, Python values
    are a small tagged union, exceptions are values of an error type,
    and the reader's side effects (the shared parser configuration and
    the calls made to the external collaborators) are threaded through
    an explicit world. *)

From Stdlib Require Import ZArith NArith List String Ascii Bool Lia Permutation.
From Stdlib Require Import SpecFloat DecimalString.
Import ListNotations.

Open Scope string_scope.
Open Scope list_scope.

(** ** Python strings *)

Module PyStr.

(** A character is a Unicode code point. *)
Definition char := N.
Definition str := list char.

(** Literals are written as Rocq strings and read byte by byte
    (every literal of the source is ASCII). *)
Definition lit (s : string) : str :=
  map N_of_ascii (list_ascii_of_string s).

(** The double quote cannot appear inside a literal; it is code point 34. *)
Definition dquote : char := 34%N.
Definition newline : char := 10%N.
Definition carriage_return : char := 13%N.

Fixpoint eqb (a b : str) : bool :=
  match a, b with
  | [], [] => true
  | x :: a', y :: b' => N.eqb x y && eqb a' b'
  | _, _ => false
  end.

(** [s in [l1, ..., ln]] for a list of strings. *)
Definition mem (s : str) (l : list str) : bool := existsb (eqb s) l.

(** [str.isspace] on one code point (the interpreter's whitespace table). *)
Definition isspace (c : char) : bool :=
  (((9 <=? c) && (c <=? 13)) || ((28 <=? c) && (c <=? 32))
   || (c =? 133) || (c =? 160) || (c =? 5760)
   || ((8192 <=? c) && (c <=? 8202))
   || (c =? 8232) || (c =? 8233) || (c =? 8239) || (c =? 8287)
   || (c =? 12288))%N.

(** Line boundaries recognised by [str.splitlines]. *)
Definition is_linebreak (c : char) : bool :=
  (((10 <=? c) && (c <=? 13)) || ((28 <=? c) && (c <=? 30))
   || (c =? 133) || (c =? 8232) || (c =? 8233))%N.

(** [rstrip], [lstrip] and [strip] over a character class. *)
Definition rstrip_by (p : char -> bool) (s : str) : str :=
  fold_right
    (fun c acc =>
       match acc with
       | [] => if p c then [] else [c]
       | _ :: _ => c :: acc
       end) [] s.

Fixpoint lstrip_by (p : char -> bool) (s : str) : str :=
  match s with
  | [] => []
  | c :: s' => if p c then lstrip_by p s' else s
  end.

Definition strip_by (p : char -> bool) (s : str) : str :=
  lstrip_by p (rstrip_by p s).

(** [s.rstrip()] and [s.strip()]: whitespace. *)
Definition rstrip : str -> str := rstrip_by isspace.
Definition strip : str -> str := strip_by isspace.

(** [s.strip(chars)]: any character of [chars]. *)
Definition strip_chars (chars : str) : str -> str :=
  strip_by (fun c => existsb (N.eqb c) chars).

(** [s.splitlines()], line ends dropped; [\r\n] counts as one boundary and
    a trailing boundary opens no empty last line. [cur] is the line being
    read, reversed. *)
Fixpoint splitlines_from (cur : str) (s : str) : list str :=
  match s with
  | [] => match cur with [] => [] | _ :: _ => [rev cur] end
  | c :: s' =>
      if is_linebreak c then
        rev cur ::
          match s' with
          | c' :: s'' =>
              if (c =? carriage_return) && (c' =? newline)
              then splitlines_from [] s''
              else splitlines_from [] s'
          | [] => splitlines_from [] s'
          end
      else splitlines_from (c :: cur) s'
  end%N.

Definition splitlines (s : str) : list str := splitlines_from [] s.

(** [s.partition(sep)] for a one-character separator. *)
Fixpoint partition (sep : char) (s : str) : str * str * str :=
  match s with
  | [] => ([], [], [])
  | c :: s' =>
      if (c =? sep)%N then ([], [sep], s')
      else let '(before, found, after) := partition sep s' in
           (c :: before, found, after)
  end.

(** [s.split(sep)] for a one-character separator: never empty. *)
Fixpoint split (sep : char) (s : str) : list str :=
  match s with
  | [] => [[]]
  | c :: s' =>
      if (c =? sep)%N then [] :: split sep s'
      else match split sep s' with
           | [] => [[c]]
           | w :: ws => (c :: w) :: ws
           end
  end.

(** [s.startswith(p)]. *)
Fixpoint startswith (p s : str) : bool :=
  match p, s with
  | [], _ => true
  | _ :: _, [] => false
  | a :: p', b :: s' => (a =? b)%N && startswith p' s'
  end.

(** [s.replace(old, new)]: occurrences of [old] are found from left to
    right and do not overlap. [skip] counts the characters of a matched
    occurrence still to be dropped. *)
Fixpoint replace_from (old new : str) (skip : nat) (s : str) : str :=
  match s with
  | [] => []
  | c :: s' =>
      match skip with
      | S k => replace_from old new k s'
      | O =>
          if startswith old s
          then new ++ replace_from old new (Nat.pred (List.length old)) s'
          else c :: replace_from old new 0 s'
      end
  end.

(** With an empty [old], Python puts [new] before every character and
    at the end. *)
Definition replace (old new : str) (s : str) : str :=
  match old with
  | [] => flat_map (fun c => new ++ [c]) s ++ new
  | _ :: _ => replace_from old new 0 s
  end.

(** [str(n)] for an integer. *)
Definition of_int (z : Z) : str := lit (NilZero.string_of_int (Z.to_int z)).

End PyStr.

Import PyStr.

(** ** Exceptions, results and Python values *)

(** The exceptions the module raises itself carry their message; those
    raised by the interpreter or by a collaborator are kept by class. *)
Inductive exn : Type :=
| Exception (msg : str)
| ValueError (msg : str)
| TypeError
| AttributeError
| IndexError
| ZeroDivisionError
| OverflowError
| JSONDecodeError
| OSError.

Inductive result (A : Type) : Type :=
| Ok (a : A)
| Raise (e : exn).

Arguments Ok {A} a.
Arguments Raise {A} e.

Definition is_ok {A} (r : result A) : bool :=
  match r with Ok _ => true | Raise _ => false end.

Definition result_bind {A B} (r : result A) (k : A -> result B) : result B :=
  match r with
  | Ok a => k a
  | Raise e => Raise e
  end.

Declare Scope result_scope.
Delimit Scope result_scope with res.
Notation "x <- m ;; k" := (result_bind m (fun x => k))
  (at level 61, m at next level, right associativity) : result_scope.
Notation "' p <- m ;; k" := (result_bind m (fun x => let 'p := x in k))
  (at level 61, p pattern, m at next level, right associativity) : result_scope.
Notation "m ;; k" := (result_bind m (fun _ => k))
  (at level 61, right associativity) : result_scope.

(** [try: body except ValueError as e: handler(e)]. *)
Definition except_ValueError {A} (body : result A) (handler : str -> result A)
  : result A :=
  match body with
  | Raise (ValueError msg) => handler msg
  | other => other
  end.

(** Binary64 floats, as the interpreter's [float]. *)
Module PyFloat.

Definition float := spec_float.
Definition prec : Z := 53.
Definition emax : Z := 1024.

(** [float(n)] for an integer: nearest float, [OverflowError] past the range. *)
Definition of_int (z : Z) : result float :=
  match binary_normalize prec emax z 0 false with
  | S754_infinity _ => Raise OverflowError
  | f => Ok f
  end.

(** [a / b]. *)
Definition truediv (a b : float) : result float :=
  match b with
  | S754_zero _ => Raise ZeroDivisionError
  | _ => Ok (SFdiv prec emax a b)
  end.

(** [math.ceil(x)]: the least integer not below [x], exactly. *)
Definition ceil (x : float) : result Z :=
  match x with
  | S754_nan => Raise (ValueError (lit "cannot convert float NaN to integer"))
  | S754_infinity _ => Raise OverflowError
  | S754_zero _ => Ok 0%Z
  | S754_finite s m e =>
      let v := if s then Z.neg m else Z.pos m in
      Ok (if (0 <=? e)%Z then v * 2 ^ e
          else - ((- v) / 2 ^ (- e)))%Z
  end.

End PyFloat.

#[warnings="-register-all"]
Inductive pyval : Type :=
| PyNone
| PyBool (b : bool)
| PyInt (z : Z)
| PyFloat (f : PyFloat.float)
| PyStr (s : str)
| PyList (l : list pyval)
| PyDict (d : list (str * pyval)).

(** Truth value of a Python object. *)
Definition truthy (v : pyval) : bool :=
  match v with
  | PyNone => false
  | PyBool b => b
  | PyInt z => negb (z =? 0)%Z
  | PyFloat (S754_zero _) => false
  | PyFloat _ => true
  | PyStr [] | PyList [] | PyDict [] => false
  | PyStr _ | PyList _ | PyDict _ => true
  end.

(** [v in (s1, ..., sn)] for a tuple of strings. *)
Definition py_in (v : pyval) (l : list str) : bool :=
  match v with
  | PyStr s => mem s l
  | _ => false
  end.

(** Dictionaries with string keys keep insertion order; assigning to a key
    that is present replaces its value in place. *)
Module Dict.

Section Ops.
Context {V : Type}.

Fixpoint get (k : str) (d : list (str * V)) : option V :=
  match d with
  | [] => None
  | (k', v) :: d' => if PyStr.eqb k k' then Some v else get k d'
  end.

(** [d.get(k, default)] *)
Definition get_default (k : str) (default : V) (d : list (str * V)) : V :=
  match get k d with
  | Some v => v
  | None => default
  end.

(** [d[k] = v] *)
Fixpoint set (k : str) (v : V) (d : list (str * V)) : list (str * V) :=
  match d with
  | [] => [(k, v)]
  | (k', v') :: d' =>
      if PyStr.eqb k k' then (k', v) :: d' else (k', v') :: set k v d'
  end.

(** [k in d] *)
Definition has (k : str) (d : list (str * V)) : bool :=
  match get k d with Some _ => true | None => false end.
End Ops.

End Dict.

(** ** The metadata-block checker *)

(** The loop of [_check_yaml_metadata_block] over [content_lines[1:]]:
    [yaml_block_end] starts as the empty string and becomes the index of the
    first closing line. *)
Fixpoint yaml_block_end_from (line_num : Z) (lines : list str) : pyval :=
  match lines with
  | [] => PyStr []
  | line :: lines' =>
      if mem (rstrip line) [lit "---"; lit "..."] then PyInt line_num
      else yaml_block_end_from (line_num + 1) lines'
  end.

Definition _check_yaml_metadata_block (content : str) : result unit :=
  if negb (truthy (PyStr content)) then
    Raise (Exception (lit "Could not find metadata. File is empty."))
  else
    let content_lines := splitlines content in
    match content_lines with
    | [] => Raise IndexError
    | first :: _ =>
        if negb (mem (rstrip first) [lit "---"]) then
          Raise (Exception (lit "Could not find metadata header '---'."))
        else
          let yaml_block_end := yaml_block_end_from 0 (tl content_lines) in
          if negb (truthy yaml_block_end) then
            Raise (Exception (lit "Could not find end of metadata block."))
          else Ok tt
    end.

Definition doc (lines : list string) : str :=
  flat_map (fun l => lit l ++ [newline]) lines.

(** ** Parsed HTML

    The tree the HTML library hands back: text nodes and tags. The
    document object itself is a tag whose children are the top-level
    nodes. *)

Module Soup.

#[warnings="-register-all"]
Inductive node : Type :=
| Text (s : str)
| Tag (name : str) (attrs : list (str * str)) (children : list node).

Definition children (n : node) : list node :=
  match n with
  | Text _ => []
  | Tag _ _ cs => cs
  end.

(** The nodes below [n], in document order ([n] itself left out). *)
Fixpoint descendants (n : node) : list node :=
  match n with
  | Text _ => []
  | Tag _ _ cs => flat_map (fun c => c :: descendants c) cs
  end.

Definition is_named (name : str) (n : node) : bool :=
  match n with
  | Text _ => false
  | Tag name' _ _ => PyStr.eqb name' name
  end.

Definition has_attr (key value : str) (n : node) : bool :=
  match n with
  | Text _ => false
  | Tag _ attrs _ =>
      match Dict.get key attrs with
      | Some v => PyStr.eqb v value
      | None => false
      end
  end.

(** [tag.find(...)]: the first descendant that matches. *)
Definition find (p : node -> bool) (n : node) : option node :=
  List.find p (descendants n).

(** [soup.body] *)
Definition body (soup : node) : option node := find (is_named (lit "body")) soup.

(** [find("nav", id="TOC")] *)
Definition is_toc (n : node) : bool :=
  is_named (lit "nav") n && has_attr (lit "id") (lit "TOC") n.

(** Replace the first descendant of [n] that satisfies [p] by the nodes
    [g] makes of it; [None] when there is none. *)
Fixpoint edit_first (p : node -> bool) (g : node -> list node) (n : node)
  : option node :=
  match n with
  | Text _ => None
  | Tag name attrs cs =>
      let go :=
        fix go (l : list node) : option (list node) :=
          match l with
          | [] => None
          | c :: l' =>
              if p c then Some (g c ++ l')
              else match edit_first p g c with
                   | Some c' => Some (c' :: l')
                   | None =>
                       match go l' with
                       | Some l'' => Some (c :: l'')
                       | None => None
                       end
                   end
          end in
      match go cs with
      | Some cs' => Some (Tag name attrs cs')
      | None => None
      end
  end.

(** [tag.find(...).decompose()]: drop the first match below [n]. *)
Definition decompose_first (p : node -> bool) (n : node) : node :=
  match edit_first p (fun _ => []) n with
  | Some n' => n'
  | None => n
  end.

(** [soup.body.find("nav", id="TOC").decompose()] *)
Definition decompose_toc (soup : node) : node :=
  match edit_first (is_named (lit "body"))
          (fun b => [decompose_first is_toc b]) soup with
  | Some soup' => soup'
  | None => soup
  end.

(** [soup.body.unwrap()]: the body gives way to its children. *)
Definition unwrap_body (soup : node) : option node :=
  edit_first (is_named (lit "body")) children soup.

End Soup.

(** ** The collaborators

    Everything the reader calls and does not define: the host's file
    opener and metadata hook, the file system, the Markdown converter, the
    JSON and HTML libraries, the word counter, and two routines of the
    interpreter that depend on its tables ([float] of a string,
    [str.lower]). *)

Class Host : Type := {
  pelican_open : str -> result str;
  os_walk : str -> list (str * list str);
  path_basename : str -> str;
  path_dirname : str -> str;
  path_abspath : str -> str;
  path_splitext : str -> str * str;
  path_join : str -> str -> str;
  to_html : str -> list pyval -> result str;
  json_loads : str -> result pyval;
  html_parser : str -> Soup.node;
  decode : Soup.node -> str;
  process_metadata : str -> pyval -> result pyval;
  count_words_in_markdown : str -> Z;
  parse_float : str -> option PyFloat.float;
  str_lower : str -> str
}.

(** ** The world the reader runs in

    [enable_extensions] is the list held by the class-level parser
    configuration, shared by every call; [trace] records, oldest first,
    the calls made to the converter and to the metadata hook. A raised
    exception keeps the world as it was when raised. *)

Inductive event : Type :=
| Convert (content : str) (extensions : list pyval)
| Hook (key : str) (value : pyval).

Record world : Type := {
  enable_extensions : list pyval;
  trace : list event
}.

Definition M (A : Type) : Type := world -> result A * world.

Definition ret {A} (a : A) : M A := fun w => (Ok a, w).

Definition bind {A B} (m : M A) (k : A -> M B) : M B :=
  fun w =>
    match m w with
    | (Ok a, w') => k a w'
    | (Raise e, w') => (Raise e, w')
    end.

Definition lift {A} (r : result A) : M A := fun w => (r, w).

Definition emit (e : event) : M unit :=
  fun w => (Ok tt, {| enable_extensions := enable_extensions w;
                      trace := trace w ++ [e] |}).

Declare Scope io_scope.
Delimit Scope io_scope with io.
Notation "x <- m ;; k" := (bind m (fun x => k))
  (at level 61, m at next level, right associativity) : io_scope.
Notation "' p <- m ;; k" := (bind m (fun x => let 'p := x in k))
  (at level 61, p pattern, m at next level, right associativity) : io_scope.
Notation "m ;; k" := (bind m (fun _ => k))
  (at level 61, right associativity) : io_scope.

(** ** Module constants *)

Definition DEFAULT_READING_SPEED : pyval := PyInt 200.

Definition ENCODED_LINKS_TO_RAW_LINKS_MAP : list (str * str) :=
  [ (lit "%7Bstatic%7D", lit "{static}");
    (lit "%7Battach%7D", lit "{attach}");
    (lit "%7Bfilename%7D", lit "{filename}") ].

Definition VALID_INPUT_FORMATS : list str :=
  map lit [ "commonmark"; "commonmark_x"; "gfm"; "markdown"; "markdown_mmd";
            "markdown_phpextra"; "markdown_strict" ].

Definition VALID_OUTPUT_FORMATS : list str := map lit ["html"; "html5"].

Definition VALID_BIB_EXTENSIONS : list str :=
  map lit ["json"; "yaml"; "bibtex"; "bib"].

(** ** The format validators (static methods, no collaborator involved) *)

Definition _check_input_format (defaults : list (str * pyval)) : result pyval :=
  let reader := PyStr [] in
  let reader_input := Dict.get_default (lit "reader") (PyStr []) defaults in
  let from_input := Dict.get_default (lit "from") (PyStr []) defaults in
  if negb (truthy reader_input) && negb (truthy from_input) then
    Raise (ValueError (lit "No input format specified."))
  else if truthy reader_input && truthy from_input then
    Raise (ValueError
      (lit "Specifying both from and reader is not supported. Please specify just one."))
  else if truthy reader_input || truthy from_input then
    let reader :=
      if truthy reader_input then reader_input
      else if truthy from_input then from_input
      else reader in
    match reader with
    | PyStr s =>
        match split 45%N (replace (lit "+") (lit "-") s) with
        | [] => Raise IndexError
        | reader_prefix :: _ =>
            if negb (mem reader_prefix VALID_INPUT_FORMATS) then
              Raise (ValueError (lit "Input type has to be a Markdown variant."))
            else Ok reader
        end
    | _ => Raise AttributeError
    end
  else Ok reader.

Definition _check_output_format (defaults : list (str * pyval)) : result unit :=
  let writer_output := Dict.get_default (lit "writer") (PyStr []) defaults in
  let to_output := Dict.get_default (lit "to") (PyStr []) defaults in
  if truthy writer_output && truthy to_output then
    Raise (ValueError
      (lit "Specifying both to and writer is not supported. Please specify just one."))
  else if negb (py_in writer_output VALID_OUTPUT_FORMATS)
          && negb (py_in to_output VALID_OUTPUT_FORMATS) then
    Raise (ValueError (lit "Output format type must be either html or html5."))
  else Ok tt.

(** ** The reader *)

Section Reader.

Context {host : Host}.

(** [self.settings] *)
Variable settings : list (str * pyval).

(** [float(x)] *)
Definition py_float (x : pyval) : result PyFloat.float :=
  match x with
  | PyFloat f => Ok f
  | PyInt z => PyFloat.of_int z
  | PyBool b => PyFloat.of_int (if b then 1 else 0)
  | PyStr s =>
      match parse_float s with
      | Some f => Ok f
      | None => Raise (ValueError (lit "could not convert string to float"))
      end
  | PyNone | PyList _ | PyDict _ => Raise TypeError
  end.

Definition _calculate_reading_time (content : str) : result str :=
  let reading_speed :=
    Dict.get_default (lit "READING_SPEED") DEFAULT_READING_SPEED settings in
  let wordcount := count_words_in_markdown content in
  let time_unit := lit "minutes" in
  except_ValueError
    (words <- PyFloat.of_int wordcount ;;
     speed <- py_float reading_speed ;;
     quotient <- PyFloat.truediv words speed ;;
     reading_time <- PyFloat.ceil quotient ;;
     let time_unit := if (reading_time =? 1)%Z then lit "minute" else time_unit in
     Ok (PyStr.of_int reading_time ++ lit " " ++ time_unit))%res
    (fun _ => Raise (ValueError (lit "READING_SPEED setting must be a number."))).

(** [self.process_metadata(key, value)], the host's hook. *)
Definition call_hook (key : str) (value : pyval) : M pyval :=
  (emit (Hook key value) ;; lift (process_metadata key value))%io.

(** The value the loop of [_process_metadata] hands to the hook. *)
Definition stripped (value : pyval) : pyval :=
  match value with
  | PyStr s =>
      if truthy value then PyStr (strip_chars [dquote] (strip s)) else value
  | _ => value
  end.

Fixpoint process_items (items : list (str * pyval))
    (metadata : list (str * pyval)) : M (list (str * pyval)) :=
  match items with
  | [] => ret metadata
  | (key, value) :: items' =>
      let key := str_lower key in
      let value := stripped value in
      (v <- call_hook key value ;;
       process_items items' (Dict.set key v metadata))%io
  end.

Definition _process_metadata (myst_metadata : pyval) : M (list (str * pyval)) :=
  match myst_metadata with
  | PyDict items => process_items items []
  | _ => lift (Raise AttributeError)
  end.

Definition _run_myst (content : str) : M str :=
  fun w =>
    (emit (Convert content (enable_extensions w)) ;;
     lift (to_html content (enable_extensions w)))%io w.

Definition id_TOC : str := lit "id=" ++ [dquote] ++ lit "TOC" ++ [dquote].
Definition class_toc : str := lit "class=" ++ [dquote] ++ lit "toc" ++ [dquote].

Definition _extract_contents (html_output : str) (table_of_contents : bool)
  : result (str * pyval * pyval) :=
  let '(myst_json_metadata, _, html_output) := partition newline html_output in
  (myst_metadata <- json_loads myst_json_metadata ;;
   let soup := html_parser html_output in
   ' (toc, soup) <-
      (if table_of_contents then
         match Soup.body soup with
         | None => Raise AttributeError
         | Some body =>
             match Soup.find Soup.is_toc body with
             | Some toc =>
                 let toc := replace id_TOC class_toc (decode toc) in
                 Ok (PyStr toc, Soup.decompose_toc soup)
             | None => Ok (PyNone, soup)
             end
         end
       else Ok (PyStr [], soup)) ;;
   match Soup.unwrap_body soup with
   | None => Raise AttributeError
   | Some soup =>
       let html_output := strip (decode soup) in
       Ok (html_output, toc, myst_metadata)
   end)%res.

Definition _find_bibs (source_path : str) : list str :=
  let filename := fst (path_splitext (path_basename source_path)) in
  let directory_path := path_dirname (path_abspath source_path) in
  flat_map
    (fun '(root, files) =>
       flat_map
         (fun extension =>
            let bib_name := filename ++ lit "." ++ extension in
            if mem bib_name files then [path_join root bib_name] else [])
         VALID_BIB_EXTENSIONS)
    (os_walk directory_path).

(** The directive appended for one bibliography file. *)
Definition bibliography_directive (bib_file : str) : str :=
  [newline; newline] ++ lit "```{bibliography} " ++ bib_file ++ [newline]
  ++ lit "```" ++ [newline; newline].

(** [self.parser_config.enable_extensions.extend(extensions)] *)
Definition extend_extensions (extensions : list pyval) : M unit :=
  fun w => (Ok tt, {| enable_extensions := enable_extensions w ++ extensions;
                      trace := trace w |}).

(** The three [str.replace] calls, in the order given. *)
Definition rewrite_links_in (order : list (str * str)) (output : str) : str :=
  fold_left (fun out '(encoded_str, raw_str) => replace encoded_str raw_str out)
    order output.

Definition _create_html (source_path content : str)
  : M (str * list (str * pyval)) :=
  let default_files :=
    Dict.get_default (lit "MYST_DEFAULT_FILES") (PyList []) settings in
  let extensions :=
    Dict.get_default (lit "MYST_EXTENSIONS") (PyList []) settings in
  ((match extensions with
    | PyList l => extend_extensions l
    | _ => ret tt
    end) ;;
   lift (_check_yaml_metadata_block content) ;;
   let content :=
     fold_left (fun c bib_file => c ++ bibliography_directive bib_file)
       (_find_bibs source_path) content in
   output <- _run_myst content ;;
   let table_of_contents := true in
   ' (output, toc, myst_metadata) <-
      lift (_extract_contents output table_of_contents) ;;
   let output := rewrite_links_in ENCODED_LINKS_TO_RAW_LINKS_MAP output in
   metadata <- _process_metadata myst_metadata ;;
   metadata <-
     (if table_of_contents then
        v <- call_hook (lit "toc") toc ;;
        ret (Dict.set (lit "toc") v metadata)
      else ret metadata) ;;
   metadata <-
     (if truthy (Dict.get_default (lit "CALCULATE_READING_TIME") (PyList [])
                   settings) then
        reading_time <- lift (_calculate_reading_time content) ;;
        v <- call_hook (lit "reading_time") (PyStr reading_time) ;;
        ret (Dict.set (lit "reading_time") v metadata)
      else ret metadata) ;;
   ret (output, metadata))%io.

Definition read (source_path : str) : M (str * list (str * pyval)) :=
  (content <- lift (pelican_open source_path) ;;
   _create_html source_path content)%io.

End Reader.

(** ** Registration *)

Definition FILE_EXTENSIONS : list str :=
  map lit ["md"; "mkd"; "mkdn"; "mdwn"; "mdown"; "markdown"; "Rmd"].

(** [add_reader(readers)]: the loop assigns the reader class to every file
    extension in [readers.reader_classes]. *)
Definition add_reader {C : Type} (MySTReader : C) (reader_classes : list (str * C))
  : list (str * C) :=
  fold_left (fun classes ext => Dict.set ext MySTReader classes)
    FILE_EXTENSIONS reader_classes.

(** ** A host to run the reader on

    Stand-ins for the collaborators, used to evaluate the reader on
    concrete documents: an in-memory file system without bibliography
    files, a converter that answers with one fixed output (a JSON line and
    a page), a JSON reader and an HTML parser that know that line and that
    page, a plain serializer, the identity hook, a word counter that splits
    on white space, [float] for strings of decimal digits and [lower] for
    ASCII. *)

Module Demo.

Definition render_attr (a : str * str) : str :=
  lit " " ++ fst a ++ lit "=" ++ [dquote] ++ snd a ++ [dquote].

Fixpoint render (n : Soup.node) : str :=
  match n with
  | Soup.Text s => s
  | Soup.Tag name attrs cs =>
      let inner := flat_map render cs in
      if PyStr.eqb name (lit "[document]") then inner
      else lit "<" ++ name ++ flat_map render_attr attrs ++ lit ">"
           ++ inner ++ lit "</" ++ name ++ lit ">"
  end.

(** Words are maximal runs of characters that are not white space. *)
Fixpoint count_words (in_word : bool) (s : str) : Z :=
  match s with
  | [] => 0
  | c :: s' =>
      if isspace c then count_words false s'
      else ((if in_word then 0 else 1) + count_words true s')%Z
  end.

Definition is_digit (c : char) : bool := ((48 <=? c) && (c <=? 57))%N.

Definition digits_value (s : str) : Z :=
  fold_left (fun acc c => acc * 10 + Z.of_N (c - 48))%Z s 0%Z.

Definition float_of_digits (s : str) : option PyFloat.float :=
  match s with
  | [] => None
  | _ :: _ =>
      if forallb is_digit s then
        match PyFloat.of_int (digits_value s) with
        | Ok f => Some f
        | Raise _ => None
        end
      else None
  end.

Definition ascii_lower (s : str) : str :=
  map (fun c => if (65 <=? c) && (c <=? 90) then c + 32 else c)%N s.

Definition host (files : list (str * str)) (json : str) (record : pyval)
    (tree : Soup.node) : Host :=
  {| pelican_open := fun path =>
       match Dict.get path files with
       | Some content => Ok content
       | None => Raise OSError
       end;
     os_walk := fun _ => [];
     path_basename := fun p => p;
     path_dirname := fun p => p;
     path_abspath := fun p => p;
     path_splitext := fun p => (p, []);
     path_join := fun a b => a ++ lit "/" ++ b;
     to_html := fun _ _ => Ok (json ++ [newline] ++ render tree);
     json_loads := fun s =>
       if PyStr.eqb s json then Ok record else Raise JSONDecodeError;
     html_parser := fun s =>
       if PyStr.eqb s (render tree) then tree
       else Soup.Tag (lit "[document]") [] [Soup.Text s];
     decode := render;
     process_metadata := fun _ v => Ok v;
     count_words_in_markdown := count_words false;
     parse_float := float_of_digits;
     str_lower := ascii_lower |}.

Definition world0 : world :=
  {| enable_extensions := [PyStr (lit "dollarmath")]; trace := [] |}.

Definition valid_content : str := doc ["---"; "Title: Valid"; "---"; "hi there"].

Definition files : list (str * str) :=
  [ (lit "valid_content.md", valid_content);
    (lit "no_metadata.md", doc ["# Heading"; "hi there"]);
    (lit "empty_block.md", doc ["---"; "---"; "hi there"]) ].

(** A page without table of contents. *)
Definition page : Soup.node :=
  Soup.Tag (lit "[document]") []
    [Soup.Tag (lit "body") []
       [Soup.Tag (lit "p") [] [Soup.Text (lit "hi there")]]].

(** The same page with one. *)
Definition page_with_toc : Soup.node :=
  Soup.Tag (lit "[document]") []
    [Soup.Tag (lit "body") []
       [Soup.Tag (lit "nav") [(lit "id", lit "TOC")] [Soup.Text (lit "contents")];
        Soup.Tag (lit "p") [] [Soup.Text (lit "hi there")]]].

(** A fragment with no body element. *)
Definition fragment : Soup.node :=
  Soup.Tag (lit "[document]") []
    [Soup.Tag (lit "p") [] [Soup.Text (lit "hi there")]].

(** The JSON line of the converter: the record with the one key [Title]. *)
Definition record_json : str :=
  lit "{" ++ [dquote] ++ lit "Title" ++ [dquote] ++ lit ": "
  ++ [dquote] ++ lit "Valid" ++ [dquote] ++ lit "}".

Definition record : pyval := PyDict [(lit "Title", PyStr (lit "Valid"))].

Definition reader (tree : Soup.node) : Host := host files record_json record tree.

(** Settings that enable one more extension. *)
Definition settings : list (str * pyval) :=
  [(lit "MYST_EXTENSIONS", PyList [PyStr (lit "colon_fence")])].

(** The same host with a hook that refuses the values of one key. *)
Definition refusing (key : str) (tree : Soup.node) : Host :=
  let h := reader tree in
  {| pelican_open := @pelican_open h;
     os_walk := @os_walk h;
     path_basename := @path_basename h;
     path_dirname := @path_dirname h;
     path_abspath := @path_abspath h;
     path_splitext := @path_splitext h;
     path_join := @path_join h;
     to_html := @to_html h;
     json_loads := @json_loads h;
     html_parser := @html_parser h;
     decode := @decode h;
     process_metadata := fun k v =>
       if PyStr.eqb k key then Raise (ValueError (lit "refused")) else Ok v;
     count_words_in_markdown := @count_words_in_markdown h;
     parse_float := @parse_float h;
     str_lower := @str_lower h |}.

End Demo.

(** ** Vocabulary of the properties *)

(** A computation that leaves the shared parser configuration as it is. *)
Definition keeps_extensions {A} (m : M A) : Prop :=
  forall w, enable_extensions (snd (m w)) = enable_extensions w.

(** A line that closes the front-matter block. *)
Definition closes_block (line : str) : bool :=
  mem (rstrip line) [lit "---"; lit "..."].

(** The link-placeholder rewrite as one reading of the text from left to
    right: an occurrence of a pattern gives way to its raw form, any other
    character is copied. *)
Inductive Rewrites (rules : list (str * str)) : str -> str -> Prop :=
| Rewrites_end : Rewrites rules [] []
| Rewrites_occurrence (old new rest rest' : str) :
    In (old, new) rules ->
    Rewrites rules rest rest' ->
    Rewrites rules (old ++ rest) (new ++ rest')
| Rewrites_copy (c : char) (rest rest' : str) :
    (forall old new, In (old, new) rules -> startswith old (c :: rest) = false) ->
    Rewrites rules rest rest' ->
    Rewrites rules (c :: rest) (c :: rest').

(** The same reading as a function: the first rule whose pattern starts
    the text applies. *)
Definition first_match (rules : list (str * str)) (s : str) : option (str * str) :=
  List.find (fun rule => startswith (fst rule) s) rules.

Fixpoint pass_from (rules : list (str * str)) (skip : nat) (s : str) : str :=
  match s with
  | [] => []
  | c :: s' =>
      match skip with
      | S k => pass_from rules k s'
      | O =>
          match first_match rules s with
          | Some (old, new) => new ++ pass_from rules (Nat.pred (List.length old)) s'
          | None => c :: pass_from rules 0 s'
          end
      end
  end.

Definition pass (rules : list (str * str)) (s : str) : str := pass_from rules 0 s.

(** Two texts of which neither starts the other. *)
Definition incompatible (p x : str) : bool :=
  negb (startswith p x) && negb (startswith x p).

(** No occurrence of [p] can start inside [x]: every non-empty suffix of
    [x] is incompatible with [p]. *)
Fixpoint apart (p x : str) : bool :=
  match x with
  | [] => true
  | _ :: x' => incompatible p x && apart p x'
  end.

Definition rule_eqb (a b : str * str) : bool :=
  PyStr.eqb (fst a) (fst b) && PyStr.eqb (snd a) (snd b).

Definition starts_with_char (c : char) (p : str) : bool :=
  match p with
  | [] => false
  | h :: _ => N.eqb h c
  end.

(** What makes a set of rules insensitive to the order of the replacements:
    patterns are not empty; no character of a raw form begins a pattern;
    the first character of a raw form, which exists, occurs in no pattern;
    and distinct rules have patterns that cannot overlap. *)
Definition separated_pair (a b : str * str) : bool :=
  forallb (fun c => negb (starts_with_char c (fst b))) (snd a)
  && match snd a with
     | [] => false
     | c :: _ => negb (existsb (N.eqb c) (fst b))
     end
  && (rule_eqb a b || apart (fst a) (fst b)).

Definition separated (rules : list (str * str)) : bool :=
  forallb
    (fun a =>
       match fst a with [] => false | _ :: _ => true end
       && forallb (separated_pair a) rules)
    rules.

(** The calls the loop of [_process_metadata] makes to the hook, one per
    item read. *)
Definition hook_calls {host : Host} (items : list (str * pyval)) : list event :=
  map (fun kv => Hook (str_lower (fst kv)) (stripped (snd kv))) items.

(** A rounding location that says "exact". *)
Definition is_exact (l : location) : bool :=
  match l with loc_Exact => true | loc_Inexact _ => false end.

(** What rounding to nearest (ties to even, after dropping at most one bit)
    may make of a quotient whose integer part is [q]: [q] itself, the next
    integer when something was cut off or [q] is odd, the previous one on a
    tie at an odd [q]. *)
Definition rounded (q : Z) (exact : bool) (w : Z) : Prop :=
  (w = q
   \/ (w = q + 1 /\ (exact = false \/ Z.odd q = true))
   \/ (w = q - 1 /\ exact = true /\ Z.odd q = true))%Z.

(** The least integer not below [a / b], for a positive [b]. *)
Definition ceil_div (a b : Z) : Z := ((a + b - 1) / b)%Z.

(** The phrase the estimator builds from the number of minutes. *)
Definition minutes_phrase (n : Z) : str :=
  PyStr.of_int n ++ lit " " ++ (if (n =? 1)%Z then lit "minute" else lit "minutes").

(** [p in s] for two strings. *)
Fixpoint contains (p s : str) : bool :=
  startswith p s
  || match s with
     | [] => false
     | _ :: s' => contains p s'
     end.

(** The format name without its variant suffixes: the text before the first
    [+] or [-]. *)
Fixpoint variant_base (s : str) : str :=
  match s with
  | [] => []
  | c :: s' => if ((c =? 43) || (c =? 45))%N then [] else c :: variant_base s'
  end.

(** The document as the converter receives it: one directive appended per
    bibliography file found. *)
Definition with_bibliographies {host : Host} (source_path content : str) : str :=
  content ++ flat_map bibliography_directive (_find_bibs source_path).

Definition is_hook (e : event) : bool :=
  match e with
  | Hook _ _ => true
  | Convert _ _ => false
  end.

(** A computation that calls the hook, perhaps, and never the converter. *)
Definition hooks_only {A} (m : M A) : Prop :=
  forall w, exists hs,
    trace (snd (m w)) = trace w ++ hs /\ forallb is_hook hs = true.

(** The value of the last item whose lower-cased key is [k]. *)
Definition last_value {host : Host} (k : str) (items : list (str * pyval))
  : option pyval :=
  fold_left
    (fun acc kv => if PyStr.eqb (str_lower (fst kv)) k then Some (snd kv) else acc)
    items None.

(** The extension list of the parser configuration once [_create_html]
    has merged the configured extensions into it. *)
Definition merged_extensions (settings : list (str * pyval)) (w : world) : list pyval :=
  enable_extensions w
  ++ match Dict.get_default (lit "MYST_EXTENSIONS") (PyList []) settings with
     | PyList l => l
     | _ => []
     end.

(** Whether the reading time is to be calculated. *)
Definition reading_time_on (settings : list (str * pyval)) : bool :=
  truthy (Dict.get_default (lit "CALCULATE_READING_TIME") (PyList []) settings).

(** What a call returned, if it did. *)
Definition returned {A} (r : result A) : option A :=
  match r with
  | Ok a => Some a
  | Raise _ => None
  end.

(** The hook call made for the reading time, if any. *)
Definition reading_time_calls {host : Host} (settings : list (str * pyval))
    (document : str) : list event :=
  if reading_time_on settings then
    match _calculate_reading_time settings document with
    | Ok reading_time => [Hook (lit "reading_time") (PyStr reading_time)]
    | Raise _ => []
    end
  else [].

(** * Properties *)

(** ** The model on concrete inputs *)

Example splitlines_mixed :
  splitlines (lit "a" ++ [13; 10] ++ lit "b" ++ [10; 10] ++ lit "c" ++ [13])%N
  = [lit "a"; lit "b"; []; lit "c"].
Proof. reflexivity. Qed.

Example splitlines_only_newline : splitlines [newline] = [[]].
Proof. reflexivity. Qed.

Example replace_scans_left_to_right :
  replace (lit "XX") (lit "y") (lit "aXXbXXXc") = lit "aybyXc".
Proof. reflexivity. Qed.

Example replace_empty_pattern :
  replace [] (lit "-") (lit "abc") = lit "-a-b-c-".
Proof. reflexivity. Qed.

Example strip_then_unquote :
  strip_chars [dquote] (strip (lit " " ++ [dquote] ++ lit " a " ++ [dquote] ++ lit " "))
  = lit " a ".
Proof. reflexivity. Qed.

Example split_variant : split 45%N (lit "a-b-c") = [lit "a"; lit "b"; lit "c"].
Proof. reflexivity. Qed.

Example of_int_examples :
  of_int 0 = lit "0" /\ of_int 12 = lit "12" /\ of_int (-133) = lit "-133".
Proof. repeat split; reflexivity. Qed.

Example check_ok :
  _check_yaml_metadata_block (doc ["---"; "title: x"; "---"; "hi"]) = Ok tt.
Proof. reflexivity. Qed.

Example check_dots :
  _check_yaml_metadata_block (doc ["---  "; "title: x"; "... "; "hi"]) = Ok tt.
Proof. reflexivity. Qed.

Example check_unterminated :
  _check_yaml_metadata_block (doc ["---"; "title: x"; "hi"])
  = Raise (Exception (lit "Could not find end of metadata block.")).
Proof. reflexivity. Qed.


Example demo_read_page :
  fst (read (host := Demo.reader Demo.page) [] (lit "valid_content.md") Demo.world0)
  = Ok (lit "<p>hi there</p>",
        [(lit "title", PyStr (lit "Valid")); (lit "toc", PyNone)]).
Proof. reflexivity. Qed.

Example demo_read_page_with_toc :
  fst (read (host := Demo.reader Demo.page_with_toc) [] (lit "valid_content.md")
         Demo.world0)
  = Ok (lit "<p>hi there</p>",
        [(lit "title", PyStr (lit "Valid"));
         (lit "toc", PyStr (lit "<nav class=" ++ [dquote] ++ lit "toc" ++ [dquote]
                             ++ lit ">contents</nav>"))]).
Proof. reflexivity. Qed.

Example demo_read_empty_block :
  fst (read (host := Demo.reader Demo.page) [] (lit "empty_block.md") Demo.world0)
  = Raise (Exception (lit "Could not find end of metadata block.")).
Proof. reflexivity. Qed.

Example demo_reading_time :
  _calculate_reading_time (host := Demo.reader Demo.page) []
    (lit "one two three")
  = Ok (lit "1 minute").
Proof. vm_compute. reflexivity. Qed.

(** ** Strings *)

Lemma eqb_eq (a b : str) : PyStr.eqb a b = true <-> a = b.
Proof.
  revert b. induction a as [|x a IH]; intros [|y b]; simpl;
    try (split; [discriminate | congruence]); try tauto.
  rewrite andb_true_iff, N.eqb_eq, IH. split.
  - intros [-> ->]. reflexivity.
  - intros E. injection E as -> ->. auto.
Qed.

Lemma eqb_refl (a : str) : PyStr.eqb a a = true.
Proof. apply eqb_eq. reflexivity. Qed.

Lemma eqb_neq (a b : str) : PyStr.eqb a b = false <-> a <> b.
Proof.
  rewrite <- eqb_eq. destruct (PyStr.eqb a b); split; congruence.
Qed.

Lemma mem_singleton (a b : str) : mem a [b] = PyStr.eqb a b.
Proof. unfold mem. simpl. apply orb_false_r. Qed.

Lemma splitlines_from_nonempty (s cur : str) :
  s <> [] \/ cur <> [] -> splitlines_from cur s <> [].
Proof.
  revert cur. induction s as [|c s IH]; intros cur Hne; simpl.
  - destruct cur; [destruct Hne; congruence | discriminate].
  - destruct (is_linebreak c); [discriminate|].
    apply IH. right. discriminate.
Qed.

Lemma splitlines_nonempty (content : str) :
  content <> [] -> splitlines content <> [].
Proof. intros Hne. apply splitlines_from_nonempty. left. exact Hne. Qed.

(** ** The metadata-block checker *)

Lemma yaml_block_end_from_cons (n : Z) (l : str) (lines : list str) :
  yaml_block_end_from n (l :: lines)
  = if closes_block l then PyInt n else yaml_block_end_from (n + 1) lines.
Proof. reflexivity. Qed.

Lemma yaml_block_end_from_positive (lines : list str) (n : Z) :
  (0 < n)%Z ->
  truthy (yaml_block_end_from n lines) = existsb closes_block lines.
Proof.
  revert n. induction lines as [|l lines IH]; intros n Hn; [reflexivity|].
  rewrite yaml_block_end_from_cons. cbn [existsb].
  destruct (closes_block l); cbn [orb truthy].
  - destruct (Z.eqb_spec n 0); [lia | reflexivity].
  - apply IH. lia.
Qed.

(** What the check on [yaml_block_end] really tests: index [0] counts as
    not found. *)
Lemma yaml_block_end_truthy (lines : list str) :
  truthy (yaml_block_end_from 0 lines)
  = match lines with
    | [] => false
    | l :: lines' => negb (closes_block l) && existsb closes_block lines'
    end.
Proof.
  destruct lines as [|l lines]; [reflexivity|].
  rewrite yaml_block_end_from_cons.
  destruct (closes_block l); cbn [negb andb]; [reflexivity|].
  apply yaml_block_end_from_positive. lia.
Qed.

(** The checker never runs out of lines: a non-empty text has a first line. *)
Lemma check_yaml_total (content : str) :
  _check_yaml_metadata_block content <> Raise IndexError.
Proof.
  unfold _check_yaml_metadata_block.
  destruct content as [|c s]; cbn [truthy negb]; [discriminate|].
  pose proof (splitlines_nonempty (c :: s)) as Hne.
  destruct (splitlines (c :: s)) as [|first rest];
    [exfalso; apply Hne; [discriminate | reflexivity]|].
  destruct (mem (rstrip first) [lit "---"]); cbn [negb]; [|discriminate].
  destruct (truthy _); discriminate.
Qed.

(** The exact verdict on a document that opens with the delimiter. *)
Lemma check_yaml_opened (content first : str) (rest : list str) :
  splitlines content = first :: rest ->
  rstrip first = lit "---" ->
  _check_yaml_metadata_block content
  = match rest with
    | l :: rest' =>
        if negb (closes_block l) && existsb closes_block rest' then Ok tt
        else Raise (Exception (lit "Could not find end of metadata block."))
    | [] => Raise (Exception (lit "Could not find end of metadata block."))
    end.
Proof.
  intros Hsplit Hfirst. unfold _check_yaml_metadata_block.
  destruct content as [|c s]; [discriminate|].
  cbn [truthy negb]. rewrite Hsplit, Hfirst. cbn [tl].
  replace (mem (lit "---") [lit "---"]) with true by reflexivity.
  cbn [negb]. rewrite yaml_block_end_truthy.
  destruct rest as [|l rest']; [reflexivity|].
  destruct (negb (closes_block l) && existsb closes_block rest'); reflexivity.
Qed.

Lemma check_yaml_missing_header (content first : str) (rest : list str) :
  splitlines content = first :: rest ->
  rstrip first <> lit "---" ->
  _check_yaml_metadata_block content
  = Raise (Exception (lit "Could not find metadata header '---'.")).
Proof.
  intros Hsplit Hfirst. unfold _check_yaml_metadata_block.
  destruct content as [|c s]; [discriminate|].
  cbn [truthy negb]. rewrite Hsplit, mem_singleton.
  apply eqb_neq in Hfirst. rewrite Hfirst. reflexivity.
Qed.

(** C1. A document that opens with [---] and whose very next line is the
    closing [---] has a closing delimiter among its remaining lines, and
    yet the checker raises the unterminated-block error: the index of the
    closing line is [0], which the final test takes for "not found". *)
Theorem check_yaml_rejects_empty_block :
  let content := doc ["---"; "---"; "hi there"] in
  splitlines content = [lit "---"; lit "---"; lit "hi there"]
  /\ existsb closes_block (tl (splitlines content)) = true
  /\ _check_yaml_metadata_block content
     = Raise (Exception (lit "Could not find end of metadata block.")).
Proof. repeat split; reflexivity. Qed.

(** ** Dictionaries *)

Lemma dict_get_set_same {V} (k : str) (v : V) (d : list (str * V)) :
  Dict.get k (Dict.set k v d) = Some v.
Proof.
  induction d as [|[k' v'] d IH]; simpl.
  - rewrite eqb_refl. reflexivity.
  - destruct (PyStr.eqb k k') eqn:E; simpl; rewrite E; [reflexivity | exact IH].
Qed.

Lemma dict_get_set_other {V} (k k' : str) (v : V) (d : list (str * V)) :
  PyStr.eqb k k' = false ->
  Dict.get k (Dict.set k' v d) = Dict.get k d.
Proof.
  intros Hne. induction d as [|[k0 v0] d IH]; simpl.
  - rewrite Hne. reflexivity.
  - destruct (PyStr.eqb k' k0) eqn:E; simpl.
    + apply eqb_eq in E. subst k0. rewrite Hne. reflexivity.
    + rewrite IH. reflexivity.
Qed.

Lemma dict_get_default_set_other {V} (k k' : str) (v dflt : V) (d : list (str * V)) :
  PyStr.eqb k k' = false ->
  Dict.get_default k dflt (Dict.set k' v d) = Dict.get_default k dflt d.
Proof.
  intros Hne. unfold Dict.get_default. rewrite dict_get_set_other by exact Hne.
  reflexivity.
Qed.

(** ** The world: what a computation leaves untouched *)

Lemma bind_ok_inv {A B} (m : M A) (k : A -> M B) w b w' :
  bind m k w = (Ok b, w') ->
  exists a w1, m w = (Ok a, w1) /\ k a w1 = (Ok b, w').
Proof.
  unfold bind. destruct (m w) as [[a|e] w1]; intros E; [eauto | discriminate].
Qed.

Lemma lift_ok_inv {A} (r : result A) w a w' :
  lift r w = (Ok a, w') -> r = Ok a /\ w' = w.
Proof. unfold lift. intros E. injection E as -> ->. auto. Qed.

Lemma keeps_ret {A} (a : A) : keeps_extensions (ret a).
Proof. intros w. reflexivity. Qed.

Lemma keeps_lift {A} (r : result A) : keeps_extensions (lift r).
Proof. intros w. reflexivity. Qed.

Lemma keeps_emit (e : event) : keeps_extensions (emit e).
Proof. intros w. reflexivity. Qed.

Lemma keeps_bind {A B} (m : M A) (k : A -> M B) :
  keeps_extensions m -> (forall a, keeps_extensions (k a)) ->
  keeps_extensions (bind m k).
Proof.
  intros Hm Hk w. unfold bind. specialize (Hm w).
  destruct (m w) as [[a|e] w1]; simpl in *; [|exact Hm].
  rewrite Hk. exact Hm.
Qed.

Create HintDb world.
#[export] Hint Resolve keeps_ret keeps_lift keeps_emit keeps_bind : world.

Section ReaderWorld.

Context {host : Host}.
Variable settings : list (str * pyval).

Lemma keeps_call_hook key value : keeps_extensions (call_hook key value).
Proof. unfold call_hook. auto with world. Qed.

Lemma keeps_process_items items metadata :
  keeps_extensions (process_items items metadata).
Proof.
  revert metadata. induction items as [|[key value] items IH]; intros metadata;
    simpl; auto using keeps_call_hook with world.
Qed.

Lemma keeps_process_metadata record : keeps_extensions (_process_metadata record).
Proof.
  destruct record; simpl; auto using keeps_process_items with world.
Qed.

Lemma keeps_run_myst content : keeps_extensions (_run_myst content).
Proof.
  intros w. unfold _run_myst. apply keeps_bind; auto with world.
Qed.

(** Everything [_create_html] does after merging the extensions. *)
Lemma create_html_extensions source_path content w :
  enable_extensions (snd (_create_html settings source_path content w))
  = enable_extensions w
    ++ match Dict.get_default (lit "MYST_EXTENSIONS") (PyList []) settings with
       | PyList l => l
       | _ => []
       end.
Proof.
  unfold _create_html.
  match goal with
  | |- context [bind ?m ?k] =>
      assert (Hk : forall a, keeps_extensions (k a))
  end.
  { intros _.
    repeat first
      [ apply keeps_bind; [|intros]
      | apply keeps_lift | apply keeps_ret | apply keeps_run_myst
      | apply keeps_process_metadata | apply keeps_call_hook
      | match goal with
        | |- keeps_extensions (let '(_, _) := ?x in _) => destruct x
        | |- keeps_extensions (if ?b then _ else _) => destruct b
        end ]. }
  unfold bind at 1.
  destruct (Dict.get_default (lit "MYST_EXTENSIONS") (PyList []) settings);
    cbn [ret extend_extensions]; rewrite Hk; cbn [enable_extensions];
    rewrite ?app_nil_r; reflexivity.
Qed.

End ReaderWorld.

(** C2 (as the code has it). On a reader whose settings hold a list under
    [MYST_EXTENSIONS], every call of [_create_html] appends that list to
    the shared list of enabled extensions, whatever becomes of the
    document, and so does every call of [read] whose file opens; a [read]
    whose file does not open raises before [_create_html] and leaves the
    world as it is. A list that is not empty changes the configuration on
    each such call, not only on the first. *)
Theorem pipeline_extends_on_every_call {host : Host}
    (settings : list (str * pyval)) (extensions : list pyval)
    (source_path : str) (w : world) :
  Dict.get_default (lit "MYST_EXTENSIONS") (PyList []) settings
  = PyList extensions ->
  (forall content,
      enable_extensions (snd (_create_html settings source_path content w))
      = enable_extensions w ++ extensions)
  /\ (forall content,
         pelican_open source_path = Ok content ->
         enable_extensions (snd (read settings source_path w))
         = enable_extensions w ++ extensions)
  /\ (forall e,
         pelican_open source_path = Raise e ->
         read settings source_path w = (Raise e, w))
  /\ (extensions <> [] -> enable_extensions w ++ extensions <> enable_extensions w).
Proof.
  intros Hext.
  assert (Hcreate : forall content,
             enable_extensions (snd (_create_html settings source_path content w))
             = enable_extensions w ++ extensions)
    by (intros content; rewrite create_html_extensions, Hext; reflexivity).
  split; [exact Hcreate|]. split; [|split].
  - intros content Hopen. unfold read. unfold bind at 1. unfold lift.
    rewrite Hopen. apply Hcreate.
  - intros e Hopen. unfold read. unfold bind at 1. unfold lift.
    rewrite Hopen. reflexivity.
  - intros Hne E. apply Hne.
    apply (app_inv_head (enable_extensions w)). rewrite app_nil_r. exact E.
Qed.

Lemma pipeline_extends_on_every_call_witness :
  let host := Demo.reader Demo.page in
  Dict.get_default (lit "MYST_EXTENSIONS") (PyList []) Demo.settings
  = PyList [PyStr (lit "colon_fence")]
  /\ pelican_open (lit "valid_content.md") = Ok Demo.valid_content
  /\ enable_extensions (snd (read Demo.settings (lit "valid_content.md") Demo.world0))
     = [PyStr (lit "dollarmath"); PyStr (lit "colon_fence")]
  /\ pelican_open (lit "empty_block.md") = Ok (doc ["---"; "---"; "hi there"])
  /\ is_ok (fst (read Demo.settings (lit "empty_block.md") Demo.world0)) = false
  /\ enable_extensions (snd (read Demo.settings (lit "empty_block.md") Demo.world0))
     = [PyStr (lit "dollarmath"); PyStr (lit "colon_fence")].
Proof.
  split; [reflexivity|]. split; [reflexivity|]. split.
  - apply (proj1 (proj2 (pipeline_extends_on_every_call
                           (host := Demo.reader Demo.page)
                           Demo.settings [PyStr (lit "colon_fence")]
                           (lit "valid_content.md") Demo.world0 eq_refl))
             Demo.valid_content).
    reflexivity.
  - split; [reflexivity|]. split; [reflexivity|].
    apply (proj1 (proj2 (pipeline_extends_on_every_call
                           (host := Demo.reader Demo.page)
                           Demo.settings [PyStr (lit "colon_fence")]
                           (lit "empty_block.md") Demo.world0 eq_refl))
             (doc ["---"; "---"; "hi there"])).
    reflexivity.
Defined.

(** C2 (as stated) fails: the second document read by the same reader
    changes the enabled-extensions list again. *)
Lemma second_read_extends_again :
  let read_valid :=
    read (host := Demo.reader Demo.page) Demo.settings (lit "valid_content.md") in
  let w1 := snd (read_valid Demo.world0) in
  let w2 := snd (read_valid w1) in
  enable_extensions w1 = [PyStr (lit "dollarmath"); PyStr (lit "colon_fence")]
  /\ enable_extensions w2
     = [PyStr (lit "dollarmath"); PyStr (lit "colon_fence");
        PyStr (lit "colon_fence")]
  /\ enable_extensions w2 <> enable_extensions w1.
Proof. repeat split; try reflexivity. vm_compute. discriminate. Qed.

(** ** The pipeline stops before the converter *)

(** A document the checker turns away: nothing has been called yet. *)
Lemma create_html_rejected {host : Host} (settings : list (str * pyval))
    (source_path content : str) (w : world) (e : exn) :
  _check_yaml_metadata_block content = Raise e ->
  exists w', _create_html settings source_path content w = (Raise e, w')
             /\ trace w' = trace w.
Proof.
  intros Hcheck. unfold _create_html. unfold bind at 1.
  destruct (Dict.get_default (lit "MYST_EXTENSIONS") (PyList []) settings);
    cbn [ret extend_extensions]; unfold bind at 1; unfold lift at 1;
    rewrite Hcheck; eexists; split; reflexivity.
Qed.

Lemma read_rejected {host : Host} (settings : list (str * pyval))
    (source_path content : str) (w : world) (e : exn) :
  pelican_open source_path = Ok content ->
  _check_yaml_metadata_block content = Raise e ->
  fst (read settings source_path w) = Raise e
  /\ trace (snd (read settings source_path w)) = trace w.
Proof.
  intros Hopen Hcheck.
  destruct (create_html_rejected settings source_path content w e Hcheck)
    as (w' & Hrun & Htrace).
  unfold read, bind, lift. rewrite Hopen.
  fold (@bind). rewrite Hrun. split; [reflexivity | exact Htrace].
Qed.

(** C9. When the first line of the document, trailing white space trimmed,
    is not [---], [read] raises the missing-header error and the trace of
    collaborator calls is left as it was: the converter (and the hook) have
    not been called. *)
Theorem read_missing_header_before_conversion {host : Host}
    (settings : list (str * pyval)) (source_path content first : str)
    (rest : list str) (w : world) :
  pelican_open source_path = Ok content ->
  splitlines content = first :: rest ->
  rstrip first <> lit "---" ->
  fst (read settings source_path w)
  = Raise (Exception (lit "Could not find metadata header '---'."))
  /\ trace (snd (read settings source_path w)) = trace w.
Proof.
  intros Hopen Hsplit Hfirst.
  apply read_rejected with (content := content); [exact Hopen|].
  exact (check_yaml_missing_header content first rest Hsplit Hfirst).
Qed.

Lemma read_missing_header_before_conversion_witness :
  let host := Demo.reader Demo.page in
  let content := doc ["# Heading"; "hi there"] in
  pelican_open (lit "no_metadata.md") = Ok content
  /\ splitlines content = [lit "# Heading"; lit "hi there"]
  /\ rstrip (lit "# Heading") <> lit "---"
  /\ fst (read Demo.settings (lit "no_metadata.md") Demo.world0)
     = Raise (Exception (lit "Could not find metadata header '---'."))
  /\ trace (snd (read Demo.settings (lit "no_metadata.md") Demo.world0)) = [].
Proof.
  split; [reflexivity|]. split; [reflexivity|].
  split; [vm_compute; discriminate|].
  apply (read_missing_header_before_conversion (host := Demo.reader Demo.page)
           Demo.settings (lit "no_metadata.md") (doc ["# Heading"; "hi there"])
           (lit "# Heading") [lit "hi there"] Demo.world0).
  - reflexivity.
  - reflexivity.
  - vm_compute. discriminate.
Defined.

(** An empty document is turned away as early, by the first test. *)
Lemma read_empty_before_conversion {host : Host}
    (settings : list (str * pyval)) (source_path : str) (w : world) :
  pelican_open source_path = Ok [] ->
  fst (read settings source_path w)
  = Raise (Exception (lit "Could not find metadata. File is empty."))
  /\ trace (snd (read settings source_path w)) = trace w.
Proof.
  intros Hopen. apply read_rejected with (content := []); [exact Hopen|].
  reflexivity.
Qed.

(** ** The HTML tree *)

Lemma node_forall_ind (P : Soup.node -> Prop) :
  (forall s, P (Soup.Text s)) ->
  (forall name attrs cs, Forall P cs -> P (Soup.Tag name attrs cs)) ->
  forall n, P n.
Proof.
  intros HText HTag. fix IH 1. intros [s | name attrs cs].
  - apply HText.
  - apply HTag. induction cs as [|c cs IHcs]; constructor; [apply IH | exact IHcs].
Qed.

Lemma find_app_none {A} (p : A -> bool) (l1 l2 : list A) :
  List.find p (l1 ++ l2) = None <-> List.find p l1 = None /\ List.find p l2 = None.
Proof.
  induction l1 as [|x l1 IH]; simpl.
  - tauto.
  - destruct (p x); [split; [discriminate | intros [? _]; discriminate] | exact IH].
Qed.

(** Nothing to edit where nothing is found. *)
Lemma edit_first_none (p : Soup.node -> bool) (g : Soup.node -> list Soup.node) :
  forall n, Soup.find p n = None -> Soup.edit_first p g n = None.
Proof.
  induction n as [s | name attrs cs IH] using node_forall_ind; [reflexivity|].
  unfold Soup.find. cbn [Soup.descendants Soup.edit_first]. intros Hfind.
  match goal with
  | |- match ?go cs with _ => _ end = None => assert (Hgo : go cs = None)
  end.
  { induction cs as [|c cs IHcs]; [reflexivity|].
    cbn [flat_map] in Hfind.
    apply find_app_none in Hfind. destruct Hfind as [Hc Hrest].
    inversion IH as [|? ? IHc IHrest]; subst.
    cbn [List.find] in Hc. destruct (p c); [discriminate|].
    rewrite (IHc Hc). rewrite (IHcs IHrest Hrest). reflexivity. }
  rewrite Hgo. reflexivity.
Qed.

(** [soup.body] is [None] exactly when no node of the tree is a body tag. *)
Lemma body_none_iff (soup : Soup.node) :
  Soup.body soup = None
  <-> forall n, In n (Soup.descendants soup) ->
                Soup.is_named (lit "body") n = false.
Proof.
  unfold Soup.body, Soup.find. split.
  - intros Hnone n Hin. exact (find_none _ _ Hnone n Hin).
  - intros Hall. destruct (List.find _ _) as [b|] eqn:E; [|reflexivity].
    apply find_some in E. destruct E as [Hin Hb].
    rewrite (Hall b Hin) in Hb. discriminate.
Qed.

(** ** The HTML post-processor *)

(** C10. When the first line of the converter's output is read as JSON and
    the parsed remainder holds no body element, [_extract_contents] raises
    [AttributeError] (the attribute access on the missing body), with or
    without a table of contents requested, and returns no triple. *)
Theorem extract_contents_requires_body {host : Host}
    (html_output : str) (table_of_contents : bool) (record : pyval) :
  json_loads (fst (fst (partition newline html_output))) = Ok record ->
  Soup.body (html_parser (snd (partition newline html_output))) = None ->
  _extract_contents html_output table_of_contents = Raise AttributeError.
Proof.
  unfold _extract_contents.
  destruct (partition newline html_output) as [[first sep] remainder].
  cbn [fst snd]. intros Hjson Hbody. rewrite Hjson. cbn [result_bind].
  destruct table_of_contents.
  - rewrite Hbody. reflexivity.
  - cbn [result_bind]. unfold Soup.unwrap_body.
    rewrite edit_first_none by exact Hbody. reflexivity.
Qed.

Lemma extract_contents_requires_body_witness :
  let host := Demo.reader Demo.fragment in
  let html_output := Demo.record_json ++ [newline] ++ lit "<p>hi there</p>" in
  json_loads (fst (fst (partition newline html_output))) = Ok Demo.record
  /\ Soup.body (html_parser (snd (partition newline html_output))) = None
  /\ _extract_contents html_output true = Raise AttributeError
  /\ _extract_contents html_output false = Raise AttributeError.
Proof.
  split; [reflexivity|]. split; [reflexivity|]. split.
  - apply (extract_contents_requires_body (host := Demo.reader Demo.fragment)
             (Demo.record_json ++ [newline] ++ lit "<p>hi there</p>") true
             Demo.record);
      reflexivity.
  - apply (extract_contents_requires_body (host := Demo.reader Demo.fragment)
             (Demo.record_json ++ [newline] ++ lit "<p>hi there</p>") false
             Demo.record);
      reflexivity.
Defined.

(** With a body and no navigation element marked as the table of
    contents, the extracted table of contents is [None]. *)
Lemma extract_contents_without_toc {host : Host}
    (html_output html : str) (toc record : pyval) (body : Soup.node) :
  Soup.body (html_parser (snd (partition newline html_output))) = Some body ->
  Soup.find Soup.is_toc body = None ->
  _extract_contents html_output true = Ok (html, toc, record) ->
  toc = PyNone.
Proof.
  unfold _extract_contents.
  destruct (partition newline html_output) as [[first sep] remainder].
  cbn [fst snd]. intros Hbody Hfind.
  destruct (json_loads first); cbn [result_bind]; [|discriminate].
  rewrite Hbody, Hfind. cbn [result_bind].
  destruct (Soup.unwrap_body _); [|discriminate].
  intros E. injection E as _ <- _. reflexivity.
Qed.

(** ** A run that returns *)

Lemma ret_ok_inv {A} (a b : A) (w w' : world) :
  ret a w = (Ok b, w') -> a = b /\ w' = w.
Proof. unfold ret. intros E. injection E as -> ->. auto. Qed.

(** ** The default files *)

Lemma calculate_reading_time_settings {host : Host}
    (s1 s2 : list (str * pyval)) (content : str) :
  Dict.get_default (lit "READING_SPEED") DEFAULT_READING_SPEED s1
  = Dict.get_default (lit "READING_SPEED") DEFAULT_READING_SPEED s2 ->
  _calculate_reading_time s1 content = _calculate_reading_time s2 content.
Proof. unfold _calculate_reading_time. intros ->. reflexivity. Qed.

(** [_create_html] looks at three settings only. *)
Lemma create_html_settings {host : Host} (s1 s2 : list (str * pyval))
    (source_path content : str) (w : world) :
  Dict.get_default (lit "MYST_EXTENSIONS") (PyList []) s1
  = Dict.get_default (lit "MYST_EXTENSIONS") (PyList []) s2 ->
  Dict.get_default (lit "CALCULATE_READING_TIME") (PyList []) s1
  = Dict.get_default (lit "CALCULATE_READING_TIME") (PyList []) s2 ->
  Dict.get_default (lit "READING_SPEED") DEFAULT_READING_SPEED s1
  = Dict.get_default (lit "READING_SPEED") DEFAULT_READING_SPEED s2 ->
  _create_html s1 source_path content w = _create_html s2 source_path content w.
Proof.
  intros Hext Hflag Hspeed. unfold _create_html. cbv zeta.
  rewrite Hext, Hflag.
  rewrite (calculate_reading_time_settings s1 s2 _ Hspeed). reflexivity.
Qed.

(** The list of default files never reaches a validator: whatever is
    configured under [MYST_DEFAULT_FILES], the pipeline runs the same. *)
Lemma create_html_ignores_default_files {host : Host}
    (settings : list (str * pyval)) (default_files : pyval)
    (source_path content : str) (w : world) :
  _create_html (Dict.set (lit "MYST_DEFAULT_FILES") default_files settings)
    source_path content w
  = _create_html settings source_path content w.
Proof.
  apply create_html_settings; apply dict_get_default_set_other; reflexivity.
Qed.

(** C4. A defaults record that names no input format is one the input
    validator rejects, and a reader configured with the file that holds it
    reads a valid document to the end: the validators are not part of the
    pipeline. *)
Theorem read_does_not_validate_default_files :
  let host := Demo.reader Demo.page in
  let defaults := [(lit "to", PyStr (lit "html5"))] in
  let settings :=
    [(lit "MYST_DEFAULT_FILES", PyList [PyStr (lit "no_input_format.yaml")])] in
  _check_input_format defaults = Raise (ValueError (lit "No input format specified."))
  /\ fst (read settings (lit "valid_content.md") Demo.world0)
     = Ok (lit "<p>hi there</p>",
           [(lit "title", PyStr (lit "Valid")); (lit "toc", PyNone)]).
Proof. split; reflexivity. Qed.

(** The validators on the records of the repository's test suite. *)
Example check_input_format_cases :
  _check_input_format [(lit "reader", PyStr (lit "markdown"));
                       (lit "from", PyStr (lit "markdown"))]
  = Raise (ValueError
      (lit "Specifying both from and reader is not supported. Please specify just one."))
  /\ _check_input_format [(lit "reader", PyStr (lit "rst"))]
     = Raise (ValueError (lit "Input type has to be a Markdown variant."))
  /\ _check_input_format [(lit "from", PyStr (lit "markdown+smart-citations"))]
     = Ok (PyStr (lit "markdown+smart-citations")).
Proof. repeat split; reflexivity. Qed.

Example check_output_format_cases :
  _check_output_format [(lit "to", PyStr (lit "html"));
                        (lit "writer", PyStr (lit "html5"))]
  = Raise (ValueError
      (lit "Specifying both to and writer is not supported. Please specify just one."))
  /\ _check_output_format [(lit "reader", PyStr (lit "markdown"))]
     = Raise (ValueError (lit "Output format type must be either html or html5."))
  /\ _check_output_format [(lit "writer", PyStr (lit "pdf"))]
     = Raise (ValueError (lit "Output format type must be either html or html5."))
  /\ _check_output_format [(lit "to", PyStr (lit "html5"))] = Ok tt.
Proof. repeat split; reflexivity. Qed.

(** ** Metadata normalization *)

Section Strip.

Variable p : char -> bool.

Lemma lstrip_by_head (s : str) :
  match lstrip_by p s with
  | [] => True
  | c :: _ => p c = false
  end.
Proof.
  induction s as [|c s IH]; simpl; [exact I|].
  destruct (p c) eqn:E; [exact IH | exact E].
Qed.

Lemma lstrip_by_suffix (s : str) : exists pre, s = pre ++ lstrip_by p s.
Proof.
  induction s as [|c s [pre IH]]; simpl.
  - exists []. reflexivity.
  - destruct (p c).
    + exists (c :: pre). simpl. congruence.
    + exists []. reflexivity.
Qed.

Lemma rstrip_by_cons (c : char) (s : str) :
  rstrip_by p (c :: s)
  = match rstrip_by p s with
    | [] => if p c then [] else [c]
    | _ :: _ => c :: rstrip_by p s
    end.
Proof. reflexivity. Qed.

Lemma rstrip_by_last (s t : str) (c : char) :
  rstrip_by p s = t ++ [c] -> p c = false.
Proof.
  revert t. induction s as [|x s IH]; intros t.
  - destruct t; discriminate.
  - rewrite rstrip_by_cons. destruct (rstrip_by p s) as [|y r] eqn:E.
    + destruct (p x) eqn:Hx; [destruct t; discriminate|].
      destruct t as [|? [|? ?]]; try discriminate.
      intros H. injection H as <-. exact Hx.
    + destruct t as [|z t]; [discriminate|].
      intros H. injection H as _ H. exact (IH t H).
Qed.

Lemma strip_by_last (s t : str) (c : char) :
  strip_by p s = t ++ [c] -> p c = false.
Proof.
  unfold strip_by. intros H.
  destruct (lstrip_by_suffix (rstrip_by p s)) as [pre Hpre].
  rewrite H in Hpre. rewrite app_assoc in Hpre.
  exact (rstrip_by_last s (pre ++ t) c Hpre).
Qed.

Lemma strip_by_head (s t : str) (c : char) :
  strip_by p s = c :: t -> p c = false.
Proof.
  unfold strip_by. intros H.
  pose proof (lstrip_by_head (rstrip_by p s)) as Hhead.
  rewrite H in Hhead. exact Hhead.
Qed.

End Strip.

Lemma dict_has_set {V} (k k' : str) (v : V) (d : list (str * V)) :
  Dict.has k (Dict.set k' v d) = PyStr.eqb k k' || Dict.has k d.
Proof.
  unfold Dict.has. destruct (PyStr.eqb k k') eqn:E.
  - apply eqb_eq in E. subst k'. rewrite dict_get_set_same. reflexivity.
  - rewrite dict_get_set_other by exact E. reflexivity.
Qed.

Lemma call_hook_run {host : Host} (key : str) (value : pyval) (w : world) :
  call_hook key value w
  = (process_metadata key value,
     {| enable_extensions := enable_extensions w;
        trace := trace w ++ [Hook key value] |}).
Proof. reflexivity. Qed.

Lemma process_items_trace {host : Host} (items : list (str * pyval)) :
  forall (metadata : list (str * pyval)) (w : world),
  exists n,
    n <= List.length items
    /\ trace (snd (process_items items metadata w))
       = trace w ++ hook_calls (firstn n items)
    /\ (is_ok (fst (process_items items metadata w)) = true
        -> n = List.length items).
Proof.
  induction items as [|[key value] items IH]; intros metadata w.
  - exists 0. simpl. rewrite app_nil_r. auto.
  - cbn [process_items]. unfold bind. rewrite call_hook_run.
    destruct (process_metadata (str_lower key) (stripped value)) as [v|e].
    + match goal with
      | |- context [process_items items ?m ?w1] =>
          destruct (IH m w1) as (n & Hle & Htrace & Hok)
      end.
      exists (S n). split; [simpl; lia|]. split.
      * rewrite Htrace. cbn [trace firstn hook_calls map fst snd].
        rewrite <- app_assoc. reflexivity.
      * intros H. simpl. f_equal. exact (Hok H).
    + exists 1. split; [simpl; lia|]. split; [reflexivity | discriminate].
Qed.

Lemma process_items_keys {host : Host} (items : list (str * pyval)) :
  forall (acc metadata : list (str * pyval)) (w : world) (k : str),
  fst (process_items items acc w) = Ok metadata ->
  (Dict.has k metadata = true
   <-> Dict.has k acc = true
       \/ exists k0, In k0 (map fst items) /\ k = str_lower k0).
Proof.
  induction items as [|[key value] items IH]; intros acc metadata w k.
  - simpl. intros E. injection E as <-. split; [tauto|].
    intros [H | (k0 & [] & _)]. exact H.
  - cbn [process_items]. unfold bind. rewrite call_hook_run.
    destruct (process_metadata (str_lower key) (stripped value)) as [v|e];
      [|discriminate].
    intros E. rewrite (IH _ _ _ k E), dict_has_set, orb_true_iff, eqb_eq.
    cbn [map fst In]. split.
    + intros [[-> | H] | (k0 & Hin & ->)]; eauto.
    + intros [H | (k0 & [<- | Hin] & ->)]; eauto.
Qed.

(** C7 (as the code has it). [_process_metadata] calls the hook once per
    item, in order, with the key lower-cased and the value [stripped]; the
    keys of the record it returns are the lower-cased keys. A non-empty
    string value is handed over as [value.strip().strip(dquote)], which
    neither begins nor ends with a double quote; every other value, the
    empty string included, is handed over unchanged. *)
Theorem process_metadata_normalizes {host : Host}
    (items : list (str * pyval)) (w : world) :
  let run := _process_metadata (PyDict items) w in
  (exists n,
      n <= List.length items
      /\ trace (snd run) = trace w ++ hook_calls (firstn n items)
      /\ (is_ok (fst run) = true -> n = List.length items))
  /\ (forall metadata k,
         fst run = Ok metadata ->
         (Dict.has k metadata = true
          <-> exists k0, In k0 (map fst items) /\ k = str_lower k0))
  /\ (forall s,
         s <> [] ->
         stripped (PyStr s) = PyStr (strip_chars [dquote] (strip s))
         /\ (forall t, strip_chars [dquote] (strip s) <> dquote :: t)
         /\ (forall t, strip_chars [dquote] (strip s) <> t ++ [dquote]))
  /\ (forall v, (forall s, v <> PyStr s) -> stripped v = v)
  /\ stripped (PyStr []) = PyStr [].
Proof.
  cbn zeta. cbn [_process_metadata]. split; [apply process_items_trace|].
  split.
  { intros metadata k E. rewrite (process_items_keys items [] metadata w k E).
    split; [intros [H | H]; [discriminate | exact H] | auto]. }
  split.
  { intros s Hs. split; [destruct s; [congruence | reflexivity]|].
    split; intros t E.
    - apply strip_by_head in E. discriminate.
    - apply strip_by_last in E. discriminate. }
  split; [|reflexivity].
  intros v Hv. destruct v; try reflexivity. exfalso. exact (Hv s eq_refl).
Qed.

Lemma process_metadata_normalizes_witness :
  let host := Demo.reader Demo.page in
  let items := [(lit "Title", PyStr (lit " Valid ")); (lit "Tags", PyList [])] in
  fst (_process_metadata (PyDict items) Demo.world0)
  = Ok [(lit "title", PyStr (lit "Valid")); (lit "tags", PyList [])]
  /\ trace (snd (_process_metadata (PyDict items) Demo.world0))
     = [Hook (lit "title") (PyStr (lit "Valid")); Hook (lit "tags") (PyList [])]
  /\ (Dict.has (lit "title") [(lit "title", PyStr (lit "Valid")); (lit "tags", PyList [])]
      = true
      <-> exists k0, In k0 [lit "Title"; lit "Tags"] /\ lit "title" = str_lower k0).
Proof.
  split; [reflexivity|]. split; [reflexivity|].
  apply (proj1 (proj2 (process_metadata_normalizes (host := Demo.reader Demo.page)
                         [(lit "Title", PyStr (lit " Valid ")); (lit "Tags", PyList [])]
                         Demo.world0))).
  reflexivity.
Defined.

(** C7 (as stated) fails: white space that stood inside the quotes is
    still there, at both ends of the value the hook receives. *)
Lemma quoted_padding_reaches_hook :
  let host := Demo.reader Demo.page in
  let value := [dquote] ++ lit " a " ++ [dquote] in
  trace (snd (_process_metadata (PyDict [(lit "Title", PyStr value)]) Demo.world0))
  = [Hook (lit "title") (PyStr (lit " a "))]
  /\ strip (lit " a ") <> lit " a ".
Proof. split; [reflexivity | vm_compute; discriminate]. Qed.

(** ** The reading-time estimator *)

Section ReadingTime.

Context {host : Host}.
Variable settings : list (str * pyval).

(** The body of the [try] block, step by step. *)
Lemma calculate_reading_time_steps (content : str)
    (words speed quotient : PyFloat.float) (n : Z) :
  PyFloat.of_int (count_words_in_markdown content) = Ok words ->
  py_float (Dict.get_default (lit "READING_SPEED") DEFAULT_READING_SPEED settings)
  = Ok speed ->
  PyFloat.truediv words speed = Ok quotient ->
  PyFloat.ceil quotient = Ok n ->
  _calculate_reading_time settings content = Ok (minutes_phrase n).
Proof.
  intros Hwords Hspeed Hdiv Hceil. unfold _calculate_reading_time, minutes_phrase.
  rewrite Hwords, Hspeed. cbn [result_bind]. rewrite Hdiv. cbn [result_bind].
  rewrite Hceil. reflexivity.
Qed.

(** How a failing [float(reading_speed)] comes out of the [try] block. *)
Lemma calculate_reading_time_speed_error (content : str)
    (words : PyFloat.float) (e : exn) :
  PyFloat.of_int (count_words_in_markdown content) = Ok words ->
  py_float (Dict.get_default (lit "READING_SPEED") DEFAULT_READING_SPEED settings)
  = Raise e ->
  _calculate_reading_time settings content
  = Raise match e with
          | ValueError _ => ValueError (lit "READING_SPEED setting must be a number.")
          | _ => e
          end.
Proof.
  intros Hwords Hspeed. unfold _calculate_reading_time.
  rewrite Hwords, Hspeed. destruct e; reflexivity.
Qed.

End ReadingTime.

(** C6 (as the code has it). When READING_SPEED is a string that [float]
    does not read as a number, the estimator fails with [ValueError] and
    exactly the message "READING_SPEED setting must be a number.". *)
Theorem reading_speed_string_not_a_number {host : Host}
    (settings : list (str * pyval)) (content speed : str) (words : PyFloat.float) :
  Dict.get_default (lit "READING_SPEED") DEFAULT_READING_SPEED settings
  = PyStr speed ->
  parse_float speed = None ->
  PyFloat.of_int (count_words_in_markdown content) = Ok words ->
  _calculate_reading_time settings content
  = Raise (ValueError (lit "READING_SPEED setting must be a number.")).
Proof.
  intros Hsetting Hparse Hwords.
  rewrite (calculate_reading_time_speed_error settings content words
             (ValueError (lit "could not convert string to float")) Hwords);
    [reflexivity|].
  rewrite Hsetting. cbn [py_float]. rewrite Hparse. reflexivity.
Qed.

Lemma reading_speed_string_not_a_number_witness :
  let host := Demo.reader Demo.page in
  let settings := [(lit "READING_SPEED", PyStr (lit "my words per minute"))] in
  Dict.get_default (lit "READING_SPEED") DEFAULT_READING_SPEED settings
  = PyStr (lit "my words per minute")
  /\ parse_float (lit "my words per minute") = None
  /\ PyFloat.of_int (count_words_in_markdown Demo.valid_content)
     = Ok (S754_finite false 6755399441055744 (-50))
  /\ _calculate_reading_time settings Demo.valid_content
     = Raise (ValueError (lit "READING_SPEED setting must be a number.")).
Proof.
  split; [reflexivity|]. split; [reflexivity|]. split; [reflexivity|].
  apply (reading_speed_string_not_a_number (host := Demo.reader Demo.page)
           [(lit "READING_SPEED", PyStr (lit "my words per minute"))]
           Demo.valid_content (lit "my words per minute")
           (S754_finite false 6755399441055744 (-50)));
    reflexivity.
Defined.

(** C6 (as stated) fails: a READING_SPEED that is no string and no number
    makes [float] raise [TypeError], which the handler does not catch. *)
Lemma reading_speed_none_raises_type_error :
  let host := Demo.reader Demo.page in
  py_float PyNone = Raise TypeError
  /\ _calculate_reading_time [(lit "READING_SPEED", PyNone)] Demo.valid_content
     = Raise TypeError
  /\ _calculate_reading_time [(lit "READING_SPEED", PyList [PyInt 200])]
       Demo.valid_content
     = Raise TypeError.
Proof. repeat split; reflexivity. Qed.

(** ** The link-placeholder rewrite *)

Example separated_links : separated ENCODED_LINKS_TO_RAW_LINKS_MAP = true.
Proof. vm_compute. reflexivity. Qed.

Example rewrite_static_link :
  rewrite_links_in ENCODED_LINKS_TO_RAW_LINKS_MAP
    (lit "<a href=" ++ [dquote] ++ lit "%7Bstatic%7Dimages/a.png" ++ [dquote] ++ lit ">")
  = lit "<a href=" ++ [dquote] ++ lit "{static}images/a.png" ++ [dquote] ++ lit ">".
Proof. vm_compute. reflexivity. Qed.

Lemma startswith_app (p t : str) : startswith p (p ++ t) = true.
Proof. induction p as [|c p IH]; simpl; [|rewrite N.eqb_refl]; auto. Qed.

Lemma startswith_true (p s : str) :
  startswith p s = true -> exists t, s = p ++ t.
Proof.
  revert s. induction p as [|c p IH]; intros s; simpl.
  - exists s. reflexivity.
  - destruct s as [|d s]; [discriminate|].
    rewrite andb_true_iff, N.eqb_eq. intros [-> H].
    destruct (IH s H) as [t ->]. exists t. reflexivity.
Qed.

Lemma incompatible_app (p x t : str) :
  incompatible p x = true -> startswith p (x ++ t) = false.
Proof.
  unfold incompatible. revert x. induction p as [|a p IH]; intros x; simpl.
  - discriminate.
  - destruct x as [|b x]; simpl; [discriminate|].
    rewrite (N.eqb_sym b a). destruct (N.eqb a b); simpl; [apply IH | reflexivity].
Qed.

Lemma find_ext_in {A} (f g : A -> bool) (l : list A) :
  (forall x, In x l -> f x = g x) -> List.find f l = List.find g l.
Proof.
  induction l as [|x l IH]; intros H; simpl; [reflexivity|].
  rewrite <- (H x (or_introl eq_refl)).
  destruct (f x); [reflexivity|]. apply IH. intros y Hy. apply H. right. exact Hy.
Qed.

Lemma find_all_false {A} (f : A -> bool) (l : list A) :
  (forall x, In x l -> f x = false) -> List.find f l = None.
Proof.
  induction l as [|x l IH]; intros H; simpl; [reflexivity|].
  rewrite (H x (or_introl eq_refl)). apply IH. intros y Hy. apply H. right. exact Hy.
Qed.

(** *** Unfolding [replace] and [pass] *)

Lemma replace_from_skip (old new u t : str) :
  replace_from old new (List.length u) (u ++ t) = replace_from old new 0 t.
Proof. induction u as [|c u IH]; [reflexivity | exact IH]. Qed.

Lemma replace_hit (old new t : str) :
  old <> [] -> replace old new (old ++ t) = new ++ replace old new t.
Proof.
  destruct old as [|c old]; [congruence|]. intros _. unfold replace.
  change ((c :: old) ++ t) with (c :: old ++ t). cbn [replace_from].
  change (c :: old ++ t) with ((c :: old) ++ t). rewrite startswith_app.
  cbn [List.length Nat.pred]. rewrite replace_from_skip. reflexivity.
Qed.

Lemma replace_miss (old new : str) (c : char) (t : str) :
  old <> [] -> startswith old (c :: t) = false ->
  replace old new (c :: t) = c :: replace old new t.
Proof.
  destruct old as [|d old]; [congruence|]. intros _ H. unfold replace.
  cbn [replace_from]. rewrite H. reflexivity.
Qed.

Lemma replace_nil (old new : str) : old <> [] -> replace old new [] = [].
Proof. destruct old; [congruence | reflexivity]. Qed.

Lemma pass_from_skip (rules : list (str * str)) (u t : str) :
  pass_from rules (List.length u) (u ++ t) = pass_from rules 0 t.
Proof. induction u as [|c u IH]; [reflexivity | exact IH]. Qed.

Lemma pass_hit (rules : list (str * str)) (old new t : str) :
  old <> [] -> first_match rules (old ++ t) = Some (old, new) ->
  pass rules (old ++ t) = new ++ pass rules t.
Proof.
  destruct old as [|c old]; [congruence|]. intros _ H. unfold pass.
  change ((c :: old) ++ t) with (c :: old ++ t) in *. cbn [pass_from].
  rewrite H. cbn [List.length Nat.pred]. rewrite pass_from_skip. reflexivity.
Qed.

Lemma pass_miss (rules : list (str * str)) (c : char) (t : str) :
  first_match rules (c :: t) = None ->
  pass rules (c :: t) = c :: pass rules t.
Proof. intros H. unfold pass. cbn [pass_from]. rewrite H. reflexivity. Qed.

Lemma pass_no_rule (s : str) : pass [] s = s.
Proof.
  induction s as [|c s IH]; [reflexivity|].
  rewrite pass_miss by reflexivity. rewrite IH. reflexivity.
Qed.

(** *** One replacement against the others *)

(** A replacement whose raw form begins with a character foreign to [q]
    cannot make [q] appear at the front. *)
Lemma startswith_replace (old new q t : str) (h : char) (new' : str) :
  old <> [] -> new = h :: new' -> existsb (N.eqb h) q = false ->
  startswith q (replace old new t) = true -> startswith q t = true.
Proof.
  intros Hold -> . revert q. induction t as [|d t IH]; intros q Hq.
  - rewrite replace_nil by exact Hold. auto.
  - destruct q as [|x q]; [reflexivity|].
    cbn [existsb] in Hq. apply orb_false_iff in Hq. destruct Hq as [Hx Hq].
    destruct (startswith old (d :: t)) eqn:E.
    + apply startswith_true in E. destruct E as [t' ->].
      rewrite replace_hit by exact Hold. cbn [app startswith].
      rewrite (N.eqb_sym x h), Hx. discriminate.
    + rewrite replace_miss by assumption. cbn [startswith].
      rewrite !andb_true_iff. intros [Hd H]. split; [exact Hd|].
      apply IH; assumption.
Qed.

(** Where no occurrence of [old] can start, the text is kept. *)
Lemma replace_apart (old new x t : str) :
  old <> [] -> apart old x = true ->
  replace old new (x ++ t) = x ++ replace old new t.
Proof.
  intros Hold. induction x as [|c x IH]; [reflexivity|].
  cbn [apart]. rewrite andb_true_iff. intros [Hinc Hx].
  change ((c :: x) ++ t) with (c :: x ++ t).
  rewrite replace_miss; [rewrite (IH Hx); reflexivity | exact Hold |].
  exact (incompatible_app old (c :: x) t Hinc).
Qed.

Section Separated.

Variable rules : list (str * str).
Hypothesis Hsep : separated rules = true.

Lemma separated_nonempty (old new : str) : In (old, new) rules -> old <> [].
Proof.
  intros Ha. pose proof Hsep as H. unfold separated in H.
  rewrite forallb_forall in H. specialize (H _ Ha). cbn [fst] in H.
  destruct old; [discriminate H | discriminate].
Qed.

Lemma separated_pair_in (a b : str * str) :
  In a rules -> In b rules -> separated_pair a b = true.
Proof.
  intros Ha Hb. pose proof Hsep as H. unfold separated in H.
  rewrite forallb_forall in H. specialize (H a Ha).
  apply andb_true_iff in H. destruct H as [_ H].
  rewrite forallb_forall in H. exact (H b Hb).
Qed.

(** No character of a raw form opens a pattern. *)
Lemma separated_raw_chars (old new old' new' : str) (c : char) (t : str) :
  In (old, new) rules -> In (old', new') rules -> In c new ->
  startswith old' (c :: t) = false.
Proof.
  intros Ha Hb Hc. pose proof (separated_pair_in _ _ Ha Hb) as H.
  unfold separated_pair in H. cbn [fst snd] in H. rewrite !andb_true_iff in H.
  destruct H as [[H _] _]. rewrite forallb_forall in H. specialize (H c Hc).
  pose proof (separated_nonempty old' new' Hb) as Hne.
  destruct old' as [|h p]; [congruence|]. cbn [starts_with_char] in H.
  cbn [startswith]. destruct (N.eqb h c); [discriminate | reflexivity].
Qed.

(** The first character of a raw form occurs in no pattern. *)
Lemma separated_raw_head (old new old' new' : str) :
  In (old, new) rules -> In (old', new') rules ->
  exists h r, new = h :: r /\ existsb (N.eqb h) old' = false.
Proof.
  intros Ha Hb. pose proof (separated_pair_in _ _ Ha Hb) as H.
  unfold separated_pair in H. cbn [fst snd] in H. rewrite !andb_true_iff in H.
  destruct H as [[_ H] _]. destruct new as [|h r]; [discriminate|].
  exists h, r. split; [reflexivity|]. destruct (existsb _ _); [discriminate|auto].
Qed.

(** Distinct rules have patterns that keep apart. *)
Lemma separated_apart (old new old' new' : str) :
  In (old, new) rules -> In (old', new') rules ->
  (old, new) = (old', new') \/ apart old old' = true.
Proof.
  intros Ha Hb. pose proof (separated_pair_in _ _ Ha Hb) as H.
  unfold separated_pair in H. cbn [fst snd] in H. rewrite !andb_true_iff in H.
  destruct H as [_ H]. apply orb_true_iff in H. destruct H as [H | H]; [left|auto].
  unfold rule_eqb in H. cbn [fst snd] in H. rewrite andb_true_iff, !eqb_eq in H.
  destruct H. congruence.
Qed.

Lemma apart_incompatible (p x : str) :
  x <> [] -> apart p x = true -> incompatible p x = true.
Proof.
  destruct x; [congruence|]. intros _. cbn [apart].
  rewrite andb_true_iff. tauto.
Qed.

(** A pattern that starts the text is the only one that does. *)
Lemma separated_one_match (a b : str * str) (s : str) :
  In a rules -> In b rules ->
  startswith (fst a) s = true -> startswith (fst b) s = true -> a = b.
Proof.
  destruct a as [old new], b as [old' new']. cbn [fst]. intros Ha Hb Hsa Hsb.
  destruct (separated_apart _ _ _ _ Ha Hb) as [E | H]; [exact E|].
  exfalso. apply startswith_true in Hsb. destruct Hsb as [t ->].
  apply apart_incompatible in H; [|exact (separated_nonempty _ _ Hb)].
  rewrite (incompatible_app old old' t H) in Hsa. discriminate.
Qed.

(** Whether a pattern starts [old' ++ t] does not depend on [t]. *)
Lemma separated_match_stable (old new old' new' t t' : str) :
  In (old, new) rules -> In (old', new') rules ->
  startswith old (old' ++ t) = startswith old (old' ++ t').
Proof.
  intros Hc Hb. destruct (separated_apart _ _ _ _ Hc Hb) as [E | H].
  - injection E as -> _. rewrite !startswith_app. reflexivity.
  - apply apart_incompatible in H; [|exact (separated_nonempty _ _ Hb)].
    rewrite !(incompatible_app old old' _ H). reflexivity.
Qed.

Variable active : list (str * str).
Hypothesis Hactive : incl active rules.

Lemma first_match_in (s old new : str) :
  first_match active s = Some (old, new) ->
  In (old, new) active /\ In (old, new) rules /\ exists t, s = old ++ t.
Proof.
  intros H. apply find_some in H. destruct H as [Hin Hs].
  split; [exact Hin|]. split; [exact (Hactive _ Hin)|].
  exact (startswith_true _ _ Hs).
Qed.

Lemma first_match_stable (old new t t' : str) :
  first_match active (old ++ t) = Some (old, new) ->
  first_match active (old ++ t') = Some (old, new).
Proof.
  intros H. destruct (first_match_in _ _ _ H) as (Hb' & Hb & _).
  rewrite <- H. unfold first_match. apply find_ext_in. intros [old' new'] Hc.
  cbn [fst]. apply (separated_match_stable old' new' old new); auto.
Qed.

Lemma first_match_none (s : str) :
  (forall old new, In (old, new) active -> startswith old s = false) ->
  first_match active s = None.
Proof.
  intros H. apply find_all_false. intros [old new] Hin. exact (H old new Hin).
Qed.

(** A raw form goes through the pass of the other rules unchanged. *)
Lemma pass_raw (old new t : str) :
  In (old, new) rules -> pass active (new ++ t) = new ++ pass active t.
Proof.
  intros Ha.
  assert (H : forall r, incl r new -> pass active (r ++ t) = r ++ pass active t).
  { induction r as [|c r IH]; intros Hr; [reflexivity|].
    change ((c :: r) ++ t) with (c :: r ++ t). rewrite pass_miss.
    - rewrite IH; [reflexivity|]. intros x Hx. apply Hr. right. exact Hx.
    - apply first_match_none. intros old' new' Hb.
      apply (separated_raw_chars old new old' new'); auto.
      apply Hr. left. reflexivity. }
  apply H. apply incl_refl.
Qed.

(** Replacing one pattern first and passing over the text with the others
    afterwards is one pass with them all. *)
Lemma pass_after_replace (old new : str) :
  In (old, new) rules ->
  forall s, pass active (replace old new s) = pass ((old, new) :: active) s.
Proof.
  intros Ha s. pose proof (separated_nonempty _ _ Ha) as Hne.
  remember (List.length s) as n eqn:Hn. revert s Hn.
  induction n as [n IH] using lt_wf_ind. intros [|c t] Hn.
  { rewrite replace_nil by exact Hne. reflexivity. }
  destruct (startswith old (c :: t)) eqn:Ea.
  - (* the pattern replaced starts the text *)
    destruct (startswith_true _ _ Ea) as [t' Et]. rewrite Et.
    rewrite replace_hit by exact Hne. rewrite (pass_raw old new) by exact Ha.
    rewrite (pass_hit ((old, new) :: active) old new t' Hne).
    + f_equal. apply (IH (List.length t')); [|reflexivity].
      rewrite Hn, Et, length_app. destruct old; [congruence | simpl; lia].
    + unfold first_match. cbn [List.find fst]. rewrite startswith_app. reflexivity.
  - assert (Hfirst : first_match ((old, new) :: active) (c :: t)
                     = first_match active (c :: t)).
    { unfold first_match. cbn [List.find fst]. rewrite Ea. reflexivity. }
    destruct (first_match active (c :: t)) as [[old' new']|] eqn:Eb.
    + (* another pattern starts the text *)
      destruct (first_match_in _ _ _ Eb) as (Hb' & Hb & t' & Et).
      pose proof (separated_nonempty _ _ Hb) as Hneb.
      assert (Hab : apart old old' = true).
      { destruct (separated_apart _ _ _ _ Ha Hb) as [E | H]; [|exact H].
        injection E as -> _. rewrite Et, startswith_app in Ea. discriminate. }
      rewrite Et in *. rewrite replace_apart by assumption.
      rewrite (pass_hit active old' new' _ Hneb).
      * rewrite (pass_hit ((old, new) :: active) old' new' t' Hneb Hfirst).
        f_equal. apply (IH (List.length t')); [|reflexivity].
        rewrite Hn, length_app. destruct old'; [congruence | simpl; lia].
      * exact (first_match_stable old' new' t' _ Eb).
    + (* no pattern starts the text *)
      rewrite replace_miss by assumption.
      rewrite (pass_miss ((old, new) :: active)) by exact Hfirst.
      rewrite pass_miss.
      * f_equal. apply (IH (List.length t)); [|reflexivity]. rewrite Hn. simpl. lia.
      * apply first_match_none. intros old' new' Hb'.
        pose proof (Hactive _ Hb') as Hb.
        pose proof (find_none _ _ Eb _ Hb') as Hsb. cbn [fst] in Hsb.
        pose proof (separated_nonempty _ _ Hb) as Hneb.
        destruct (separated_raw_head _ _ _ _ Ha Hb) as (x & r & Enew & Hx).
        destruct old' as [|h p]; [congruence|].
        cbn [startswith] in *. apply andb_false_iff in Hsb.
        destruct Hsb as [-> | Hp]; [reflexivity|].
        destruct (startswith p (replace old new t)) eqn:Ep; [|apply andb_false_r].
        cbn [existsb] in Hx. apply orb_false_iff in Hx.
        rewrite (startswith_replace old new p t x r Hne Enew (proj2 Hx) Ep) in Hp.
        discriminate.
Qed.

End Separated.

(** *** The replacements in any order, and the reading of the text *)

Section SeparatedOrder.

Variable rules : list (str * str).
Hypothesis Hsep : separated rules = true.

Lemma rewrite_links_in_pass (order : list (str * str)) :
  incl order rules -> forall s, rewrite_links_in order s = pass order s.
Proof.
  induction order as [|[old new] order IH]; intros Hincl s.
  - symmetry. apply pass_no_rule.
  - assert (Hrest : incl order rules) by (intros x Hx; apply Hincl; right; exact Hx).
    change (rewrite_links_in ((old, new) :: order) s)
      with (rewrite_links_in order (replace old new s)).
    rewrite (IH Hrest).
    apply (pass_after_replace rules Hsep order Hrest old new).
    apply Hincl. left. reflexivity.
Qed.

Lemma pass_Rewrites (order : list (str * str)) :
  incl order rules -> forall s, Rewrites order s (pass order s).
Proof.
  intros Hincl s. remember (List.length s) as n eqn:Hn. revert s Hn.
  induction n as [n IH] using lt_wf_ind. intros [|c t] Hn; [constructor|].
  destruct (first_match order (c :: t)) as [[old new]|] eqn:E.
  - destruct (first_match_in rules order Hincl _ _ _ E) as (Hin & Hin' & t' & Et).
    pose proof (separated_nonempty rules Hsep _ _ Hin') as Hne.
    rewrite Et in *. rewrite (pass_hit order old new t' Hne E).
    apply Rewrites_occurrence; [exact Hin|].
    apply (IH (List.length t')); [|reflexivity].
    rewrite Hn, length_app. destruct old; [congruence | simpl; lia].
  - rewrite (pass_miss order c t E). apply Rewrites_copy.
    + intros old new Hin. exact (find_none _ _ E _ Hin).
    + apply (IH (List.length t)); [|reflexivity]. rewrite Hn. simpl. lia.
Qed.

Lemma Rewrites_same_rules (order order' : list (str * str)) (s u : str) :
  (forall rule, In rule order <-> In rule order') ->
  Rewrites order s u -> Rewrites order' s u.
Proof.
  intros Hsame H. induction H as [|old new rest rest' Hin _ IH|c rest rest' Hno _ IH].
  - constructor.
  - apply Rewrites_occurrence; [apply Hsame; exact Hin | exact IH].
  - apply Rewrites_copy; [|exact IH].
    intros old new Hin. apply (Hno old new). apply Hsame. exact Hin.
Qed.

(** The reading of a text is unique. *)
Lemma Rewrites_deterministic (s u u' : str) :
  Rewrites rules s u -> Rewrites rules s u' -> u = u'.
Proof.
  intros H. revert u'.
  induction H as [|old new rest rest' Hin _ IH|c rest rest' Hno _ IH]; intros u' H'.
  - inversion H' as [|old new rest rest' Hin _ Es|]; [reflexivity|].
    apply app_eq_nil in Es. destruct Es as [-> _].
    exfalso. exact (separated_nonempty rules Hsep _ _ Hin eq_refl).
  - pose proof (separated_nonempty rules Hsep _ _ Hin) as Hne.
    remember (old ++ rest) as s eqn:Es.
    destruct H' as [|old2 new2 rest2 rest2' Hin2 Hrest2|c rest2 rest2' Hno _].
    + symmetry in Es. apply app_eq_nil in Es. destruct Es. congruence.
    + assert (E : (old, new) = (old2, new2)).
      { apply (separated_one_match rules Hsep _ _ (old ++ rest) Hin Hin2); cbn [fst].
        - apply startswith_app.
        - rewrite <- Es. apply startswith_app. }
      injection E as <- <-. apply app_inv_head in Es. subst rest2.
      f_equal. apply IH. exact Hrest2.
    + specialize (Hno old new Hin). rewrite Es, startswith_app in Hno. discriminate.
  - inversion H' as [|old new rest2 rest2' Hin _ Es|? ? rest2' _ Hrest2]; subst.
    + specialize (Hno old new Hin). rewrite <- Es, startswith_app in Hno.
      discriminate.
    + f_equal. apply IH. exact Hrest2.
Qed.

(** Any arrangement of the rules gives the reading of the text. *)
Lemma rewrite_links_in_Rewrites (order : list (str * str)) (s : str) :
  Permutation order rules -> Rewrites rules s (rewrite_links_in order s).
Proof.
  intros Hperm.
  assert (Hincl : incl order rules)
    by (intros x Hx; exact (Permutation_in x Hperm Hx)).
  rewrite (rewrite_links_in_pass order Hincl).
  apply (Rewrites_same_rules order rules); [|exact (pass_Rewrites order Hincl s)].
  intros rule. split; [apply Permutation_in; exact Hperm|].
  apply Permutation_in. symmetry. exact Hperm.
Qed.

End SeparatedOrder.

Lemma apart_skipn (p x : str) (i : nat) :
  apart p x = true -> i < List.length x -> incompatible p (skipn i x) = true.
Proof.
  revert i. induction x as [|c x IH]; intros i H Hi; [simpl in Hi; lia|].
  cbn [apart] in H. apply andb_true_iff in H. destruct H as [Hc Hx].
  destruct i as [|i]; [exact Hc|]. cbn [skipn]. apply IH; [exact Hx|].
  simpl in Hi. lia.
Qed.

(** C8. Whatever the order in which the three replacements are made, the
    result is the one of the order of the source; it is the reading of the
    text in which every occurrence of a pattern has given way to its raw
    form and every other character is copied; and no occurrence of a
    pattern can begin inside an occurrence of a pattern. *)
Theorem rewrite_links_order_independent (order : list (str * str)) (html : str) :
  Permutation order ENCODED_LINKS_TO_RAW_LINKS_MAP ->
  rewrite_links_in order html
  = rewrite_links_in ENCODED_LINKS_TO_RAW_LINKS_MAP html
  /\ Rewrites ENCODED_LINKS_TO_RAW_LINKS_MAP html (rewrite_links_in order html)
  /\ (forall old new old' new' i t,
         In (old, new) ENCODED_LINKS_TO_RAW_LINKS_MAP ->
         In (old', new') ENCODED_LINKS_TO_RAW_LINKS_MAP ->
         0 < i < List.length old' ->
         startswith old (skipn i old' ++ t) = false).
Proof.
  intros Hperm. pose proof separated_links as Hsep.
  pose proof (rewrite_links_in_Rewrites _ Hsep order html Hperm) as Hread.
  split; [|split; [exact Hread|]].
  - apply (Rewrites_deterministic _ Hsep html); [exact Hread|].
    apply (rewrite_links_in_Rewrites _ Hsep). apply Permutation_refl.
  - intros old new old' new' i t Hin Hin' Hi.
    apply incompatible_app.
    assert (Hall : forallb
                     (fun a => forallb (fun b => apart (fst a) (tl (fst b)))
                                 ENCODED_LINKS_TO_RAW_LINKS_MAP)
                     ENCODED_LINKS_TO_RAW_LINKS_MAP = true)
      by (vm_compute; reflexivity).
    rewrite forallb_forall in Hall. specialize (Hall _ Hin).
    rewrite forallb_forall in Hall. specialize (Hall _ Hin'). cbn [fst] in Hall.
    destruct old' as [|h x]; [simpl in Hi; lia|]. cbn [tl] in Hall.
    destruct i as [|i]; [lia|]. cbn [skipn].
    apply apart_skipn; [exact Hall | simpl in Hi; lia].
Qed.

Lemma rewrite_links_order_independent_witness :
  let order :=
    [ (lit "%7Bfilename%7D", lit "{filename}");
      (lit "%7Bstatic%7D", lit "{static}");
      (lit "%7Battach%7D", lit "{attach}") ] in
  let html :=
    lit "<a href=" ++ [dquote] ++ lit "%7Bstatic%7Dimages/a.png" ++ [dquote]
    ++ lit ">%7Battach%7D" in
  Permutation order ENCODED_LINKS_TO_RAW_LINKS_MAP
  /\ rewrite_links_in order html
     = lit "<a href=" ++ [dquote] ++ lit "{static}images/a.png" ++ [dquote]
       ++ lit ">{attach}"
  /\ rewrite_links_in order html
     = rewrite_links_in ENCODED_LINKS_TO_RAW_LINKS_MAP html.
Proof.
  assert (Hperm : Permutation
                    [ (lit "%7Bfilename%7D", lit "{filename}");
                      (lit "%7Bstatic%7D", lit "{static}");
                      (lit "%7Battach%7D", lit "{attach}") ]
                    ENCODED_LINKS_TO_RAW_LINKS_MAP).
  { apply perm_trans with
      [ (lit "%7Bstatic%7D", lit "{static}");
        (lit "%7Bfilename%7D", lit "{filename}");
        (lit "%7Battach%7D", lit "{attach}") ].
    - apply perm_swap.
    - apply perm_skip. apply perm_swap. }
  split; [exact Hperm|]. split; [vm_compute; reflexivity|].
  exact (proj1 (rewrite_links_order_independent _ _ Hperm)).
Defined.

(** ** Binary64 arithmetic on integers

    Word counts and integer reading speeds are far below [2 ^ 53]: their
    floats are exact, and the rounded quotient has the ceiling of the exact
    one. *)

Module Binary64.
Import PyFloat.
Local Open Scope Z_scope.

Lemma digits2_size (p : positive) : digits2_pos p = Pos.size p.
Proof. induction p; simpl; congruence. Qed.

Lemma digits2_bounds (p : positive) :
  2 ^ (Z.pos (digits2_pos p) - 1) <= Z.pos p < 2 ^ Z.pos (digits2_pos p).
Proof.
  rewrite digits2_size.
  pose proof (Pos.size_gt p) as Hgt. pose proof (Pos.size_le p) as Hle.
  apply Pos2Z.pos_lt_pos in Hgt. apply Pos2Z.pos_le_pos in Hle.
  rewrite Pos2Z.inj_pow in Hgt, Hle. change (Z.pos p~0) with (2 * Z.pos p) in Hle.
  split; [|exact Hgt].
  replace (Z.pos (Pos.size p)) with (Z.succ (Z.pos (Pos.size p) - 1)) in Hle by lia.
  rewrite Z.pow_succ_r in Hle by lia. lia.
Qed.

Lemma digits2_unique (p : positive) (d : Z) :
  2 ^ (d - 1) <= Z.pos p < 2 ^ d -> Z.pos (digits2_pos p) = d.
Proof.
  intros [Hlo Hhi]. pose proof (digits2_bounds p) as [Hlo' Hhi'].
  assert (0 <= d).
  { destruct (Z.le_gt_cases 0 d) as [|Hneg]; [assumption|].
    rewrite (Z.pow_neg_r 2 d Hneg) in Hhi. lia. }
  assert (d - 1 < Z.pos (digits2_pos p)).
  { apply (Z.pow_lt_mono_r_iff 2); lia. }
  assert (Z.pos (digits2_pos p) - 1 < d).
  { apply (Z.pow_lt_mono_r_iff 2); lia. }
  lia.
Qed.

Lemma iter_xO (m d : positive) : Z.pos (Pos.iter xO m d) = Z.pos m * 2 ^ Z.pos d.
Proof.
  induction d as [|d IH] using Pos.peano_ind.
  - change (Z.pos (Pos.iter xO m 1)) with (2 * Z.pos m). rewrite Z.pow_1_r. ring.
  - rewrite Pos.iter_succ. change (Z.pos (Pos.iter xO m d)~0) with (2 * Z.pos (Pos.iter xO m d)).
    rewrite IH, Pos2Z.inj_succ, Z.pow_succ_r by lia. ring.
Qed.

Lemma shl_align_spec (m : positive) (e e' : Z) :
  e' <= e ->
  exists mz, shl_align m e e' = (mz, e') /\ Z.pos mz = Z.pos m * 2 ^ (e - e').
Proof.
  intros Hle. unfold shl_align. destruct (e' - e) as [|k|k] eqn:E.
  - exists m. replace e' with e by lia. rewrite Z.sub_diag. split; [reflexivity | lia].
  - lia.
  - exists (Pos.iter xO m k). split; [reflexivity|].
    rewrite iter_xO. f_equal. f_equal. lia.
Qed.

Lemma shr_fexp_no_shift (m : positive) (e : Z) (l : location) :
  Z.pos (digits2_pos m) = 53 -> -1074 <= e ->
  shr_fexp prec emax (Z.pos m) e l = (shr_record_of_loc (Z.pos m) l, e).
Proof.
  intros Hd He. unfold shr_fexp, fexp, emin, prec, emax. cbn [Zdigits2].
  rewrite Hd. replace (Z.max (53 + e - 53) (3 - 1024 - 53) - e) with 0 by lia.
  reflexivity.
Qed.

Lemma shr_fexp_one_shift (m : positive) (e : Z) (l : location) :
  Z.pos (digits2_pos m) = 54 -> -1075 <= e ->
  shr_fexp prec emax (Z.pos m) e l = (shr_1 (shr_record_of_loc (Z.pos m) l), e + 1).
Proof.
  intros Hd He. unfold shr_fexp, fexp, emin, prec, emax. cbn [Zdigits2].
  rewrite Hd. replace (Z.max (54 + e - 53) (3 - 1024 - 53) - e) with 1 by lia.
  reflexivity.
Qed.

Lemma shr_m_of_loc (m : Z) (l : location) : shr_m (shr_record_of_loc m l) = m.
Proof. destruct l as [|[]]; reflexivity. Qed.

Lemma loc_of_shr_record_of_loc (m : Z) (l : location) :
  loc_of_shr_record (shr_record_of_loc m l) = l.
Proof. destruct l as [|[]]; reflexivity. Qed.

(** A mantissa of 53 bits or the power [2 ^ 53], with nothing to round, is
    stored as it is (the power after one more shift). *)
Lemma store_mantissa (m : positive) (e : Z) :
  2 ^ 52 <= Z.pos m <= 2 ^ 53 -> -1074 <= e -> e + 1 <= 971 ->
  let '(mrs, e') := shr_fexp prec emax (Z.pos m) e loc_Exact in
  exists m',
    shr_m mrs = Z.pos m' /\ e <= e' <= e + 1 /\ (e' <=? emax - prec) = true
    /\ Z.pos m' * 2 ^ (e' - e) = Z.pos m.
Proof.
  intros Hm He He'. destruct (Z.eq_dec (Z.pos m) (2 ^ 53)) as [E | E].
  - rewrite shr_fexp_one_shift; [|apply digits2_unique; rewrite E; cbn; lia | lia].
    injection E as ->. exists (2 ^ 52)%positive. cbn [shr_1 shr_record_of_loc shr_m].
    split; [reflexivity|]. split; [lia|]. split; [unfold emax, prec; lia|].
    replace (e + 1 - e) with 1 by lia. reflexivity.
  - rewrite shr_fexp_no_shift; [|apply digits2_unique; cbn; lia | lia].
    exists m. cbn [shr_record_of_loc shr_m].
    split; [reflexivity|]. split; [lia|]. split; [unfold emax, prec; lia|].
    rewrite Z.sub_diag. lia.
Qed.

(** The second half of [binary_round_aux]: storing the rounded mantissa. *)
Lemma store_rounded (m1 : positive) (e : Z) :
  2 ^ 52 <= Z.pos m1 <= 2 ^ 53 -> -1074 <= e -> e + 1 <= 971 ->
  exists M E,
    (let '(mrs, e') := shr_fexp prec emax (Z.pos m1) e loc_Exact in
     match shr_m mrs with
     | Z0 => S754_zero false
     | Z.pos m => if e' <=? emax - prec then S754_finite false m e'
                  else S754_infinity false
     | Z.neg _ => S754_nan
     end) = S754_finite false M E
    /\ e <= E <= e + 1 /\ Z.pos M * 2 ^ (E - e) = Z.pos m1.
Proof.
  intros Hm He He'. pose proof (store_mantissa m1 e Hm He He') as H.
  destruct (shr_fexp prec emax (Z.pos m1) e loc_Exact) as [mrs e'].
  destruct H as (m' & Hm' & Hee & Hle & Hval).
  exists m', e'. rewrite Hm', Hle. auto.
Qed.

Lemma round_quotient (q : positive) (e : Z) (l : location) :
  2 ^ 52 <= Z.pos q < 2 ^ 54 -> -1074 <= e -> e + 2 <= 971 ->
  exists M E,
    binary_round_aux prec emax false (Z.pos q) e l = S754_finite false M E
    /\ e <= E <= e + 2
    /\ rounded (Z.pos q) (is_exact l) (Z.pos M * 2 ^ (E - e)).
Proof.
  intros Hq He He'. unfold binary_round_aux.
  destruct (Z.lt_ge_cases (Z.pos q) (2 ^ 53)) as [Hlt | Hge].
  - (* 53 bits: no shift before rounding *)
    rewrite shr_fexp_no_shift; [|apply digits2_unique; cbn; lia | lia].
    rewrite shr_m_of_loc, loc_of_shr_record_of_loc.
    assert (H1 : exists m1,
               round_nearest_even (Z.pos q) l = Z.pos m1
               /\ 2 ^ 52 <= Z.pos m1 <= 2 ^ 53
               /\ rounded (Z.pos q) (is_exact l) (Z.pos m1)).
    { unfold rounded. destruct l as [|[]]; cbn [round_nearest_even is_exact].
      - exists q. split; [reflexivity|]. split; [lia | left; reflexivity].
      - destruct (Z.even (Z.pos q)).
        + exists q. split; [reflexivity|]. split; [lia | left; reflexivity].
        + exists (q + 1)%positive. rewrite Pos2Z.inj_add.
          split; [reflexivity|]. split; [lia | right; left; auto].
      - exists q. split; [reflexivity|]. split; [lia | left; reflexivity].
      - exists (q + 1)%positive. rewrite Pos2Z.inj_add.
        split; [reflexivity|]. split; [lia | right; left; auto]. }
    destruct H1 as (m1 & -> & Hm1 & Hr).
    destruct (store_rounded m1 e) as (M & E & -> & HE & Hval);
      [lia | lia | lia |].
    exists M, E. split; [reflexivity|]. split; [lia|]. rewrite Hval. exact Hr.
  - (* 54 bits: one shift before rounding *)
    rewrite shr_fexp_one_shift; [|apply digits2_unique; cbn; lia | lia].
    assert (H1 : exists m1,
               round_nearest_even
                 (shr_m (shr_1 (shr_record_of_loc (Z.pos q) l)))
                 (loc_of_shr_record (shr_1 (shr_record_of_loc (Z.pos q) l)))
               = Z.pos m1
               /\ 2 ^ 52 <= Z.pos m1 <= 2 ^ 53
               /\ rounded (Z.pos q) (is_exact l) (Z.pos m1 * 2)).
    { unfold rounded. destruct q as [p|p|]; [| |cbn in Hge; lia].
      - (* odd quotient *)
        assert (Hodd : Z.odd (Z.pos p~1) = true) by reflexivity.
        pose proof (Pos2Z.inj_xI p) as Hp.
        destruct l as [|[]];
          cbn [shr_record_of_loc shr_1 shr_m loc_of_shr_record orb
                 round_nearest_even is_exact].
        + destruct (Z.even (Z.pos p)).
          * exists p. split; [reflexivity|]. split; [lia|]. right. right.
            split; [lia | split; [reflexivity | exact Hodd]].
          * exists (p + 1)%positive. rewrite Pos2Z.inj_add.
            split; [reflexivity|]. split; [lia|]. right. left.
          split; [lia | right; exact Hodd].
        + exists (p + 1)%positive. rewrite Pos2Z.inj_add.
          split; [reflexivity|]. split; [lia|]. right. left.
          split; [lia | right; exact Hodd].
        + exists (p + 1)%positive. rewrite Pos2Z.inj_add.
          split; [reflexivity|]. split; [lia|]. right. left.
          split; [lia | right; exact Hodd].
        + exists (p + 1)%positive. rewrite Pos2Z.inj_add.
          split; [reflexivity|]. split; [lia|]. right. left.
          split; [lia | right; exact Hodd].
      - (* even quotient *)
        pose proof (Pos2Z.inj_xO p) as Hp.
        exists p.
        destruct l as [|[]];
          cbn [shr_record_of_loc shr_1 shr_m loc_of_shr_record orb
                 round_nearest_even is_exact];
          (split; [reflexivity|]; split; [lia|]; left; lia). }
    destruct H1 as (m1 & -> & Hm1 & Hr).
    destruct (store_rounded m1 (e + 1)) as (M & E & -> & HE & Hval);
      [lia | lia | lia |].
    exists M, E. split; [reflexivity|]. split; [lia|].
    replace (E - e) with (Z.succ (E - (e + 1))) by lia.
    rewrite Z.pow_succ_r by lia.
    replace (Z.pos M * (2 * 2 ^ (E - (e + 1)))) with (Z.pos M * 2 ^ (E - (e + 1)) * 2)
      by ring.
    rewrite Hval. exact Hr.
Qed.

Lemma binary_round_aux_exact (s : bool) (m : positive) (e : Z) :
  Z.pos (digits2_pos m) = 53 -> -1074 <= e <= 971 ->
  binary_round_aux prec emax s (Z.pos m) e loc_Exact = S754_finite s m e.
Proof.
  intros Hd He. unfold binary_round_aux.
  rewrite shr_fexp_no_shift by (assumption || lia).
  cbn [shr_record_of_loc shr_m loc_of_shr_record round_nearest_even].
  rewrite shr_fexp_no_shift by (assumption || lia).
  cbn [shr_record_of_loc shr_m]. unfold emax, prec.
  destruct (Z.leb_spec e (1024 - 53)); [reflexivity | lia].
Qed.

(** [float(z)] for [0 < z < 2 ^ 53] is exact: the mantissa is [z] shifted
    to 53 bits. *)
Lemma of_int_normal (z : positive) :
  Z.pos z < 2 ^ 53 ->
  exists m e,
    of_int (Z.pos z) = Ok (S754_finite false m e)
    /\ Z.pos (digits2_pos m) = 53 /\ -52 <= e <= 0
    /\ e = Z.pos (digits2_pos z) - 53
    /\ Z.pos m = Z.pos z * 2 ^ (- e).
Proof.
  intros Hz. pose proof (digits2_bounds z) as [Hlo Hhi].
  set (d := Z.pos (digits2_pos z)) in *.
  assert (Hd : 1 <= d <= 53).
  { split; [unfold d; lia|].
    assert (d - 1 < 53) by (apply (Z.pow_lt_mono_r_iff 2); lia). lia. }
  unfold of_int, binary_normalize, binary_round. fold d.
  replace (fexp prec emax (d + 0)) with (d - 53)
    by (unfold fexp, emin, prec, emax; lia).
  destruct (shl_align_spec z 0 (d - 53)) as (mz & -> & Hmz); [lia|].
  replace (0 - (d - 53)) with (53 - d) in Hmz by lia.
  assert (Hdz : Z.pos (digits2_pos mz) = 53).
  { apply digits2_unique. rewrite Hmz.
    replace (2 ^ (53 - 1)) with (2 ^ (d - 1) * 2 ^ (53 - d))
      by (rewrite <- Z.pow_add_r by lia; f_equal; lia).
    replace (2 ^ 53) with (2 ^ d * 2 ^ (53 - d))
      by (rewrite <- Z.pow_add_r by lia; f_equal; lia).
    assert (0 < 2 ^ (53 - d)) by (apply Z.pow_pos_nonneg; lia). nia. }
  rewrite binary_round_aux_exact by (assumption || lia).
  exists mz, (d - 53). split; [reflexivity|]. split; [exact Hdz|].
  split; [lia|]. split; [reflexivity|].
  rewrite Hmz. f_equal. f_equal. lia.
Qed.

Lemma new_location_is_exact (nb k : Z) :
  is_exact (new_location nb k) = (k =? 0).
Proof.
  unfold new_location, new_location_even, new_location_odd.
  destruct (Z.even nb); destruct (k =? 0); reflexivity.
Qed.

(** The quotient of two normal floats, before rounding. *)
Lemma SFdiv_normal (ma mb : positive) (ea eb : Z) :
  Z.pos (digits2_pos ma) = 53 -> Z.pos (digits2_pos mb) = 53 ->
  -52 <= ea <= 0 -> -52 <= eb <= 0 ->
  SFdiv prec emax (S754_finite false ma ea) (S754_finite false mb eb)
  = binary_round_aux prec emax false
      (Z.pos ma * 2 ^ 53 / Z.pos mb) (ea - eb - 53)
      (new_location (Z.pos mb) ((Z.pos ma * 2 ^ 53) mod Z.pos mb)).
Proof.
  intros Hda Hdb Hea Heb. unfold SFdiv, SFdiv_core_binary. cbv zeta.
  cbn [Zdigits2 xorb]. rewrite Hda, Hdb.
  replace (Z.min (fexp prec emax (53 + ea - (53 + eb))) (ea - eb))
    with (ea - eb - 53) by (unfold fexp, emin, prec, emax; lia).
  replace (ea - eb - (ea - eb - 53)) with 53 by lia.
  rewrite Z.shiftl_mul_pow2 by lia.
  unfold Z.div, Z.modulo.
  destruct (Z.div_eucl (Z.pos ma * 2 ^ 53) (Z.pos mb)) as [q r]. reflexivity.
Qed.

(** Rounding a quotient that carries enough binary places does not move it
    across an integer: with [p] even and above the divisor, what rounding
    makes of [a * p / b] lies in the same unit interval of width [p]. *)
Lemma rounded_bounds (a b p w : Z) :
  0 < a -> 0 < b < p -> Z.even p = true ->
  rounded (a * p / b) ((a * p) mod b =? 0) w ->
  ((a + b - 1) / b - 1) * p < w <= (a + b - 1) / b * p.
Proof.
  intros Ha Hb Hp Hw.
  pose proof (Z.div_mod (a * p) b ltac:(lia)) as Hqr.
  pose proof (Z.mod_pos_bound (a * p) b ltac:(lia)) as Hr.
  pose proof (Z.div_mod (a + b - 1) b ltac:(lia)) as Hn.
  pose proof (Z.mod_pos_bound (a + b - 1) b ltac:(lia)) as Hnr.
  set (q := a * p / b) in *. set (r := (a * p) mod b) in *.
  set (n := (a + b - 1) / b) in *. set (t := (a + b - 1) mod b) in *.
  apply Z.even_spec in Hp. destruct Hp as [p' Hp'].
  assert (Hlow : (n - 1) * p + 1 <= q) by nia.
  assert (Hupp : q <= n * p) by nia.
  destruct Hw as [-> | [[-> Hcase] | (-> & Hex & Hodd)]].
  - lia.
  - split; [lia|]. destruct Hcase as [Hex | Hodd].
    + apply Z.eqb_neq in Hex. assert (q < n * p) by nia. lia.
    + apply Z.odd_spec in Hodd. destruct Hodd as [q' Hq']. nia.
  - apply Z.eqb_eq in Hex. split; [|lia].
    assert ((n - 1) * p + 2 <= q) by nia. lia.
Qed.

(** [math.ceil] of a positive float from bounds on its scaled mantissa. *)
Lemma ceil_from_bounds (m : positive) (e k n : Z) :
  0 < k -> - k <= e ->
  (n - 1) * 2 ^ k < Z.pos m * 2 ^ (e + k) <= n * 2 ^ k ->
  ceil (S754_finite false m e) = Ok n.
Proof.
  intros Hk He Hb. unfold ceil. f_equal.
  destruct (Z.leb_spec 0 e) as [Hpos | Hneg].
  - rewrite Z.pow_add_r in Hb by lia.
    assert (0 < 2 ^ k) by (apply Z.pow_pos_nonneg; lia). nia.
  - assert (Ek : 2 ^ k = 2 ^ (e + k) * 2 ^ (- e))
      by (rewrite <- Z.pow_add_r by lia; f_equal; lia).
    rewrite Ek in Hb.
    assert (Hy : 0 < 2 ^ (e + k)) by (apply Z.pow_pos_nonneg; lia).
    assert (Hx : 0 < 2 ^ (- e)) by (apply Z.pow_pos_nonneg; lia).
    set (y := 2 ^ (e + k)) in *. set (x := 2 ^ (- e)) in *.
    assert (Hlo : (n - 1) * x < Z.pos m).
    { apply (Z.mul_lt_mono_pos_r y); [lia|].
      replace ((n - 1) * x * y) with ((n - 1) * (y * x)) by ring. lia. }
    assert (Hhi : Z.pos m <= n * x).
    { apply (Z.mul_le_mono_pos_r _ _ y); [lia|].
      replace (n * x * y) with (n * (y * x)) by ring. lia. }
    assert (Hdiv : - Z.pos m / x = - n).
    { symmetry. apply (Z.div_unique _ _ _ (n * x - Z.pos m)); [lia | ring]. }
    rewrite Hdiv. lia.
Qed.

Lemma ceil_div_spec (a b : Z) :
  0 < b -> (ceil_div a b - 1) * b < a <= ceil_div a b * b.
Proof.
  intros Hb. unfold ceil_div.
  pose proof (Z.div_mod (a + b - 1) b ltac:(lia)).
  pose proof (Z.mod_pos_bound (a + b - 1) b ltac:(lia)). nia.
Qed.

(** Dividing two integers below [2 ^ 53] as floats and taking the ceiling
    gives the ceiling of the exact quotient. *)
Theorem ceil_truediv_exact (a b : Z) :
  0 <= a < 2 ^ 53 -> 0 < b < 2 ^ 53 ->
  exists fa fb q,
    of_int a = Ok fa /\ of_int b = Ok fb /\ truediv fa fb = Ok q
    /\ ceil q = Ok (ceil_div a b).
Proof.
  unfold ceil_div. intros Ha Hb. destruct b as [|pb|pb]; try lia.
  destruct (of_int_normal pb) as (mb & eb & Hfb & Hdb & Heb & Heb' & Hmb); [lia|].
  destruct a as [|pa|pa]; try lia.
  - exists (S754_zero false), (S754_finite false mb eb), (S754_zero false).
    repeat split; try assumption; try reflexivity.
    cbn [ceil]. f_equal. symmetry. apply Z.div_small. lia.
  - destruct (of_int_normal pa) as (ma & ea & Hfa & Hda & Hea & Hea' & Hma); [lia|].
    pose proof (digits2_bounds ma) as Bma. pose proof (digits2_bounds mb) as Bmb.
    rewrite Hda in Bma. rewrite Hdb in Bmb.
    pose proof (digits2_bounds pb) as Bpb.
    set (k := 53 + eb - ea).
    assert (Hg : 0 < 2 ^ (- eb)) by (apply Z.pow_pos_nonneg; lia).
    assert (Hnum : Z.pos ma * 2 ^ 53 = Z.pos pa * 2 ^ k * 2 ^ (- eb)).
    { rewrite Hma, <- !Z.mul_assoc, <- !Z.pow_add_r by lia.
      f_equal. f_equal. lia. }
    set (q := Z.pos ma * 2 ^ 53 / Z.pos mb).
    assert (Hq : 2 ^ 52 <= q < 2 ^ 54).
    { split.
      - apply Z.div_le_lower_bound; lia.
      - apply Z.div_lt_upper_bound; lia. }
    destruct q as [|qp|qp] eqn:Eq; try lia.
    destruct (round_quotient qp (ea - eb - 53)
                (new_location (Z.pos mb) ((Z.pos ma * 2 ^ 53) mod Z.pos mb)))
      as (M & E & Hround & HE & Hw); [lia | lia | lia |].
    exists (S754_finite false ma ea), (S754_finite false mb eb),
      (S754_finite false M E).
    split; [exact Hfa|]. split; [exact Hfb|]. split.
    { unfold truediv. rewrite SFdiv_normal by assumption.
      fold q. rewrite Eq, Hround. reflexivity. }
    apply (ceil_from_bounds M E k); [lia | lia |].
    replace (E + k) with (E - (ea - eb - 53)) by lia.
    apply rounded_bounds; [lia | | |].
    + split; [lia|]. apply Z.lt_le_trans with (2 ^ Z.pos (digits2_pos pb)); [lia|].
      apply Z.pow_le_mono_r; lia.
    + replace k with (Z.succ (k - 1)) by lia. rewrite Z.pow_succ_r by lia.
      rewrite Z.even_mul. reflexivity.
    + rewrite new_location_is_exact in Hw. rewrite <- Eq in Hw. unfold q in Hw.
      rewrite Hnum, Hmb in Hw.
      rewrite Z.div_mul_cancel_r in Hw by lia.
      rewrite Z.mul_mod_distr_r in Hw by lia.
      replace (Z.pos pa * 2 ^ k mod Z.pos pb * 2 ^ (- eb) =? 0)
        with (Z.pos pa * 2 ^ k mod Z.pos pb =? 0) in Hw; [exact Hw|].
      destruct (Z.eqb_spec (Z.pos pa * 2 ^ k mod Z.pos pb) 0) as [-> | Hne];
        [reflexivity|].
      symmetry. apply Z.eqb_neq. nia.
Qed.
End Binary64.

(** ** The reading time *)

(** C5 (as the code has it). The estimator builds its phrase from the
    ceiling of the binary64 quotient [float(wordcount) / float(speed)]
    whenever that quotient exists and is finite; for an integer speed
    [0 < s < 2 ^ 53] and a word count below [2 ^ 53] this is the ceiling of
    the exact quotient. In particular 400 words at 200 words per minute
    give "2 minutes" and 200 words give "1 minute". *)
Theorem reading_time_formula {host : Host}
    (settings : list (str * pyval)) (content : str) :
  let reading_speed :=
    Dict.get_default (lit "READING_SPEED") DEFAULT_READING_SPEED settings in
  let wordcount := count_words_in_markdown content in
  (forall words speed quotient n,
      PyFloat.of_int wordcount = Ok words ->
      py_float reading_speed = Ok speed ->
      PyFloat.truediv words speed = Ok quotient ->
      PyFloat.ceil quotient = Ok n ->
      _calculate_reading_time settings content = Ok (minutes_phrase n))
  /\ (forall s,
         reading_speed = PyInt s ->
         (0 < s < 2 ^ 53)%Z -> (0 <= wordcount < 2 ^ 53)%Z ->
         _calculate_reading_time settings content
         = Ok (minutes_phrase (ceil_div wordcount s)))
  /\ (reading_speed = PyInt 200 -> wordcount = 400%Z ->
      _calculate_reading_time settings content = Ok (lit "2 minutes"))
  /\ (reading_speed = PyInt 200 -> wordcount = 200%Z ->
      _calculate_reading_time settings content = Ok (lit "1 minute")).
Proof.
  cbv zeta.
  assert (Hsteps : forall words speed quotient n,
             PyFloat.of_int (count_words_in_markdown content) = Ok words ->
             py_float
               (Dict.get_default (lit "READING_SPEED") DEFAULT_READING_SPEED settings)
             = Ok speed ->
             PyFloat.truediv words speed = Ok quotient ->
             PyFloat.ceil quotient = Ok n ->
             _calculate_reading_time settings content = Ok (minutes_phrase n))
    by exact (calculate_reading_time_steps settings content).
  assert (Hint : forall s,
             Dict.get_default (lit "READING_SPEED") DEFAULT_READING_SPEED settings
             = PyInt s ->
             (0 < s < 2 ^ 53)%Z ->
             (0 <= count_words_in_markdown content < 2 ^ 53)%Z ->
             _calculate_reading_time settings content
             = Ok (minutes_phrase (ceil_div (count_words_in_markdown content) s))).
  { intros s Hs Hrange Hwords.
    destruct (Binary64.ceil_truediv_exact _ s Hwords Hrange)
      as (fa & fb & q & Hfa & Hfb & Hq & Hceil).
    apply (Hsteps fa fb q); try assumption. rewrite Hs. exact Hfb. }
  split; [exact Hsteps|]. split; [exact Hint|]. split.
  - intros Hs Hw. rewrite (Hint 200%Z Hs) by (rewrite ?Hw; lia).
    rewrite Hw. reflexivity.
  - intros Hs Hw. rewrite (Hint 200%Z Hs) by (rewrite ?Hw; lia).
    rewrite Hw. reflexivity.
Qed.

Lemma reading_time_formula_witness :
  let host := Demo.reader Demo.page in
  let settings := [(lit "READING_SPEED", PyInt 4)] in
  count_words_in_markdown Demo.valid_content = 6%Z
  /\ ceil_div 6 4 = 2%Z
  /\ _calculate_reading_time settings Demo.valid_content = Ok (lit "2 minutes").
Proof.
  split; [reflexivity|]. split; [reflexivity|].
  apply (proj1 (proj2 (reading_time_formula (host := Demo.reader Demo.page)
                         [(lit "READING_SPEED", PyInt 4)] Demo.valid_content))
           4%Z).
  - reflexivity.
  - split; reflexivity.
  - split; [discriminate | reflexivity].
Defined.

(** C5 (as stated) fails: zero is a numeric speed, and the division raises
    [ZeroDivisionError] where a phrase was promised. *)
Lemma reading_speed_zero_raises :
  let host := Demo.reader Demo.page in
  py_float (PyInt 0) = Ok (S754_zero false)
  /\ _calculate_reading_time [(lit "READING_SPEED", PyInt 0)] Demo.valid_content
     = Raise ZeroDivisionError
  /\ _calculate_reading_time [(lit "READING_SPEED", PyFloat (S754_zero false))]
       Demo.valid_content
     = Raise ZeroDivisionError.
Proof. repeat split; reflexivity. Qed.

(** * Further properties of the reader *)

(** ** The metadata-block checker, in full *)

(** X1. The checker accepts a document exactly when its first line is the
    opening delimiter, the line after it is not a closing delimiter, and
    some later line is one. *)
Theorem check_yaml_accepts_iff (content : str) :
  _check_yaml_metadata_block content = Ok tt
  <-> exists first next rest,
        splitlines content = first :: next :: rest
        /\ rstrip first = lit "---"
        /\ closes_block next = false
        /\ existsb closes_block rest = true.
Proof.
  split.
  - intros Hok. destruct content as [|c s]; [discriminate|].
    destruct (splitlines (c :: s)) as [|first rest] eqn:Hsplit.
    { exfalso. exact (splitlines_nonempty (c :: s) ltac:(discriminate) Hsplit). }
    destruct (PyStr.eqb (rstrip first) (lit "---")) eqn:Hfirst.
    + apply eqb_eq in Hfirst.
      rewrite (check_yaml_opened _ first rest Hsplit Hfirst) in Hok.
      destruct rest as [|next rest]; [discriminate|].
      destruct (closes_block next) eqn:Hnext; [discriminate|].
      destruct (existsb closes_block rest) eqn:Hrest; [|discriminate].
      exists first, next, rest. auto.
    + apply eqb_neq in Hfirst.
      rewrite (check_yaml_missing_header _ first rest Hsplit Hfirst) in Hok.
      discriminate.
  - intros (first & next & rest & Hsplit & Hfirst & Hnext & Hrest).
    rewrite (check_yaml_opened _ first (next :: rest) Hsplit Hfirst).
    rewrite Hnext, Hrest. reflexivity.
Qed.

(** X2. Whatever the document, the checker ends in one of four ways: the
    empty-file error for the empty text and for it only, the missing-header
    error when the first line is not the delimiter, and otherwise success or
    the unterminated-block error; indexing the first line never fails. *)
Theorem check_yaml_outcomes (content : str) :
  (content = []
   /\ _check_yaml_metadata_block content
      = Raise (Exception (lit "Could not find metadata. File is empty.")))
  \/ (exists first rest,
        splitlines content = first :: rest
        /\ ((rstrip first <> lit "---"
             /\ _check_yaml_metadata_block content
                = Raise (Exception (lit "Could not find metadata header '---'.")))
            \/ (rstrip first = lit "---"
                /\ (_check_yaml_metadata_block content = Ok tt
                    \/ _check_yaml_metadata_block content
                       = Raise (Exception
                                  (lit "Could not find end of metadata block.")))))).
Proof.
  destruct content as [|c s]; [left; split; reflexivity|]. right.
  destruct (splitlines (c :: s)) as [|first rest] eqn:Hsplit.
  { exfalso. exact (splitlines_nonempty (c :: s) ltac:(discriminate) Hsplit). }
  exists first, rest. split; [reflexivity|].
  destruct (PyStr.eqb (rstrip first) (lit "---")) eqn:Hfirst.
  - apply eqb_eq in Hfirst. right. split; [exact Hfirst|].
    rewrite (check_yaml_opened _ first rest Hsplit Hfirst).
    destruct rest as [|next rest]; [right; reflexivity|].
    destruct (negb (closes_block next) && existsb closes_block rest); auto.
  - apply eqb_neq in Hfirst. left. split; [exact Hfirst|].
    exact (check_yaml_missing_header _ first rest Hsplit Hfirst).
Qed.

Lemma closes_block_rstrip (l1 l2 : str) :
  rstrip l1 = rstrip l2 -> closes_block l1 = closes_block l2.
Proof. unfold closes_block. intros ->. reflexivity. Qed.

Lemma existsb_closes_block_rstrip (r1 r2 : list str) :
  map rstrip r1 = map rstrip r2 ->
  existsb closes_block r1 = existsb closes_block r2.
Proof.
  revert r2. induction r1 as [|l1 r1 IH]; intros [|l2 r2] H; try discriminate.
  - reflexivity.
  - cbn [map] in H. injection H as Hl Hr. cbn [existsb].
    rewrite (closes_block_rstrip l1 l2 Hl), (IH r2 Hr). reflexivity.
Qed.

(** X3. The verdict only depends on the lines with their trailing white
    space removed: line endings and padding after a delimiter or any other
    line do not matter. *)
Theorem check_yaml_ignores_trailing_space (c1 c2 : str) :
  c1 <> [] -> c2 <> [] ->
  map rstrip (splitlines c1) = map rstrip (splitlines c2) ->
  _check_yaml_metadata_block c1 = _check_yaml_metadata_block c2.
Proof.
  intros H1 H2 Hlines.
  destruct (splitlines c1) as [|f1 r1] eqn:E1;
    [exfalso; exact (splitlines_nonempty c1 H1 E1)|].
  destruct (splitlines c2) as [|f2 r2] eqn:E2;
    [exfalso; exact (splitlines_nonempty c2 H2 E2)|].
  cbn [map] in Hlines. injection Hlines as Hf Hr.
  destruct (PyStr.eqb (rstrip f1) (lit "---")) eqn:Hfirst.
  - apply eqb_eq in Hfirst.
    rewrite (check_yaml_opened c1 f1 r1 E1 Hfirst).
    rewrite (check_yaml_opened c2 f2 r2 E2 ltac:(congruence)).
    destruct r1 as [|n1 r1], r2 as [|n2 r2]; try discriminate; [reflexivity|].
    cbn [map] in Hr. injection Hr as Hn Hr.
    rewrite (closes_block_rstrip n1 n2 Hn), (existsb_closes_block_rstrip r1 r2 Hr).
    reflexivity.
  - apply eqb_neq in Hfirst.
    rewrite (check_yaml_missing_header c1 f1 r1 E1 Hfirst).
    rewrite (check_yaml_missing_header c2 f2 r2 E2 ltac:(congruence)).
    reflexivity.
Qed.

Lemma check_yaml_ignores_trailing_space_witness :
  let unix := doc ["---"; "Title: Valid"; "---"; "hi there"] in
  let dos :=
    lit "---  " ++ [carriage_return; newline] ++ lit "Title: Valid "
    ++ [carriage_return; newline] ++ lit "---" ++ [9; carriage_return; newline]%N
    ++ lit "hi there" in
  unix <> [] /\ dos <> []
  /\ map rstrip (splitlines unix) = map rstrip (splitlines dos)
  /\ _check_yaml_metadata_block unix = Ok tt
  /\ _check_yaml_metadata_block unix = _check_yaml_metadata_block dos.
Proof.
  intros unix dos.
  split; [discriminate|]. split; [discriminate|].
  split; [vm_compute; reflexivity|].
  split; [vm_compute; reflexivity|].
  apply (check_yaml_ignores_trailing_space unix dos).
  - discriminate.
  - discriminate.
  - vm_compute. reflexivity.
Defined.

(** ** The format validators *)

Lemma split_never_empty (sep : char) (s : str) : split sep s <> [].
Proof.
  destruct s as [|c s]; cbn [split]; [discriminate|].
  destruct (c =? sep)%N; [discriminate|]. destruct (split sep s); discriminate.
Qed.

(** [reader.replace("+", "-").split("-")[0]] is the text before the first
    [+] or [-]. *)
Lemma reader_prefix_variant_base (s : str) :
  exists rest, split 45%N (replace (lit "+") (lit "-") s) = variant_base s :: rest.
Proof.
  change (lit "+") with [43%N]. change (lit "-") with [45%N].
  induction s as [|c s [rest IH]].
  - exists []. reflexivity.
  - cbn [variant_base]. destruct (N.eqb_spec c 43) as [-> | Hplus].
    + change (43%N :: s) with ([43%N] ++ s). rewrite replace_hit by discriminate.
      cbn [app split N.eqb Pos.eqb orb]. eexists. reflexivity.
    + rewrite replace_miss; [|discriminate|].
      * cbn [split orb]. destruct (c =? 45)%N; [eexists; reflexivity|].
        rewrite IH. eexists. reflexivity.
      * cbn [startswith]. destruct (N.eqb_spec 43 c); [congruence | reflexivity].
Qed.

Section InputFormat.

Variable defaults : list (str * pyval).

Let reader_input := Dict.get_default (lit "reader") (PyStr []) defaults.
Let from_input := Dict.get_default (lit "from") (PyStr []) defaults.

(** The validator on the one format that is set. *)
Lemma check_input_format_chosen (chosen : pyval) :
  (truthy reader_input = true /\ truthy from_input = false /\ chosen = reader_input)
  \/ (truthy reader_input = false /\ truthy from_input = true /\ chosen = from_input) ->
  _check_input_format defaults
  = match chosen with
    | PyStr s =>
        if mem (variant_base s) VALID_INPUT_FORMATS then Ok chosen
        else Raise (ValueError (lit "Input type has to be a Markdown variant."))
    | _ => Raise AttributeError
    end.
Proof.
  intros H. unfold _check_input_format. fold reader_input from_input.
  assert (E : (truthy reader_input = true /\ truthy from_input = false
               /\ chosen = reader_input)
              \/ (truthy reader_input = false /\ truthy from_input = true
                  /\ chosen = from_input)) by exact H.
  clear H. destruct E as [(Hr & Hf & ->) | (Hr & Hf & ->)]; rewrite Hr, Hf;
    cbn [negb andb orb].
  - destruct reader_input as [| | | |s| |]; try reflexivity.
    destruct (reader_prefix_variant_base s) as [rest ->].
    destruct (mem (variant_base s) VALID_INPUT_FORMATS); reflexivity.
  - destruct from_input as [| | | |s| |]; try reflexivity.
    destruct (reader_prefix_variant_base s) as [rest ->].
    destruct (mem (variant_base s) VALID_INPUT_FORMATS); reflexivity.
Qed.

(** X4. The input-format validator returns a format exactly when one of
    [reader] and [from] is set and the other is not, the one set is a string,
    and its name up to the first [+] or [-] is a recognised Markdown
    variant; what it returns is that string, suffixes included. *)
Theorem check_input_format_ok_iff (v : pyval) :
  _check_input_format defaults = Ok v
  <-> exists s,
        v = PyStr s
        /\ mem (variant_base s) VALID_INPUT_FORMATS = true
        /\ ((reader_input = PyStr s /\ truthy from_input = false)
            \/ (truthy reader_input = false /\ from_input = PyStr s)).
Proof.
  split.
  - intros Hok.
    destruct (truthy reader_input) eqn:Hr, (truthy from_input) eqn:Hf.
    + unfold _check_input_format in Hok. fold reader_input from_input in Hok.
      rewrite Hr, Hf in Hok. discriminate.
    + rewrite (check_input_format_chosen reader_input) in Hok by auto.
      destruct reader_input as [| | | |s| |]; try discriminate.
      destruct (mem (variant_base s) VALID_INPUT_FORMATS) eqn:Hm; [|discriminate].
      injection Hok as <-. exists s. auto.
    + rewrite (check_input_format_chosen from_input) in Hok by auto.
      destruct from_input as [| | | |s| |]; try discriminate.
      destruct (mem (variant_base s) VALID_INPUT_FORMATS) eqn:Hm; [|discriminate].
      injection Hok as <-. exists s. auto.
    + unfold _check_input_format in Hok. fold reader_input from_input in Hok.
      rewrite Hr, Hf in Hok. discriminate.
  - intros (s & -> & Hm & Hcase).
    assert (Hs : s <> []) by (intros ->; discriminate Hm).
    assert (Ht : truthy (PyStr s) = true) by (destruct s; [congruence | reflexivity]).
    destruct Hcase as [[Hr Hf] | [Hr Hf]].
    + rewrite (check_input_format_chosen (PyStr s)).
      * rewrite Hm. reflexivity.
      * left. rewrite Hr. auto.
    + rewrite (check_input_format_chosen (PyStr s)).
      * rewrite Hm. reflexivity.
      * right. rewrite Hf. auto.
Qed.

(** X5. Each failure of the input-format validator has its exact cause:
    nothing set, both set, an unrecognised variant, or a value set that is
    not a string (an [AttributeError], since it has no [replace]). *)
Theorem check_input_format_errors :
  (_check_input_format defaults = Raise (ValueError (lit "No input format specified."))
   <-> truthy reader_input = false /\ truthy from_input = false)
  /\ (_check_input_format defaults
      = Raise (ValueError
          (lit "Specifying both from and reader is not supported. Please specify just one."))
      <-> truthy reader_input = true /\ truthy from_input = true)
  /\ (_check_input_format defaults
      = Raise (ValueError (lit "Input type has to be a Markdown variant."))
      <-> exists s,
            mem (variant_base s) VALID_INPUT_FORMATS = false
            /\ ((reader_input = PyStr s /\ s <> [] /\ truthy from_input = false)
                \/ (truthy reader_input = false /\ from_input = PyStr s /\ s <> [])))
  /\ (_check_input_format defaults = Raise AttributeError
      <-> (truthy reader_input = true /\ truthy from_input = false
           /\ forall s, reader_input <> PyStr s)
          \/ (truthy reader_input = false /\ truthy from_input = true
              /\ forall s, from_input <> PyStr s)).
Proof.
  assert (Hnonempty : forall s, truthy (PyStr s) = true -> s <> [])
    by (intros s H ->; discriminate H).
  assert (Htruthy : forall s, s <> [] -> truthy (PyStr s) = true)
    by (intros [|c s] H; [congruence | reflexivity]).
  destruct (truthy reader_input) eqn:Hr, (truthy from_input) eqn:Hf.
  - (* both set *)
    assert (E : _check_input_format defaults
                = Raise (ValueError
                    (lit "Specifying both from and reader is not supported. Please specify just one."))).
    { unfold _check_input_format. fold reader_input from_input.
      rewrite Hr, Hf. reflexivity. }
    rewrite E. repeat split; try discriminate; try tauto.
    + intros [? ?]; discriminate.
    + intros (s & _ & [(_ & _ & H) | (H & _)]); discriminate.
    + intros [(_ & H & _) | (H & _)]; discriminate.
  - (* reader only *)
    rewrite (check_input_format_chosen reader_input) by auto.
    repeat split; try (intros [? ?]; discriminate).
    + destruct reader_input as [| | | |s| |]; try discriminate.
      destruct (mem (variant_base s) VALID_INPUT_FORMATS); discriminate.
    + destruct reader_input as [| | | |s| |]; try discriminate.
      destruct (mem (variant_base s) VALID_INPUT_FORMATS); discriminate.
    + destruct reader_input as [| | | |s| |] eqn:E; try discriminate.
      destruct (mem (variant_base s) VALID_INPUT_FORMATS) eqn:Hm; [discriminate|].
      intros _. exists s. split; [exact Hm|]. left. auto.
    + intros (s & Hm & [(E & _ & _) | (H & _)]); [|discriminate].
      rewrite E, Hm. reflexivity.
    + destruct reader_input as [| | | |s| |] eqn:E; intros H;
        try (left; repeat split; intros; discriminate).
      destruct (mem (variant_base s) VALID_INPUT_FORMATS); discriminate.
    + intros [(_ & _ & H) | (H & _)]; [|discriminate].
      destruct reader_input as [| | | |s| |]; try reflexivity.
      exfalso. exact (H s eq_refl).
  - (* from only *)
    rewrite (check_input_format_chosen from_input) by auto.
    repeat split; try (intros [? ?]; discriminate).
    + destruct from_input as [| | | |s| |]; try discriminate.
      destruct (mem (variant_base s) VALID_INPUT_FORMATS); discriminate.
    + destruct from_input as [| | | |s| |]; try discriminate.
      destruct (mem (variant_base s) VALID_INPUT_FORMATS); discriminate.
    + destruct from_input as [| | | |s| |] eqn:E; try discriminate.
      destruct (mem (variant_base s) VALID_INPUT_FORMATS) eqn:Hm; [discriminate|].
      intros _. exists s. split; [exact Hm|]. right. auto.
    + intros (s & Hm & [(_ & _ & H) | (_ & E & _)]); [discriminate|].
      rewrite E, Hm. reflexivity.
    + destruct from_input as [| | | |s| |] eqn:E; intros H;
        try (right; repeat split; intros; discriminate).
      destruct (mem (variant_base s) VALID_INPUT_FORMATS); discriminate.
    + intros [(H & _) | (_ & _ & H)]; [discriminate|].
      destruct from_input as [| | | |s| |]; try reflexivity.
      exfalso. exact (H s eq_refl).
  - (* nothing set *)
    assert (E : _check_input_format defaults
                = Raise (ValueError (lit "No input format specified."))).
    { unfold _check_input_format. fold reader_input from_input.
      rewrite Hr, Hf. reflexivity. }
    rewrite E. repeat split; try discriminate; try tauto.
    + intros [? ?]; discriminate.
    + intros (s & _ & [(Es & Hs & _) | (_ & Es & Hs)]).
      * rewrite Es in Hr. rewrite (Htruthy s Hs) in Hr. discriminate.
      * rewrite Es in Hf. rewrite (Htruthy s Hs) in Hf. discriminate.
    + intros [(H & _) | (_ & H & _)]; discriminate.
Qed.

End InputFormat.

Lemma py_in_output_truthy (v : pyval) :
  py_in v VALID_OUTPUT_FORMATS = true -> truthy v = true.
Proof.
  destruct v as [| | | |s| |]; try discriminate.
  destruct s; [discriminate | reflexivity].
Qed.

(** X6. The output-format validator accepts exactly the records in which
    one of [writer] and [to] is [html] or [html5] and the other is not set;
    two values set are refused as such even when both are valid, and
    anything else is refused as not being HTML. *)
Theorem check_output_format_verdict (defaults : list (str * pyval)) :
  let writer_output := Dict.get_default (lit "writer") (PyStr []) defaults in
  let to_output := Dict.get_default (lit "to") (PyStr []) defaults in
  (_check_output_format defaults = Ok tt
   <-> (py_in writer_output VALID_OUTPUT_FORMATS = true /\ truthy to_output = false)
       \/ (truthy writer_output = false /\ py_in to_output VALID_OUTPUT_FORMATS = true))
  /\ (_check_output_format defaults
      = Raise (ValueError
          (lit "Specifying both to and writer is not supported. Please specify just one."))
      <-> truthy writer_output = true /\ truthy to_output = true)
  /\ (_check_output_format defaults
      = Raise (ValueError (lit "Output format type must be either html or html5."))
      <-> (truthy writer_output = false \/ truthy to_output = false)
          /\ py_in writer_output VALID_OUTPUT_FORMATS = false
          /\ py_in to_output VALID_OUTPUT_FORMATS = false).
Proof.
  intros writer_output to_output. unfold _check_output_format.
  fold writer_output to_output.
  pose proof (py_in_output_truthy writer_output) as Hw.
  pose proof (py_in_output_truthy to_output) as Ht.
  destruct (truthy writer_output), (truthy to_output),
    (py_in writer_output VALID_OUTPUT_FORMATS),
    (py_in to_output VALID_OUTPUT_FORMATS);
    cbn [andb negb];
    try (specialize (Hw eq_refl); discriminate Hw);
    try (specialize (Ht eq_refl); discriminate Ht);
    repeat split; try discriminate; try tauto; intuition discriminate.
Qed.

(** ** The bibliography locator *)

(** X7. A path is returned by [_find_bibs] exactly when it joins a walked
    directory with the document's base name and one of the four accepted
    extensions, and that directory lists a file of this name. *)
Theorem find_bibs_iff {host : Host} (source_path bib : str) :
  let filename := fst (path_splitext (path_basename source_path)) in
  let directory_path := path_dirname (path_abspath source_path) in
  In bib (_find_bibs source_path)
  <-> exists root files extension,
        In (root, files) (os_walk directory_path)
        /\ In extension VALID_BIB_EXTENSIONS
        /\ mem (filename ++ lit "." ++ extension) files = true
        /\ bib = path_join root (filename ++ lit "." ++ extension).
Proof.
  intros filename directory_path. unfold _find_bibs.
  fold filename directory_path. rewrite in_flat_map. split.
  - intros ([root files] & Hdir & Hin). rewrite in_flat_map in Hin.
    destruct Hin as (extension & Hext & Hin).
    destruct (mem (filename ++ lit "." ++ extension) files) eqn:Hm; [|destruct Hin].
    destruct Hin as [<- | []]. exists root, files, extension. auto.
  - intros (root & files & extension & Hdir & Hext & Hm & ->).
    exists (root, files). split; [exact Hdir|]. rewrite in_flat_map.
    exists extension. split; [exact Hext|]. rewrite Hm. left. reflexivity.
Qed.

Lemma flat_map_length_le {A B} (f : A -> list B) (n : nat) (l : list A) :
  (forall x, List.length (f x) <= n) ->
  List.length (flat_map f l) <= n * List.length l.
Proof.
  intros Hf. induction l as [|x l IH]; cbn [flat_map List.length]; [lia|].
  rewrite length_app. specialize (Hf x). lia.
Qed.

(** X8. [_find_bibs] returns at most four paths per directory walked, and
    none when the walk is empty. *)
Theorem find_bibs_bound {host : Host} (source_path : str) :
  List.length (_find_bibs source_path)
  <= 4 * List.length
           (os_walk (path_dirname (path_abspath source_path))).
Proof.
  unfold _find_bibs. apply flat_map_length_le. intros [root files].
  change 4 with (1 * List.length VALID_BIB_EXTENSIONS).
  apply flat_map_length_le. intros extension.
  destruct (mem _ files); simpl; lia.
Qed.

(** ** Registration *)

Lemma fold_set_get {C : Type} (value : C) (keys : list str) :
  forall (d : list (str * C)) (k : str),
    Dict.get k (fold_left (fun classes ext => Dict.set ext value classes) keys d)
    = if mem k keys then Some value else Dict.get k d.
Proof.
  induction keys as [|ext keys IH]; intros d k; [reflexivity|].
  cbn [fold_left]. rewrite IH. unfold mem. cbn [existsb].
  destruct (existsb (PyStr.eqb k) keys); [rewrite orb_true_r; reflexivity|].
  rewrite orb_false_r. destruct (PyStr.eqb k ext) eqn:E.
  - apply eqb_eq in E. subst ext. apply dict_get_set_same.
  - apply dict_get_set_other. exact E.
Qed.

(** X9. After [add_reader], every one of the seven file extensions is
    handled by the MyST reader, whatever handled it before, and every other
    extension keeps its reader. *)
Theorem add_reader_registers {C : Type} (MySTReader : C)
    (reader_classes : list (str * C)) (ext : str) :
  Dict.get ext (add_reader MySTReader reader_classes)
  = if mem ext FILE_EXTENSIONS then Some MySTReader
    else Dict.get ext reader_classes.
Proof. unfold add_reader. apply fold_set_get. Qed.

Lemma dict_set_present {V : Type} (k : str) (v : V) (d : list (str * V)) :
  Dict.get k d = Some v -> Dict.set k v d = d.
Proof.
  induction d as [|[k' v'] d IH]; cbn [Dict.get Dict.set]; [discriminate|].
  destruct (PyStr.eqb k k'); intros H.
  - injection H as ->. reflexivity.
  - rewrite (IH H). reflexivity.
Qed.

Lemma fold_set_fixed {C : Type} (value : C) (keys : list str) :
  forall d : list (str * C),
    (forall k, In k keys -> Dict.get k d = Some value) ->
    fold_left (fun classes ext => Dict.set ext value classes) keys d = d.
Proof.
  induction keys as [|k keys IH]; intros d Hd; [reflexivity|].
  cbn [fold_left]. rewrite (dict_set_present k value d (Hd k (or_introl eq_refl))).
  apply IH. intros k' Hk'. apply Hd. right. exact Hk'.
Qed.

Lemma mem_In (x : str) (l : list str) : mem x l = true <-> In x l.
Proof.
  unfold mem. rewrite existsb_exists. split.
  - intros (y & Hy & E). apply eqb_eq in E. subst y. exact Hy.
  - intros H. exists x. split; [exact H | apply eqb_refl].
Qed.

(** X10. Registering twice is registering once: [add_reader] is
    idempotent on the table of reader classes. *)
Theorem add_reader_idempotent {C : Type} (MySTReader : C)
    (reader_classes : list (str * C)) :
  add_reader MySTReader (add_reader MySTReader reader_classes)
  = add_reader MySTReader reader_classes.
Proof.
  unfold add_reader at 1. apply fold_set_fixed. intros k Hk.
  unfold add_reader. rewrite fold_set_get.
  apply mem_In in Hk. rewrite Hk. reflexivity.
Qed.

(** ** The metadata loop *)

Lemma process_items_app {host : Host} (items1 items2 : list (str * pyval)) :
  forall (acc : list (str * pyval)) (w : world),
    process_items (items1 ++ items2) acc w
    = bind (process_items items1 acc) (process_items items2) w.
Proof.
  induction items1 as [|[key value] items1 IH]; intros acc w; [reflexivity|].
  cbn [app process_items]. unfold bind. rewrite call_hook_run.
  destruct (process_metadata (str_lower key) (stripped value)); [|reflexivity].
  rewrite IH. reflexivity.
Qed.

Lemma dict_get_set {V} (k k' : str) (v : V) (d : list (str * V)) :
  Dict.get k (Dict.set k' v d) = if PyStr.eqb k k' then Some v else Dict.get k d.
Proof.
  destruct (PyStr.eqb k k') eqn:E.
  - apply eqb_eq in E. subst k'. apply dict_get_set_same.
  - apply dict_get_set_other. exact E.
Qed.

Lemma dict_get_none_keys {V} (k : str) (d : list (str * V)) :
  Dict.get k d = None -> ~ In k (map fst d).
Proof.
  induction d as [|[k' v'] d IH]; cbn [Dict.get map fst In]; [tauto|].
  destruct (PyStr.eqb k k') eqn:E; [discriminate|].
  apply eqb_neq in E. intros H [Heq | Hin]; [congruence | exact (IH H Hin)].
Qed.

Lemma dict_set_keys {V} (k : str) (v : V) (d : list (str * V)) :
  map fst (Dict.set k v d)
  = match Dict.get k d with
    | Some _ => map fst d
    | None => map fst d ++ [k]
    end.
Proof.
  induction d as [|[k' v'] d IH]; cbn [Dict.set Dict.get map fst app]; [reflexivity|].
  destruct (PyStr.eqb k k'); [reflexivity|].
  cbn [map fst]. rewrite IH. destruct (Dict.get k d); reflexivity.
Qed.

Lemma dict_set_NoDup {V} (k : str) (v : V) (d : list (str * V)) :
  NoDup (map fst d) -> NoDup (map fst (Dict.set k v d)).
Proof.
  intros Hd. rewrite dict_set_keys. destruct (Dict.get k d) eqn:E; [exact Hd|].
  apply NoDup_app; [exact Hd | repeat constructor; intros [] |].
  intros x Hx [<- | []]. exact (dict_get_none_keys k d E Hx).
Qed.

Lemma last_value_snoc {host : Host} (k key : str) (value : pyval)
    (items : list (str * pyval)) :
  last_value k (items ++ [(key, value)])
  = if PyStr.eqb (str_lower key) k then Some value else last_value k items.
Proof. unfold last_value. rewrite fold_left_app. reflexivity. Qed.

(** X11. The record [_process_metadata] returns has no key twice; under
    each key stands what the hook made of the last item of the converter's
    record whose lower-cased key it is, so that of two keys that differ in
    case only the later one wins. *)
Theorem process_metadata_last_wins {host : Host}
    (items metadata : list (str * pyval)) (w : world) :
  fst (_process_metadata (PyDict items) w) = Ok metadata ->
  NoDup (map fst metadata)
  /\ forall k,
       Dict.get k metadata
       = match last_value k items with
         | Some value =>
             match process_metadata k (stripped value) with
             | Ok v => Some v
             | Raise _ => None
             end
         | None => None
         end.
Proof.
  cbn [_process_metadata]. revert metadata.
  induction items as [|[key value] items IH] using rev_ind; intros metadata.
  - cbn. intros E. injection E as <-. split; [constructor | reflexivity].
  - rewrite process_items_app. unfold bind.
    destruct (process_items items [] w) as [[m0|e] w0] eqn:E0; [|discriminate].
    cbn [process_items]. unfold bind. rewrite call_hook_run.
    destruct (process_metadata (str_lower key) (stripped value)) as [v|e] eqn:Ehook;
      [|discriminate].
    cbn [ret fst]. intros E. injection E as <-.
    destruct (IH m0) as [Hnodup Hget]; [reflexivity|].
    split; [apply dict_set_NoDup; exact Hnodup|].
    intros k. rewrite dict_get_set, last_value_snoc.
    destruct (PyStr.eqb k (str_lower key)) eqn:Ek.
    + apply eqb_eq in Ek. subst k. rewrite eqb_refl, Ehook. reflexivity.
    + assert (Ek' : PyStr.eqb (str_lower key) k = false).
      { apply eqb_neq. apply eqb_neq in Ek. congruence. }
      rewrite Ek'. apply Hget.
Qed.

Lemma process_metadata_last_wins_witness :
  let host := Demo.reader Demo.page in
  let items := [(lit "Title", PyStr (lit "draft")); (lit "TITLE", PyStr (lit "final"))] in
  fst (_process_metadata (PyDict items) Demo.world0)
  = Ok [(lit "title", PyStr (lit "final"))]
  /\ Dict.get (lit "title") [(lit "title", PyStr (lit "final"))]
     = match last_value (lit "title") items with
       | Some value =>
           match process_metadata (lit "title") (stripped value) with
           | Ok v => Some v
           | Raise _ => None
           end
       | None => None
       end.
Proof.
  split; [reflexivity|].
  apply (proj2 (process_metadata_last_wins (host := Demo.reader Demo.page)
                  [(lit "Title", PyStr (lit "draft")); (lit "TITLE", PyStr (lit "final"))]
                  [(lit "title", PyStr (lit "final"))] Demo.world0 eq_refl)).
Defined.

Lemma process_items_failing_hook {host : Host} (before after : list (str * pyval))
    (key : str) (value : pyval) (e : exn) :
  forallb (fun kv => is_ok (process_metadata (str_lower (fst kv)) (stripped (snd kv))))
    before = true ->
  process_metadata (str_lower key) (stripped value) = Raise e ->
  forall (acc : list (str * pyval)) (w : world),
    process_items (before ++ (key, value) :: after) acc w
    = (Raise e,
       {| enable_extensions := enable_extensions w;
          trace := trace w ++ hook_calls (before ++ [(key, value)]) |}).
Proof.
  intros Hbefore Hfail.
  induction before as [|[k0 v0] before IH]; intros acc w.
  - cbn [app process_items]. unfold bind. rewrite call_hook_run, Hfail. reflexivity.
  - cbn [forallb fst snd] in Hbefore. apply andb_true_iff in Hbefore.
    destruct Hbefore as [Hk0 Hbefore].
    cbn [app process_items]. unfold bind. rewrite call_hook_run.
    destruct (process_metadata (str_lower k0) (stripped v0)); [|discriminate].
    rewrite (IH Hbefore). cbn [enable_extensions trace hook_calls map fst snd app].
    rewrite <- app_assoc. reflexivity.
Qed.

(** X12. A hook that raises ends the metadata loop: the exception of the
    first item the hook refuses is what [_process_metadata] raises, the
    hook has been called for the items up to and including that one, and
    for none after it. *)
Theorem process_metadata_stops_at_failing_hook {host : Host}
    (before after : list (str * pyval)) (key : str) (value : pyval) (e : exn)
    (w : world) :
  forallb (fun kv => is_ok (process_metadata (str_lower (fst kv)) (stripped (snd kv))))
    before = true ->
  process_metadata (str_lower key) (stripped value) = Raise e ->
  _process_metadata (PyDict (before ++ (key, value) :: after)) w
  = (Raise e,
     {| enable_extensions := enable_extensions w;
        trace := trace w ++ hook_calls (before ++ [(key, value)]) |}).
Proof.
  intros Hbefore Hfail. cbn [_process_metadata].
  apply process_items_failing_hook; assumption.
Qed.

Lemma process_metadata_stops_at_failing_hook_witness :
  let host := Demo.refusing (lit "date") Demo.page in
  _process_metadata
    (PyDict ([(lit "Title", PyStr (lit "Valid"))]
             ++ (lit "Date", PyStr (lit "tomorrow"))
             :: [(lit "Tags", PyStr (lit "a, b"))]))
    Demo.world0
  = (Raise (ValueError (lit "refused")),
     {| enable_extensions := enable_extensions Demo.world0;
        trace := trace Demo.world0
                 ++ [Hook (lit "title") (PyStr (lit "Valid"));
                     Hook (lit "date") (PyStr (lit "tomorrow"))] |}).
Proof.
  apply (process_metadata_stops_at_failing_hook
           (host := Demo.refusing (lit "date") Demo.page)
           [(lit "Title", PyStr (lit "Valid"))] [(lit "Tags", PyStr (lit "a, b"))]
           (lit "Date") (PyStr (lit "tomorrow")) (ValueError (lit "refused"))
           Demo.world0);
    reflexivity.
Defined.

(** ** What the link rewrite leaves behind *)

Lemma contains_cons (p : str) (c : char) (s : str) :
  contains p (c :: s) = startswith p (c :: s) || contains p s.
Proof. reflexivity. Qed.

Lemma contains_nil (p : str) : p <> [] -> contains p [] = false.
Proof. destruct p; [congruence | reflexivity]. Qed.

(** A text in which [old] does not occur is left as it is. *)
Lemma replace_absent (old new s : str) :
  old <> [] -> contains old s = false -> replace old new s = s.
Proof.
  intros Hne. induction s as [|c s IH]; intros H; [apply replace_nil; exact Hne|].
  rewrite contains_cons in H. apply orb_false_iff in H. destruct H as [Hc Hs].
  rewrite replace_miss by assumption. rewrite (IH Hs). reflexivity.
Qed.

Lemma rewrite_links_in_absent (order : list (str * str)) (s : str) :
  (forall old new, In (old, new) order -> old <> [] /\ contains old s = false) ->
  rewrite_links_in order s = s.
Proof.
  induction order as [|[old new] order IH]; intros H; [reflexivity|].
  change (rewrite_links_in ((old, new) :: order) s)
    with (rewrite_links_in order (replace old new s)).
  destruct (H old new (or_introl eq_refl)) as [Hne Hs].
  rewrite (replace_absent old new s Hne Hs).
  apply IH. intros old' new' Hin. apply (H old' new'). right. exact Hin.
Qed.

Section SeparatedResult.

Variable rules : list (str * str).
Hypothesis Hsep : separated rules = true.

(** A text that no first character of a raw form occurs in, and that
    starts the reading, starts what was read. *)
Lemma Rewrites_startswith (s u : str) :
  Rewrites rules s u ->
  forall q : str,
    (forall old new, In (old, new) rules ->
                     exists h r, new = h :: r /\ existsb (N.eqb h) q = false) ->
    startswith q u = true -> startswith q s = true.
Proof.
  intros H.
  induction H as [|old new rest rest' Hin _ IH|c rest rest' Hno _ IH];
    intros q Hq Hu.
  - exact Hu.
  - destruct q as [|a q]; [reflexivity|].
    destruct (Hq old new Hin) as (h & r & -> & Hh).
    cbn [existsb] in Hh. apply orb_false_iff in Hh. destruct Hh as [Hh _].
    cbn [app startswith] in Hu. rewrite N.eqb_sym, Hh in Hu. discriminate.
  - destruct q as [|a q]; [reflexivity|].
    cbn [startswith] in *. apply andb_true_iff in Hu. destruct Hu as [Ha Hu].
    rewrite Ha. cbn [andb]. apply IH; [|exact Hu].
    intros old new Hin. destruct (Hq old new Hin) as (h & r & -> & Hh).
    exists h, r. split; [reflexivity|].
    cbn [existsb] in Hh. apply orb_false_iff in Hh. tauto.
Qed.

Lemma contains_raw (old new old' new' t : str) :
  In (old, new) rules -> In (old', new') rules ->
  contains old' (new ++ t) = contains old' t.
Proof.
  intros Ha Hb.
  assert (H : forall r, incl r new -> contains old' (r ++ t) = contains old' t).
  { induction r as [|c r IH]; intros Hr; [reflexivity|].
    change ((c :: r) ++ t) with (c :: r ++ t). rewrite contains_cons.
    rewrite (separated_raw_chars rules Hsep old new old' new' c (r ++ t) Ha Hb)
      by (apply Hr; left; reflexivity).
    apply IH. intros x Hx. apply Hr. right. exact Hx. }
  apply H. apply incl_refl.
Qed.

(** No pattern occurs in the reading of a text. *)
Lemma Rewrites_clean (s u old new : str) :
  In (old, new) rules -> Rewrites rules s u -> contains old u = false.
Proof.
  intros Hin H.
  pose proof (separated_nonempty rules Hsep old new Hin) as Hne.
  induction H as [|old2 new2 rest rest' Hin2 _ IH|c rest rest' Hno Hrest IH].
  - apply contains_nil. exact Hne.
  - rewrite (contains_raw old2 new2 old new rest' Hin2 Hin). exact IH.
  - rewrite contains_cons, IH, orb_false_r.
    destruct (startswith old (c :: rest')) eqn:E; [|reflexivity].
    rewrite <- (Hno old new Hin). symmetry.
    apply (Rewrites_startswith (c :: rest) (c :: rest'));
      [apply Rewrites_copy; assumption | | exact E].
    intros old2 new2 Hin2.
    exact (separated_raw_head rules Hsep old2 new2 old new Hin2 Hin).
Qed.

Lemma rewrite_links_in_clean (s old new : str) :
  In (old, new) rules -> contains old (rewrite_links_in rules s) = false.
Proof.
  intros Hin. apply (Rewrites_clean s _ old new Hin).
  apply (rewrite_links_in_Rewrites rules Hsep). apply Permutation_refl.
Qed.

Lemma rewrite_links_in_fixed_iff (s : str) :
  rewrite_links_in rules s = s
  <-> forall old new, In (old, new) rules -> contains old s = false.
Proof.
  split.
  - intros E old new Hin. rewrite <- E. exact (rewrite_links_in_clean s old new Hin).
  - intros H. apply rewrite_links_in_absent. intros old new Hin.
    split; [exact (separated_nonempty rules Hsep old new Hin) | exact (H old new Hin)].
Qed.

End SeparatedResult.

(** X13. The rewritten page holds no encoded placeholder any more, and
    rewriting it a second time changes nothing. *)
Theorem rewrite_links_leaves_no_placeholder (html : str) :
  let output := rewrite_links_in ENCODED_LINKS_TO_RAW_LINKS_MAP html in
  contains (lit "%7Bstatic%7D") output = false
  /\ contains (lit "%7Battach%7D") output = false
  /\ contains (lit "%7Bfilename%7D") output = false
  /\ rewrite_links_in ENCODED_LINKS_TO_RAW_LINKS_MAP output = output.
Proof.
  cbv zeta. pose proof separated_links as Hsep.
  assert (H : forall old new,
             In (old, new) ENCODED_LINKS_TO_RAW_LINKS_MAP ->
             contains old (rewrite_links_in ENCODED_LINKS_TO_RAW_LINKS_MAP html) = false)
    by (intros old new; apply (rewrite_links_in_clean _ Hsep)).
  split; [apply (H _ (lit "{static}")); cbn; auto|].
  split; [apply (H _ (lit "{attach}")); cbn; auto|].
  split; [apply (H _ (lit "{filename}")); cbn; auto|].
  apply (rewrite_links_in_fixed_iff _ Hsep). exact H.
Qed.

(** X14. The rewrite returns a page as it is exactly when none of the
    three encoded placeholders occurs in it. *)
Theorem rewrite_links_unchanged_iff (html : str) :
  rewrite_links_in ENCODED_LINKS_TO_RAW_LINKS_MAP html = html
  <-> contains (lit "%7Bstatic%7D") html = false
      /\ contains (lit "%7Battach%7D") html = false
      /\ contains (lit "%7Bfilename%7D") html = false.
Proof.
  rewrite (rewrite_links_in_fixed_iff _ separated_links). split.
  - intros H. split; [apply (H _ (lit "{static}")); cbn; auto|].
    split; [apply (H _ (lit "{attach}")); cbn; auto|].
    apply (H _ (lit "{filename}")); cbn; auto.
  - intros (Hs & Ha & Hf) old new [E | [E | [E | []]]]; injection E as <- _;
      assumption.
Qed.

(** ** The HTML post-processor, in full *)

(** Where nothing can be edited, nothing is found. *)
Lemma edit_first_found (p : Soup.node -> bool) (g : Soup.node -> list Soup.node) :
  forall n, Soup.edit_first p g n = None -> Soup.find p n = None.
Proof.
  induction n as [s | name attrs cs IH] using node_forall_ind; [reflexivity|].
  unfold Soup.find. cbn [Soup.descendants Soup.edit_first].
  match goal with
  | |- match ?go cs with _ => _ end = None -> _ =>
      assert (Hgo : go cs = None ->
                    List.find p (flat_map (fun c => c :: Soup.descendants c) cs) = None)
  end.
  { induction cs as [|c cs IHcs]; [reflexivity|].
    inversion IH as [|? ? IHc IHrest]; subst.
    cbn [flat_map app List.find].
    destruct (p c); [discriminate|].
    destruct (Soup.edit_first p g c) eqn:Ec; [discriminate|].
    intros H. apply find_app_none. split; [exact (IHc eq_refl)|].
    apply (IHcs IHrest).
    match type of H with
    | match ?x with _ => _ end = None => destruct x; [discriminate | reflexivity]
    end. }
  intros H. apply Hgo.
  match type of H with
  | match ?x with _ => _ end = None => destruct x; [discriminate | reflexivity]
  end.
Qed.

(** An edit keeps the name of the node it is made below. *)
Lemma edit_first_named (p : Soup.node -> bool) (g : Soup.node -> list Soup.node)
    (name : str) (n n' : Soup.node) :
  Soup.edit_first p g n = Some n' -> Soup.is_named name n' = Soup.is_named name n.
Proof.
  destruct n as [s | name0 attrs cs]; [discriminate|].
  cbn [Soup.edit_first].
  match goal with
  | |- match ?x with _ => _ end = Some _ -> _ => destruct x; [|discriminate]
  end.
  intros E. injection E as <-. reflexivity.
Qed.

Lemma find_app_found {A} (p : A -> bool) (l1 l2 : list A) :
  List.find p l1 <> None -> List.find p (l1 ++ l2) <> None.
Proof. intros H E. apply find_app_none in E. tauto. Qed.

(** Where the edit puts a node that matches in place of the one it found,
    a match is found afterwards. *)
Lemma edit_first_keeps_match (p : Soup.node -> bool) (g : Soup.node -> list Soup.node) :
  (forall c, p c = true -> exists c' l, g c = c' :: l /\ p c' = true) ->
  forall n n', Soup.edit_first p g n = Some n' -> Soup.find p n' <> None.
Proof.
  intros Hg.
  induction n as [s | name attrs cs IH] using node_forall_ind; [discriminate|].
  intros n'. cbn [Soup.edit_first].
  match goal with
  | |- match ?go cs with _ => _ end = Some _ -> _ =>
      assert (Hgo : forall cs', go cs = Some cs' ->
                    List.find p (flat_map (fun c => c :: Soup.descendants c) cs') <> None)
  end.
  { induction cs as [|c cs IHcs]; [discriminate|].
    inversion IH as [|? ? IHc IHrest]; subst. intros cs'.
    destruct (p c) eqn:Hc.
    - intros E. injection E as <-. destruct (Hg c Hc) as (c' & l & -> & Hc').
      cbn [app flat_map List.find]. rewrite Hc'. discriminate.
    - destruct (Soup.edit_first p g c) as [c1|] eqn:Ec.
      + intros E. injection E as <-. cbn [flat_map app List.find].
        destruct (p c1); [discriminate|]. apply find_app_found.
        exact (IHc c1 eq_refl).
      + match goal with
        | |- match ?x with _ => _ end = Some _ -> _ =>
            destruct x as [l''|] eqn:El; [|discriminate]
        end.
        intros E. injection E as <-. cbn [flat_map app List.find]. rewrite Hc.
        intros E. apply find_app_none in E. destruct E as [_ E].
        exact (IHcs IHrest l'' eq_refl E). }
  match goal with
  | |- match ?x with _ => _ end = Some _ -> _ =>
      destruct x as [cs'|] eqn:Ecs; [|discriminate]
  end.
  intros E. injection E as <-. unfold Soup.find. cbn [Soup.descendants].
  exact (Hgo cs' eq_refl).
Qed.

(** Taking the table of contents out leaves the body in place. *)
Lemma body_after_decompose_toc (soup : Soup.node) :
  Soup.body soup <> None -> Soup.body (Soup.decompose_toc soup) <> None.
Proof.
  intros Hb. unfold Soup.decompose_toc.
  destruct (Soup.edit_first _ _ soup) as [soup'|] eqn:E; [|exact Hb].
  refine (edit_first_keeps_match _ _ _ soup soup' E).
  intros c Hc. exists (Soup.decompose_first Soup.is_toc c), [].
  split; [reflexivity|]. unfold Soup.decompose_first.
  destruct (Soup.edit_first Soup.is_toc _ c) as [c'|] eqn:Ec; [|exact Hc].
  rewrite (edit_first_named _ _ _ _ _ Ec). exact Hc.
Qed.

Lemma unwrap_body_found (soup : Soup.node) :
  Soup.body soup <> None -> Soup.unwrap_body soup <> None.
Proof.
  intros Hb E. apply Hb. exact (edit_first_found _ _ soup E).
Qed.

Example separated_toc : separated [(id_TOC, class_toc)] = true.
Proof. vm_compute. reflexivity. Qed.

(** X15. [_extract_contents] returns a triple exactly when the first line
    of the converter's output is read as JSON and the parsed remainder has
    a body element; whether a table of contents is asked for, found or
    removed makes no difference. *)
Theorem extract_contents_ok_iff {host : Host}
    (html_output : str) (table_of_contents : bool) :
  is_ok (_extract_contents html_output table_of_contents) = true
  <-> is_ok (json_loads (fst (fst (partition newline html_output)))) = true
      /\ Soup.body (html_parser (snd (partition newline html_output))) <> None.
Proof.
  unfold _extract_contents.
  destruct (partition newline html_output) as [[first sep] remainder].
  cbn [fst snd].
  destruct (json_loads first) as [record|e]; cbn [result_bind is_ok];
    [|split; [discriminate | intros [H _]; discriminate H]].
  destruct (Soup.body (html_parser remainder)) as [body|] eqn:Hbody.
  - assert (Hsoup : Soup.body (html_parser remainder) <> None)
      by (rewrite Hbody; discriminate).
    split; [intros _; split; [reflexivity | discriminate]|]. intros _.
    destruct table_of_contents.
    + destruct (Soup.find Soup.is_toc body); cbn [result_bind].
      * pose proof (unwrap_body_found _ (body_after_decompose_toc _ Hsoup)) as Hu.
        destruct (Soup.unwrap_body _); [reflexivity | congruence].
      * pose proof (unwrap_body_found _ Hsoup) as Hu.
        destruct (Soup.unwrap_body _); [reflexivity | congruence].
    + cbn [result_bind]. pose proof (unwrap_body_found _ Hsoup) as Hu.
      destruct (Soup.unwrap_body _); [reflexivity | congruence].
  - split; [|intros [_ H]; congruence].
    destruct table_of_contents; cbn [result_bind]; [discriminate|].
    unfold Soup.unwrap_body. rewrite edit_first_none by exact Hbody. discriminate.
Qed.

Lemma replace_toc_id_clean (s : str) :
  contains id_TOC (replace id_TOC class_toc s) = false.
Proof.
  exact (rewrite_links_in_clean _ separated_toc s id_TOC class_toc
           (or_introl eq_refl)).
Qed.

(** X16. What [_extract_contents] returns: the record is the first line
    read as JSON; the page has no white space at either end; the table of
    contents is [None] or a text in which the attribute [id] with the value
    [TOC] does not occur any more. *)
Theorem extract_contents_result {host : Host}
    (html_output : str) (table_of_contents : bool)
    (html : str) (toc record : pyval) :
  _extract_contents html_output table_of_contents = Ok (html, toc, record) ->
  json_loads (fst (fst (partition newline html_output))) = Ok record
  /\ (forall c t, html = c :: t -> isspace c = false)
  /\ (forall c t, html = t ++ [c] -> isspace c = false)
  /\ (toc = PyNone
      \/ exists t, toc = PyStr t /\ contains id_TOC t = false).
Proof.
  unfold _extract_contents.
  destruct (partition newline html_output) as [[first sep] remainder].
  cbn [fst snd].
  destruct (json_loads first) as [record'|e]; cbn [result_bind]; [|discriminate].
  assert (Hrest : forall (toc' : pyval) (soup : Soup.node),
             (toc' = PyNone \/ exists t, toc' = PyStr t /\ contains id_TOC t = false) ->
             match Soup.unwrap_body soup with
             | Some soup0 => Ok (strip (decode soup0), toc', record')
             | None => Raise AttributeError
             end = Ok (html, toc, record) ->
             Ok record' = Ok record
             /\ (forall c t, html = c :: t -> isspace c = false)
             /\ (forall c t, html = t ++ [c] -> isspace c = false)
             /\ (toc = PyNone
                 \/ exists t, toc = PyStr t /\ contains id_TOC t = false)).
  { intros toc' soup Htoc. destruct (Soup.unwrap_body soup); [|discriminate].
    intros E. injection E as <- <- <-. split; [reflexivity|].
    split; [intros c t E; exact (strip_by_head _ _ _ _ E)|].
    split; [intros c t E; exact (strip_by_last _ _ _ _ E) | exact Htoc]. }
  destruct table_of_contents.
  - destruct (Soup.body (html_parser remainder)) as [body|]; [|discriminate].
    destruct (Soup.find Soup.is_toc body) as [nav|]; cbn [result_bind].
    + apply Hrest. right. eexists. split; [reflexivity|].
      apply replace_toc_id_clean.
    + apply Hrest. left. reflexivity.
  - cbn [result_bind]. apply Hrest. right. exists []. split; reflexivity.
Qed.

Lemma extract_contents_result_witness :
  let host := Demo.reader Demo.page_with_toc in
  let html_output := Demo.record_json ++ [newline] ++ Demo.render Demo.page_with_toc in
  let toc := lit "<nav class=" ++ [dquote] ++ lit "toc" ++ [dquote] ++ lit ">contents</nav>" in
  _extract_contents html_output true
  = Ok (lit "<p>hi there</p>", PyStr toc, Demo.record)
  /\ (PyStr toc = PyNone \/ exists t, PyStr toc = PyStr t /\ contains id_TOC t = false).
Proof.
  intros host html_output toc. split; [vm_compute; reflexivity|].
  apply (extract_contents_result (host := host) html_output true
           (lit "<p>hi there</p>") (PyStr toc) Demo.record).
  vm_compute. reflexivity.
Defined.

(** ** The pipeline, end to end *)

Lemma find_bibs_content {host : Host} (source_path content : str) :
  fold_left (fun c bib_file => c ++ bibliography_directive bib_file)
    (_find_bibs source_path) content
  = with_bibliographies source_path content.
Proof.
  unfold with_bibliographies. generalize (_find_bibs source_path). intros bibs.
  revert content. induction bibs as [|bib bibs IH]; intros content; cbn [fold_left flat_map].
  - rewrite app_nil_r. reflexivity.
  - rewrite IH, <- app_assoc. reflexivity.
Qed.

Lemma run_myst_run {host : Host} (content : str) (w : world) :
  _run_myst content w
  = (to_html content (enable_extensions w),
     {| enable_extensions := enable_extensions w;
        trace := trace w ++ [Convert content (enable_extensions w)] |}).
Proof. reflexivity. Qed.

Lemma process_items_run {host : Host} (items : list (str * pyval)) :
  forall (acc base : list (str * pyval)) (w w' : world),
    process_items items acc w = (Ok base, w') ->
    w' = {| enable_extensions := enable_extensions w;
            trace := trace w ++ hook_calls items |}
    /\ forall w0, fst (process_items items acc w0) = Ok base.
Proof.
  induction items as [|[key value] items IH]; intros acc base w w'.
  - cbn. intros E. injection E as <- <-. rewrite app_nil_r. destruct w. auto.
  - cbn [process_items]. unfold bind. rewrite call_hook_run.
    destruct (process_metadata (str_lower key) (stripped value)) as [v|e] eqn:Ehook;
      [|discriminate].
    intros E. destruct (IH _ _ _ _ E) as [-> Hany]. split.
    + cbn [enable_extensions trace hook_calls map fst snd]. rewrite <- app_assoc.
      reflexivity.
    + intros w0. rewrite call_hook_run, Ehook. apply Hany.
Qed.

Lemma process_metadata_run {host : Host} (record : pyval)
    (base : list (str * pyval)) (w w' : world) :
  _process_metadata record w = (Ok base, w') ->
  exists items,
    record = PyDict items
    /\ w' = {| enable_extensions := enable_extensions w;
               trace := trace w ++ hook_calls items |}
    /\ forall w0, fst (_process_metadata (PyDict items) w0) = Ok base.
Proof.
  destruct record as [| | | | | |items]; try discriminate.
  cbn [_process_metadata]. intros E. exists items. split; [reflexivity|].
  exact (process_items_run items [] base w w' E).
Qed.


Lemma hooks_only_ret {A} (a : A) : hooks_only (ret a).
Proof. intros w. exists []. rewrite app_nil_r. auto. Qed.

Lemma hooks_only_lift {A} (r : result A) : hooks_only (lift r).
Proof. intros w. exists []. rewrite app_nil_r. auto. Qed.

Lemma hooks_only_call_hook {host : Host} (key : str) (value : pyval) :
  hooks_only (call_hook key value).
Proof. intros w. exists [Hook key value]. rewrite call_hook_run. auto. Qed.

Lemma hooks_only_bind {A B} (m : M A) (k : A -> M B) :
  hooks_only m -> (forall a, hooks_only (k a)) -> hooks_only (bind m k).
Proof.
  intros Hm Hk w. unfold bind. destruct (Hm w) as (hs & Hhs & Hall).
  destruct (m w) as [[a|e] w1]; cbn [snd] in *; [|exists hs; auto].
  destruct (Hk a w1) as (hs' & Hhs' & Hall'). exists (hs ++ hs').
  rewrite Hhs', Hhs, app_assoc, forallb_app, Hall, Hall'. auto.
Qed.

Lemma hooks_only_process_metadata {host : Host} (record : pyval) :
  hooks_only (_process_metadata record).
Proof.
  destruct record as [| | | | | |items]; try apply hooks_only_lift.
  intros w. cbn [_process_metadata].
  destruct (process_items_trace items [] w) as (n & _ & Htrace & _).
  exists (hook_calls (firstn n items)). split; [exact Htrace|].
  unfold hook_calls. rewrite forallb_forall. intros x Hx.
  apply in_map_iff in Hx. destruct Hx as (kv & <- & _). reflexivity.
Qed.

Section Pipeline.

Context {host : Host}.
Variable settings : list (str * pyval).

(** Everything [_create_html] does once the document has passed the
    metadata check. *)
Lemma create_html_start (source_path content : str) (w : world) :
  _check_yaml_metadata_block content = Ok tt ->
  _create_html settings source_path content w
  = bind (_run_myst (with_bibliographies source_path content))
      (fun output =>
         bind (lift (_extract_contents output true))
           (fun x =>
              let '(output, toc, myst_metadata) := x in
              let output := rewrite_links_in ENCODED_LINKS_TO_RAW_LINKS_MAP output in
              bind (_process_metadata myst_metadata)
                (fun metadata =>
                   bind (bind (call_hook (lit "toc") toc)
                           (fun v => ret (Dict.set (lit "toc") v metadata)))
                     (fun metadata =>
                        bind (if reading_time_on settings then
                                bind (lift (_calculate_reading_time settings
                                              (with_bibliographies source_path content)))
                                  (fun reading_time =>
                                     bind (call_hook (lit "reading_time") (PyStr reading_time))
                                       (fun v => ret (Dict.set (lit "reading_time") v metadata)))
                              else ret metadata)
                          (fun metadata => ret (output, metadata))))))
      {| enable_extensions := merged_extensions settings w; trace := trace w |}.
Proof.
  intros Hcheck. unfold _create_html. rewrite find_bibs_content.
  unfold bind at 1. unfold merged_extensions.
  destruct (Dict.get_default (lit "MYST_EXTENSIONS") (PyList []) settings);
    cbn [ret extend_extensions]; unfold bind at 1; unfold lift at 1;
    rewrite Hcheck; rewrite ?app_nil_r; destruct w; reflexivity.
Qed.

Lemma create_html_checked (source_path content : str) (w : world)
    (r : str * list (str * pyval)) (w' : world) :
  _create_html settings source_path content w = (Ok r, w') ->
  _check_yaml_metadata_block content = Ok tt.
Proof.
  intros Hrun.
  destruct (_check_yaml_metadata_block content) as [[]|e] eqn:Hcheck; [reflexivity|].
  destruct (create_html_rejected settings source_path content w e Hcheck)
    as (w1 & E & _).
  rewrite E in Hrun. discriminate.
Qed.

Lemma read_opened (source_path : str) (w : world) (r : str * list (str * pyval))
    (w' : world) :
  read settings source_path w = (Ok r, w') ->
  exists content,
    pelican_open source_path = Ok content
    /\ _create_html settings source_path content w = (Ok r, w').
Proof.
  unfold read. intros Hrun. apply bind_ok_inv in Hrun.
  destruct Hrun as (content & w0 & Hopen & Hrun).
  apply lift_ok_inv in Hopen. destruct Hopen as [Hopen ->].
  exists content. auto.
Qed.

(** A run of [_create_html] that returns, step by step. *)
Lemma create_html_ok_inv (source_path content : str) (w w' : world)
    (html : str) (metadata : list (str * pyval)) :
  _create_html settings source_path content w = (Ok (html, metadata), w') ->
  exists output page toc items base v,
    _check_yaml_metadata_block content = Ok tt
    /\ to_html (with_bibliographies source_path content)
         (merged_extensions settings w) = Ok output
    /\ _extract_contents output true = Ok (page, toc, PyDict items)
    /\ html = rewrite_links_in ENCODED_LINKS_TO_RAW_LINKS_MAP page
    /\ (forall w0, fst (_process_metadata (PyDict items) w0) = Ok base)
    /\ process_metadata (lit "toc") toc = Ok v
    /\ enable_extensions w' = merged_extensions settings w
    /\ trace w'
       = trace w
         ++ Convert (with_bibliographies source_path content)
              (merged_extensions settings w)
            :: hook_calls items
         ++ Hook (lit "toc") toc
            :: reading_time_calls settings (with_bibliographies source_path content)
    /\ (if reading_time_on settings then
          exists reading_time v',
            _calculate_reading_time settings
              (with_bibliographies source_path content) = Ok reading_time
            /\ process_metadata (lit "reading_time") (PyStr reading_time) = Ok v'
            /\ metadata
               = Dict.set (lit "reading_time") v' (Dict.set (lit "toc") v base)
        else metadata = Dict.set (lit "toc") v base).
Proof.
  intros Hrun. pose proof (create_html_checked _ _ _ _ _ Hrun) as Hcheck.
  rewrite (create_html_start source_path content w Hcheck) in Hrun.
  apply bind_ok_inv in Hrun. destruct Hrun as (output & w1 & Hmyst & Hrun).
  rewrite run_myst_run in Hmyst. cbn [enable_extensions trace] in Hmyst.
  injection Hmyst as Hmyst <-.
  apply bind_ok_inv in Hrun. destruct Hrun as ([[page toc] record] & w2 & Hextract & Hrun).
  apply lift_ok_inv in Hextract. destruct Hextract as [Hextract ->].
  apply bind_ok_inv in Hrun. destruct Hrun as (base & w3 & Hmeta & Hrun).
  apply process_metadata_run in Hmeta. destruct Hmeta as (items & -> & -> & Hbase).
  cbn [enable_extensions trace] in Hrun.
  apply bind_ok_inv in Hrun. destruct Hrun as (m1 & w4 & Htoc & Hrun).
  apply bind_ok_inv in Htoc. destruct Htoc as (v & w5 & Htoc & Hret).
  rewrite call_hook_run in Htoc. cbn [enable_extensions trace] in Htoc.
  injection Htoc as Htoc <-.
  apply ret_ok_inv in Hret. destruct Hret as [<- ->].
  apply bind_ok_inv in Hrun. destruct Hrun as (m2 & w6 & Htime & Hrun).
  apply ret_ok_inv in Hrun. destruct Hrun as [E ->]. injection E as <- <-.
  exists output, page, toc, items, base, v.
  do 6 (split; [first [assumption | reflexivity]|]).
  unfold reading_time_calls. destruct (reading_time_on settings).
  - apply bind_ok_inv in Htime. destruct Htime as (reading_time & w7 & Hcalc & Htime).
    apply lift_ok_inv in Hcalc. destruct Hcalc as [Hcalc ->].
    apply bind_ok_inv in Htime. destruct Htime as (v' & w8 & Hhook & Hret).
    rewrite call_hook_run in Hhook. cbn [enable_extensions trace] in Hhook.
    injection Hhook as Hhook <-.
    apply ret_ok_inv in Hret. destruct Hret as [<- ->].
    rewrite Hcalc. cbn [enable_extensions trace].
    split; [reflexivity|]. split.
    + rewrite <- !app_assoc. reflexivity.
    + exists reading_time, v'. auto.
  - apply ret_ok_inv in Htime. destruct Htime as [<- ->].
    cbn [enable_extensions trace].
    split; [reflexivity|]. split; [|reflexivity].
    rewrite <- !app_assoc. reflexivity.
Qed.

(** A run of [read] that returns, step by step. *)
Lemma read_ok_inv (source_path : str) (w w' : world)
    (html : str) (metadata : list (str * pyval)) :
  read settings source_path w = (Ok (html, metadata), w') ->
  exists content output page toc items base v,
    pelican_open source_path = Ok content
    /\ _check_yaml_metadata_block content = Ok tt
    /\ to_html (with_bibliographies source_path content)
         (merged_extensions settings w) = Ok output
    /\ _extract_contents output true = Ok (page, toc, PyDict items)
    /\ html = rewrite_links_in ENCODED_LINKS_TO_RAW_LINKS_MAP page
    /\ (forall w0, fst (_process_metadata (PyDict items) w0) = Ok base)
    /\ process_metadata (lit "toc") toc = Ok v
    /\ enable_extensions w' = merged_extensions settings w
    /\ trace w'
       = trace w
         ++ Convert (with_bibliographies source_path content)
              (merged_extensions settings w)
            :: hook_calls items
         ++ Hook (lit "toc") toc
            :: reading_time_calls settings (with_bibliographies source_path content)
    /\ (if reading_time_on settings then
          exists reading_time v',
            _calculate_reading_time settings
              (with_bibliographies source_path content) = Ok reading_time
            /\ process_metadata (lit "reading_time") (PyStr reading_time) = Ok v'
            /\ metadata
               = Dict.set (lit "reading_time") v' (Dict.set (lit "toc") v base)
        else metadata = Dict.set (lit "toc") v base).
Proof.
  intros Hrun. apply read_opened in Hrun. destruct Hrun as (content & Hopen & Hrun).
  apply create_html_ok_inv in Hrun.
  destruct Hrun as (output & page & toc & items & base & v & Hrun).
  exists content, output, page, toc, items, base, v. split; [exact Hopen | exact Hrun].
Qed.

(** X17. What [read] has done when it returns: the converter was called
    once, on the document with one directive appended per bibliography
    file and with the extension list as merged; the record on the first
    line of its output went through the hook item by item, then the table
    of contents, then (when enabled) the reading time; the page returned
    is the extracted one with its links rewritten. *)
Theorem read_success_trace (source_path : str) (w w' : world)
    (html : str) (metadata : list (str * pyval)) :
  read settings source_path w = (Ok (html, metadata), w') ->
  exists content output page toc items,
    pelican_open source_path = Ok content
    /\ to_html (with_bibliographies source_path content)
         (merged_extensions settings w) = Ok output
    /\ _extract_contents output true = Ok (page, toc, PyDict items)
    /\ html = rewrite_links_in ENCODED_LINKS_TO_RAW_LINKS_MAP page
    /\ trace w'
       = trace w
         ++ Convert (with_bibliographies source_path content)
              (merged_extensions settings w)
            :: hook_calls items
         ++ Hook (lit "toc") toc
            :: reading_time_calls settings (with_bibliographies source_path content).
Proof.
  intros Hrun. apply read_ok_inv in Hrun.
  destruct Hrun as (content & output & page & toc & items & base & v
                    & Hopen & _ & Hmyst & Hextract & Hhtml & _ & _ & _ & Htrace & _).
  exists content, output, page, toc, items. auto.
Qed.

(** X18. The metadata [read] returns: the reading time (when enabled) and
    the table of contents stand under their keys as the hook returned
    them, whatever the document declared under these names; every other
    key has the value [_process_metadata] gave it. *)
Theorem read_metadata_values (source_path : str) (w w' : world)
    (html : str) (metadata : list (str * pyval)) :
  read settings source_path w = (Ok (html, metadata), w') ->
  exists content output page toc items base,
    pelican_open source_path = Ok content
    /\ to_html (with_bibliographies source_path content)
         (merged_extensions settings w) = Ok output
    /\ _extract_contents output true = Ok (page, toc, PyDict items)
    /\ fst (_process_metadata (PyDict items) w) = Ok base
    /\ forall k,
         Dict.get k metadata
         = if reading_time_on settings && PyStr.eqb k (lit "reading_time") then
             match _calculate_reading_time settings
                     (with_bibliographies source_path content) with
             | Ok reading_time => returned (process_metadata k (PyStr reading_time))
             | Raise _ => None
             end
           else if PyStr.eqb k (lit "toc") then returned (process_metadata k toc)
           else Dict.get k base.
Proof.
  intros Hrun. apply read_ok_inv in Hrun.
  destruct Hrun as (content & output & page & toc & items & base & v
                    & Hopen & _ & Hmyst & Hextract & _ & Hbase & Htoc & _ & _ & Hmeta).
  exists content, output, page, toc, items, base.
  do 4 (split; [auto|]). intros k.
  assert (Hbasic : Dict.get k (Dict.set (lit "toc") v base)
                   = if PyStr.eqb k (lit "toc") then returned (process_metadata k toc)
                     else Dict.get k base).
  { rewrite dict_get_set. destruct (PyStr.eqb k (lit "toc")) eqn:E; [|reflexivity].
    apply eqb_eq in E. subst k. rewrite Htoc. reflexivity. }
  destruct (reading_time_on settings); cbn [andb].
  - destruct Hmeta as (reading_time & v' & Hcalc & Hhook & ->).
    rewrite dict_get_set. destruct (PyStr.eqb k (lit "reading_time")) eqn:E.
    + apply eqb_eq in E. subst k. rewrite Hcalc, Hhook. reflexivity.
    + exact Hbasic.
  - subst metadata. exact Hbasic.
Qed.

(** X19. When the converter raises, when its output cannot be taken
    apart, or when the record on its first line is no dictionary (an
    [AttributeError]), [read] raises that exception, the converter has
    been called once and the hook not at all. *)
Theorem read_conversion_failure (source_path content : str) (w : world) (e : exn) :
  pelican_open source_path = Ok content ->
  _check_yaml_metadata_block content = Ok tt ->
  to_html (with_bibliographies source_path content) (merged_extensions settings w)
  = Raise e
  \/ (exists output,
        to_html (with_bibliographies source_path content)
          (merged_extensions settings w) = Ok output
        /\ _extract_contents output true = Raise e)
  \/ (exists output page toc record,
        to_html (with_bibliographies source_path content)
          (merged_extensions settings w) = Ok output
        /\ _extract_contents output true = Ok (page, toc, record)
        /\ (forall items, record <> PyDict items)
        /\ e = AttributeError) ->
  read settings source_path w
  = (Raise e,
     {| enable_extensions := merged_extensions settings w;
        trace := trace w
                 ++ [Convert (with_bibliographies source_path content)
                       (merged_extensions settings w)] |}).
Proof.
  intros Hopen Hcheck Hfail. unfold read. unfold bind at 1. unfold lift at 1.
  rewrite Hopen. rewrite (create_html_start source_path content w Hcheck).
  unfold bind at 1. rewrite run_myst_run. cbn [enable_extensions trace].
  destruct Hfail as [-> | [(output & -> & Hextract)
                          | (output & page & toc & record & -> & Hextract & Hrecord & ->)]];
    [reflexivity | |]; unfold bind at 1; unfold lift at 1; rewrite Hextract;
    [reflexivity|].
  unfold bind at 1.
  destruct record as [| | | | | |items]; try reflexivity.
  exfalso. exact (Hrecord items eq_refl).
Qed.

(** X20. Whatever the outcome of [read], the converter is called at most
    once, on the document with its bibliography directives, and the hook
    only after it: every hook call follows the one conversion, and without
    a conversion there is no hook call. *)
Theorem read_call_order (source_path : str) (w : world) :
  exists conversions hooks,
    trace (snd (read settings source_path w)) = trace w ++ conversions ++ hooks
    /\ (conversions = []
        \/ exists content,
             pelican_open source_path = Ok content
             /\ conversions
                = [Convert (with_bibliographies source_path content)
                     (merged_extensions settings w)])
    /\ forallb is_hook hooks = true
    /\ (conversions = [] -> hooks = []).
Proof.
  unfold read. unfold bind at 1. unfold lift at 1.
  destruct (pelican_open source_path) as [content|e] eqn:Hopen.
  2: { exists [], []. cbn [snd app]. rewrite app_nil_r. auto. }
  destruct (_check_yaml_metadata_block content) as [[]|e] eqn:Hcheck.
  2: { destruct (create_html_rejected settings source_path content w e Hcheck)
         as (w1 & -> & Htrace).
       exists [], []. cbn [snd app]. rewrite app_nil_r. auto. }
  rewrite (create_html_start source_path content w Hcheck).
  match goal with
  | |- context [bind (_run_myst _) ?k] =>
      assert (Hk : forall output, hooks_only (k output))
  end.
  { intros output.
    repeat first
      [ apply hooks_only_bind; [|intros]
      | apply hooks_only_lift | apply hooks_only_ret
      | apply hooks_only_process_metadata | apply hooks_only_call_hook
      | match goal with
        | |- hooks_only (let '(_, _) := ?x in _) => destruct x
        | |- hooks_only (if ?b then _ else _) => destruct b
        end ]. }
  match goal with
  | |- context [bind (_run_myst _) ?k] => set (rest := k) in *
  end.
  unfold bind at 1. rewrite run_myst_run. cbn [enable_extensions trace].
  exists [Convert (with_bibliographies source_path content)
            (merged_extensions settings w)].
  destruct (to_html _ _) as [output|e]; cbv beta iota.
  - match goal with
    | |- context [rest output ?w1] => destruct (Hk output w1) as (hs & Hhs & Hall)
    end.
    exists hs. rewrite Hhs. cbn [trace]. rewrite <- app_assoc.
    split; [reflexivity|]. split; [right; exists content; auto|].
    split; [exact Hall | discriminate].
  - exists []. cbn [snd trace]. rewrite app_nil_r.
    split; [reflexivity|]. split; [right; exists content; auto|].
    split; [reflexivity | discriminate].
Qed.

End Pipeline.

Lemma read_conversion_failure_witness :
  let host := Demo.reader Demo.fragment in
  read [] (lit "valid_content.md") Demo.world0
  = (Raise AttributeError,
     {| enable_extensions := merged_extensions [] Demo.world0;
        trace := trace Demo.world0
                 ++ [Convert (with_bibliographies (lit "valid_content.md")
                                Demo.valid_content)
                       (merged_extensions [] Demo.world0)] |}).
Proof.
  apply (read_conversion_failure (host := Demo.reader Demo.fragment) []
           (lit "valid_content.md") Demo.valid_content Demo.world0 AttributeError).
  - reflexivity.
  - reflexivity.
  - right. left. exists (Demo.record_json ++ [newline] ++ Demo.render Demo.fragment).
    split; reflexivity.
Defined.

Lemma read_success_trace_witness :
  let host := Demo.reader Demo.page_with_toc in
  let settings := [(lit "CALCULATE_READING_TIME", PyBool true)] in
  let toc :=
    PyStr (lit "<nav class=" ++ [dquote] ++ lit "toc" ++ [dquote]
           ++ lit ">contents</nav>") in
  let metadata :=
    [(lit "title", PyStr (lit "Valid")); (lit "toc", toc);
     (lit "reading_time", PyStr (lit "1 minute"))] in
  let w' :=
    {| enable_extensions := [PyStr (lit "dollarmath")];
       trace := [Convert Demo.valid_content [PyStr (lit "dollarmath")];
                 Hook (lit "title") (PyStr (lit "Valid"));
                 Hook (lit "toc") toc;
                 Hook (lit "reading_time") (PyStr (lit "1 minute"))] |} in
  read settings (lit "valid_content.md") Demo.world0
  = (Ok (lit "<p>hi there</p>", metadata), w')
  /\ exists content output page toc' items,
       pelican_open (lit "valid_content.md") = Ok content
       /\ to_html (with_bibliographies (lit "valid_content.md") content)
            (merged_extensions settings Demo.world0) = Ok output
       /\ _extract_contents output true = Ok (page, toc', PyDict items)
       /\ lit "<p>hi there</p>"
          = rewrite_links_in ENCODED_LINKS_TO_RAW_LINKS_MAP page
       /\ trace w'
          = trace Demo.world0
            ++ Convert (with_bibliographies (lit "valid_content.md") content)
                 (merged_extensions settings Demo.world0)
               :: hook_calls items
            ++ Hook (lit "toc") toc'
               :: reading_time_calls settings
                    (with_bibliographies (lit "valid_content.md") content).
Proof.
  intros host settings toc metadata w'.
  assert (Hrun : read settings (lit "valid_content.md") Demo.world0
                 = (Ok (lit "<p>hi there</p>", metadata), w'))
    by (vm_compute; reflexivity).
  split; [exact Hrun|].
  exact (read_success_trace (host := host) settings (lit "valid_content.md")
           Demo.world0 w' (lit "<p>hi there</p>") metadata Hrun).
Defined.

Lemma read_metadata_values_witness :
  let host := Demo.reader Demo.page_with_toc in
  let settings := [(lit "CALCULATE_READING_TIME", PyBool true)] in
  let toc :=
    PyStr (lit "<nav class=" ++ [dquote] ++ lit "toc" ++ [dquote]
           ++ lit ">contents</nav>") in
  let metadata :=
    [(lit "title", PyStr (lit "Valid")); (lit "toc", toc);
     (lit "reading_time", PyStr (lit "1 minute"))] in
  fst (read settings (lit "valid_content.md") Demo.world0)
  = Ok (lit "<p>hi there</p>", metadata)
  /\ exists content output page toc' items base,
       pelican_open (lit "valid_content.md") = Ok content
       /\ to_html (with_bibliographies (lit "valid_content.md") content)
            (merged_extensions settings Demo.world0) = Ok output
       /\ _extract_contents output true = Ok (page, toc', PyDict items)
       /\ fst (_process_metadata (PyDict items) Demo.world0) = Ok base
       /\ forall k,
            Dict.get k metadata
            = if reading_time_on settings && PyStr.eqb k (lit "reading_time") then
                match _calculate_reading_time settings
                        (with_bibliographies (lit "valid_content.md") content) with
                | Ok reading_time => returned (process_metadata k (PyStr reading_time))
                | Raise _ => None
                end
              else if PyStr.eqb k (lit "toc") then returned (process_metadata k toc')
              else Dict.get k base.
Proof.
  intros host settings toc metadata. split; [vm_compute; reflexivity|].
  apply (read_metadata_values (host := host) settings (lit "valid_content.md")
           Demo.world0
           {| enable_extensions := [PyStr (lit "dollarmath")];
              trace := [Convert Demo.valid_content [PyStr (lit "dollarmath")];
                        Hook (lit "title") (PyStr (lit "Valid"));
                        Hook (lit "toc") toc;
                        Hook (lit "reading_time") (PyStr (lit "1 minute"))] |}
           (lit "<p>hi there</p>") metadata).
  vm_compute. reflexivity.
Defined.

(** ** The table of contents in the metadata *)

(** The table of contents [_extract_contents] returns when asked for one:
    the first navigation element of the body marked as such, as text with
    its [id] turned into a [class], or [None] when the body has none. *)
Lemma extract_contents_toc {host : Host} (html_output html : str) (toc record : pyval) :
  _extract_contents html_output true = Ok (html, toc, record) ->
  exists body,
    Soup.body (html_parser (snd (partition newline html_output))) = Some body
    /\ toc = match Soup.find Soup.is_toc body with
             | Some nav => PyStr (replace id_TOC class_toc (decode nav))
             | None => PyNone
             end.
Proof.
  unfold _extract_contents.
  destruct (partition newline html_output) as [[first sep] remainder].
  cbn [fst snd].
  destruct (json_loads first); cbn [result_bind]; [|discriminate].
  destruct (Soup.body (html_parser remainder)) as [body|]; [|discriminate].
  intros E. exists body. split; [reflexivity|].
  destruct (Soup.find Soup.is_toc body); cbn [result_bind] in E;
    destruct (Soup.unwrap_body _); try discriminate E;
    injection E as _ <- _; reflexivity.
Qed.

(** C3 (as the code has it). Whenever [_create_html] returns, the metadata
    has a [toc] key: the converter's output for the document is taken
    apart with a table of contents requested, and what this extraction
    gave (the navigation element of the body as text, or [None] when the
    body has none) goes through the hook and is stored under [toc]. A
    [read] that returns has opened the file and returns what
    [_create_html] returned for its content. *)
Theorem pipeline_always_sets_toc {host : Host}
    (settings : list (str * pyval)) (source_path : str) (w w' : world)
    (out : str) (metadata : list (str * pyval)) :
  (forall content,
      _create_html settings source_path content w = (Ok (out, metadata), w') ->
      exists converted html toc record body v,
        to_html (with_bibliographies source_path content)
          (merged_extensions settings w) = Ok converted
        /\ _extract_contents converted true = Ok (html, toc, record)
        /\ Soup.body (html_parser (snd (partition newline converted))) = Some body
        /\ toc = match Soup.find Soup.is_toc body with
                 | Some nav => PyStr (replace id_TOC class_toc (decode nav))
                 | None => PyNone
                 end
        /\ process_metadata (lit "toc") toc = Ok v
        /\ Dict.get (lit "toc") metadata = Some v)
  /\ (read settings source_path w = (Ok (out, metadata), w') ->
      exists content,
        pelican_open source_path = Ok content
        /\ _create_html settings source_path content w = (Ok (out, metadata), w')).
Proof.
  split; [|apply read_opened].
  intros content Hrun. apply create_html_ok_inv in Hrun.
  destruct Hrun as (converted & html & toc & items & base & v
                    & _ & Hmyst & Hextract & _ & _ & Htoc & _ & _ & Hmeta).
  destruct (extract_contents_toc _ _ _ _ Hextract) as (body & Hbody & Hform).
  exists converted, html, toc, (PyDict items), body, v.
  do 5 (split; [assumption|]).
  destruct (reading_time_on settings).
  - destruct Hmeta as (reading_time & v' & _ & _ & ->).
    rewrite dict_get_set_other by reflexivity. apply dict_get_set_same.
  - subst metadata. apply dict_get_set_same.
Qed.

Lemma pipeline_always_sets_toc_witness :
  let host := Demo.reader Demo.page in
  let metadata := [(lit "title", PyStr (lit "Valid")); (lit "toc", PyNone)] in
  let w' :=
    {| enable_extensions := [PyStr (lit "dollarmath")];
       trace := [Convert Demo.valid_content [PyStr (lit "dollarmath")];
                 Hook (lit "title") (PyStr (lit "Valid"));
                 Hook (lit "toc") PyNone] |} in
  _create_html [] (lit "valid_content.md") Demo.valid_content Demo.world0
  = (Ok (lit "<p>hi there</p>", metadata), w')
  /\ exists converted html toc record body v,
       to_html (with_bibliographies (lit "valid_content.md") Demo.valid_content)
         (merged_extensions [] Demo.world0) = Ok converted
       /\ _extract_contents converted true = Ok (html, toc, record)
       /\ Soup.body (html_parser (snd (partition newline converted))) = Some body
       /\ toc = match Soup.find Soup.is_toc body with
                | Some nav => PyStr (replace id_TOC class_toc (decode nav))
                | None => PyNone
                end
       /\ process_metadata (lit "toc") toc = Ok v
       /\ Dict.get (lit "toc") metadata = Some v.
Proof.
  intros host metadata w'.
  assert (Hrun : _create_html [] (lit "valid_content.md") Demo.valid_content
                   Demo.world0
                 = (Ok (lit "<p>hi there</p>", metadata), w'))
    by (vm_compute; reflexivity).
  split; [exact Hrun|].
  exact (proj1 (pipeline_always_sets_toc (host := host) [] (lit "valid_content.md")
                  Demo.world0 w' (lit "<p>hi there</p>") metadata)
           Demo.valid_content Hrun).
Defined.

(** C3 (as stated) fails: the converter's output holds no navigation
    element, the extraction yields no fragment, and the returned metadata
    has a [toc] key all the same. *)
Lemma toc_key_without_toc_element :
  let host := Demo.reader Demo.page in
  existsb Soup.is_toc (Soup.descendants Demo.page) = false
  /\ to_html Demo.valid_content [PyStr (lit "dollarmath")]
     = Ok (Demo.record_json ++ [newline] ++ lit "<body><p>hi there</p></body>")
  /\ exists html metadata,
       fst (read [] (lit "valid_content.md") Demo.world0) = Ok (html, metadata)
       /\ Dict.has (lit "toc") metadata = true.
Proof.
  split; [reflexivity|]. split; [reflexivity|].
  eexists. eexists. split; reflexivity.
Qed.

(** ** Reading speeds that are no finite number *)

(** The float of a word count is zero or a positive finite number. *)
Lemma of_int_word_count (n : Z) :
  (0 <= n < 2 ^ 53)%Z ->
  PyFloat.of_int n = Ok (S754_zero false)
  \/ exists m e, PyFloat.of_int n = Ok (S754_finite false m e).
Proof.
  intros Hn. destruct n as [|z|z]; [left; reflexivity | right | lia].
  destruct (Binary64.of_int_normal z (proj2 Hn)) as (m & e & H & _).
  exists m, e. exact H.
Qed.

(** X21. A reading speed that is a float but no finite number: for NaN
    the estimator reports that the setting must be a number; for an
    infinite speed every document takes "0 minutes". *)
Theorem reading_time_nonfinite_speed {host : Host}
    (settings : list (str * pyval)) (content : str) :
  let reading_speed :=
    Dict.get_default (lit "READING_SPEED") DEFAULT_READING_SPEED settings in
  (0 <= count_words_in_markdown content < 2 ^ 53)%Z ->
  (py_float reading_speed = Ok S754_nan ->
   _calculate_reading_time settings content
   = Raise (ValueError (lit "READING_SPEED setting must be a number.")))
  /\ (forall sign,
         py_float reading_speed = Ok (S754_infinity sign) ->
         _calculate_reading_time settings content = Ok (lit "0 minutes")).
Proof.
  cbv zeta. intros Hwords. unfold _calculate_reading_time.
  destruct (of_int_word_count _ Hwords) as [-> | (m & e & ->)];
    (split; [intros -> | intros sign ->]); reflexivity.
Qed.

Lemma reading_time_nonfinite_speed_witness :
  let host := Demo.reader Demo.page in
  _calculate_reading_time [(lit "READING_SPEED", PyFloat (S754_infinity false))]
    Demo.valid_content
  = Ok (lit "0 minutes").
Proof.
  refine (proj2 (reading_time_nonfinite_speed (host := Demo.reader Demo.page)
                   [(lit "READING_SPEED", PyFloat (S754_infinity false))]
                   Demo.valid_content _)
            false _).
  - split; [discriminate | reflexivity].
  - reflexivity.
Defined.

(** ** The reading time in the pipeline *)

Lemma process_items_ok_run {host : Host} (items : list (str * pyval)) :
  forall (acc base : list (str * pyval)) (w0 : world),
    fst (process_items items acc w0) = Ok base ->
    forall w,
      process_items items acc w
      = (Ok base,
         {| enable_extensions := enable_extensions w;
            trace := trace w ++ hook_calls items |}).
Proof.
  induction items as [|[key value] items IH]; intros acc base w0.
  - cbn. intros E w. injection E as <-. rewrite app_nil_r. destruct w. reflexivity.
  - cbn [process_items]. unfold bind. rewrite call_hook_run.
    destruct (process_metadata (str_lower key) (stripped value)) as [v|e] eqn:Ehook;
      [|discriminate].
    intros E w. rewrite call_hook_run, Ehook. rewrite (IH _ _ _ E).
    cbn [enable_extensions trace hook_calls map fst snd]. rewrite <- app_assoc.
    reflexivity.
Qed.

Section PipelineFailures.

Context {host : Host}.
Variable settings : list (str * pyval).

(** X22. With the reading time enabled, an estimator that raises (a
    READING_SPEED that is no number, or zero) makes [read] raise the same
    exception for a document that is sound in every other respect, and
    late: the document has been converted and the hook called for every
    item of the record and for the table of contents. *)
Theorem read_reading_time_failure (source_path content output page : str)
    (toc v : pyval) (items base : list (str * pyval)) (w : world) (e : exn) :
  pelican_open source_path = Ok content ->
  _check_yaml_metadata_block content = Ok tt ->
  to_html (with_bibliographies source_path content) (merged_extensions settings w)
  = Ok output ->
  _extract_contents output true = Ok (page, toc, PyDict items) ->
  fst (_process_metadata (PyDict items) w) = Ok base ->
  process_metadata (lit "toc") toc = Ok v ->
  reading_time_on settings = true ->
  _calculate_reading_time settings (with_bibliographies source_path content)
  = Raise e ->
  read settings source_path w
  = (Raise e,
     {| enable_extensions := merged_extensions settings w;
        trace := trace w
                 ++ Convert (with_bibliographies source_path content)
                      (merged_extensions settings w)
                    :: hook_calls items ++ [Hook (lit "toc") toc] |}).
Proof.
  intros Hopen Hcheck Hmyst Hextract Hbase Htoc Hon Hcalc.
  unfold read. unfold bind at 1. unfold lift at 1. rewrite Hopen.
  rewrite (create_html_start settings source_path content w Hcheck).
  unfold bind at 1. rewrite run_myst_run. cbn [enable_extensions trace].
  rewrite Hmyst. unfold bind at 1. unfold lift at 1. rewrite Hextract.
  unfold bind at 1. cbn [_process_metadata] in *.
  rewrite (process_items_ok_run items [] base w Hbase).
  cbn [enable_extensions trace].
  unfold bind at 1. unfold bind at 1. rewrite call_hook_run, Htoc.
  cbn [enable_extensions trace ret].
  rewrite Hon. unfold bind at 1. unfold bind at 1. unfold lift at 1.
  rewrite Hcalc. rewrite <- !app_assoc. reflexivity.
Qed.

(** X23. With the reading time not enabled, READING_SPEED is never looked
    at: whatever is configured there, [read] does the same. *)
Theorem read_ignores_reading_speed_when_off (speed : pyval)
    (source_path : str) (w : world) :
  reading_time_on settings = false ->
  read (Dict.set (lit "READING_SPEED") speed settings) source_path w
  = read settings source_path w.
Proof.
  unfold reading_time_on. intros Hoff. unfold read, bind.
  destruct (lift (pelican_open source_path) w) as [[content|e] w0]; [|reflexivity].
  unfold _create_html. cbv zeta.
  rewrite !(dict_get_default_set_other _ (lit "READING_SPEED")) by reflexivity.
  rewrite Hoff. reflexivity.
Qed.

End PipelineFailures.

Lemma read_reading_time_failure_witness :
  let host := Demo.reader Demo.page in
  let settings :=
    [(lit "CALCULATE_READING_TIME", PyBool true); (lit "READING_SPEED", PyInt 0)] in
  read settings (lit "valid_content.md") Demo.world0
  = (Raise ZeroDivisionError,
     {| enable_extensions := merged_extensions settings Demo.world0;
        trace := trace Demo.world0
                 ++ Convert (with_bibliographies (lit "valid_content.md")
                               Demo.valid_content)
                      (merged_extensions settings Demo.world0)
                    :: hook_calls [(lit "Title", PyStr (lit "Valid"))]
                    ++ [Hook (lit "toc") PyNone] |}).
Proof.
  intros host settings.
  apply (read_reading_time_failure (host := host) settings (lit "valid_content.md")
           Demo.valid_content
           (Demo.record_json ++ [newline] ++ Demo.render Demo.page)
           (lit "<p>hi there</p>") PyNone PyNone
           [(lit "Title", PyStr (lit "Valid"))]
           [(lit "title", PyStr (lit "Valid"))]
           Demo.world0 ZeroDivisionError);
    vm_compute; reflexivity.
Defined.

Lemma read_ignores_reading_speed_when_off_witness :
  let host := Demo.reader Demo.page in
  read (Dict.set (lit "READING_SPEED") (PyStr (lit "fast")) []) (lit "valid_content.md")
    Demo.world0
  = read [] (lit "valid_content.md") Demo.world0.
Proof.
  apply (read_ignores_reading_speed_when_off (host := Demo.reader Demo.page) []
           (PyStr (lit "fast")) (lit "valid_content.md") Demo.world0).
  reflexivity.
Defined.
